(** * Payment provider abstraction layer: adapters, registry, batch dispatcher

    A shallow embedding of the Go packages [domain], [config] and
    [providers] (ProviderA, ProviderB, Factory) together with the
    properties of the provider abstraction layer.

    Conventions.
    - [float64] is the IEEE-754 binary64 model of the Standard Library
      ([spec_float]); Go's [a <= b] is [SFleb a b] and [a > b] is
      [SFltb b a], so comparisons with NaN are false as in Go.
    - Go's [int]/[int64] are [Z] with the two's-complement wrap written out.
    - A Go result pair of a Payment pointer and a PaymentError pointer is a
      pair of options, [None] standing for [nil].
    - Library calls whose code is not part of the repository
      (encoding/json, strconv, net/http request construction, fmt) are the
      fields of a [Runtime] record; the network is a function from the
      request to what [httpClient.Do] yields.
    - Logging has no effect on any result and is left out. *)

From Stdlib Require Import ZArith String List SpecFloat.
From stdpp Require Import gmap strings list relations.

Open Scope string_scope.
Open Scope Z_scope.

(** ** Primitive Go types *)

Definition float64 : Type := spec_float.

Definition f64_zero : float64 := S754_zero false.
Definition f64_le (a b : float64) : bool := SFleb a b.   (* a <= b *)
Definition f64_gt (a b : float64) : bool := SFltb b a.   (* a > b  *)

(** The float64 nearest to an integer, for literals such as [10000.0]. *)
Definition f64_of_Z (z : Z) : float64 := binary_normalize 53 1024 z 0 false.

Definition int64_wrap (z : Z) : Z := (z + 2 ^ 63) mod 2 ^ 64 - 2 ^ 63.
Definition int64_add (a b : Z) : Z := int64_wrap (a + b).
Definition int64_max : Z := 2 ^ 63 - 1.

(** [time.Time], reduced to what [IsZero] reads: the seconds since
    January 1, year 1 00:00:00 UTC and the nanoseconds within the second. *)
Record Time : Type := mkTime { t_sec : Z; t_nsec : Z }.

Definition unixToInternal : Z := 62135596800.

Definition Time_IsZero (t : Time) : bool := (t_sec t =? 0) && (t_nsec t =? 0).

(** [time.Unix(sec, 0)]. *)
Definition time_Unix (sec : Z) : Time := mkTime (sec + unixToInternal) 0.

Definition Time_zero : Time := mkTime 0 0.

(** A Go [(T, error)] pair where exactly one side is meaningful. *)
Inductive Result (A : Type) : Type :=
| Ok (a : A)
| Err (msg : string).
Arguments Ok {A} a.
Arguments Err {A} msg.

(** ** Package domain *)

Module domain.

Definition PaymentStatus : Type := string.
Definition StatusPending : PaymentStatus := "PENDING".
Definition StatusApproved : PaymentStatus := "APPROVED".
Definition StatusDeclined : PaymentStatus := "DECLINED".
Definition StatusError : PaymentStatus := "ERROR".
Definition StatusCancelled : PaymentStatus := "CANCELLED".
Definition StatusRefunded : PaymentStatus := "REFUNDED".

Definition Currency : Type := string.
Definition USD : Currency := "USD".
Definition EUR : Currency := "EUR".
Definition GBP : Currency := "GBP".

(** The optional fields of the Go struct (TransactionID, ReferenceID,
    ErrorCode, ...) are never assigned by the adapters and keep their
    zero value; they are not carried here. *)
Record Payment : Type := mkPayment {
  ID : string;
  Amount : float64;
  Currency_ : Currency;
  Status : PaymentStatus;
  Provider : string;
  Timestamp : Time
}.

Record PaymentError : Type := mkPaymentError {
  Code : string;
  Message : string;
  EProvider : string;
  Details : option string;
  Retryable : bool;
  HTTPStatus : Z
}.

Definition ErrInsufficientFunds := "INSUFFICIENT_FUNDS".
Definition ErrCardDeclined := "CARD_DECLINED".
Definition ErrInvalidAmount := "INVALID_AMOUNT".
Definition ErrInvalidCurrency := "INVALID_CURRENCY".
Definition ErrProviderNotFound := "PROVIDER_NOT_FOUND".
Definition ErrProviderUnavailable := "PROVIDER_UNAVAILABLE".
Definition ErrProviderTimeout := "PROVIDER_TIMEOUT".
Definition ErrProviderInvalidResp := "PROVIDER_INVALID_RESPONSE".
Definition ErrInvalidConfiguration := "INVALID_CONFIGURATION".
Definition ErrInvalidTimestamp := "INVALID_TIMESTAMP".
Definition ErrNetworkError := "NETWORK_ERROR".
Definition ErrInternalError := "INTERNAL_ERROR".
Definition ErrRateLimitExceeded := "RATE_LIMIT_EXCEEDED".
Definition ErrTooManyRetries := "TOO_MANY_RETRIES".
Definition ErrDuplicateTransaction := "DUPLICATE_TRANSACTION".
Definition ErrTransactionNotFound := "TRANSACTION_NOT_FOUND".

End domain.
Import domain.

(** What a Go function returning a Payment pointer and a PaymentError
    pointer returns. *)
Definition GoResult : Type := (option Payment * option PaymentError)%type.

(** A [&domain.PaymentError{Code: c, Message: m}] literal: the fields that
    are not named take their zero value. *)
Definition PaymentError_lit (code msg : string) : PaymentError :=
  mkPaymentError code msg "" None false 0.

(** ** Package config *)

Module config.

(** Timeout, RetryCount, Description, RetryPolicy and RateLimit are only
    read by [GetMetadata]; Timeout and RetryCount are kept as samples of
    the carried data. *)
Record PaymentProviderConfig : Type := mkPaymentProviderConfig {
  Name : string;
  Endpoint : string;
  Timeout : Z;
  RetryCount : Z;
  MaxAmount : float64;
  Description : string
}.

End config.
Import config.

(** ** Net/http and the library calls of the adapters *)

Record HttpRequest : Type := mkHttpRequest {
  Method : string;
  URL : string;
  Header : list (string * string);
  ReqBody : string
}.

(** [req.Header.Set(k, v)]. *)
Definition Header_Set (req : HttpRequest) (k v : string) : HttpRequest :=
  mkHttpRequest (Method req) (URL req)
    ((k, v) :: filter (fun kv => negb (String.eqb (fst kv) k)) (Header req))
    (ReqBody req).

(** An http.Response: the status code and what [io.ReadAll(resp.Body)]
    will yield. *)
Record HttpResponse : Type := mkHttpResponse {
  StatusCode : Z;
  Body : Result string
}.

(** What [httpClient.Do(req)] yields: an error (with its [Error()] text)
    or a response. *)
Inductive HttpOutcome : Type :=
| DoErr (msg : string)
| DoResp (resp : HttpResponse).

(** The transport, as [MockTransport.RoundTripFunc] has it. *)
Definition Network : Type := HttpRequest -> HttpOutcome.

Definition StatusTooManyRequests : Z := 429.
Definition StatusInternalServerError : Z := 500.
Definition StatusBadRequest : Z := 400.
Definition StatusOK : Z := 200.

(** The anonymous response struct of ProviderA. *)
Record ResponseA : Type := mkResponseA {
  ra_TransactionID : string;
  ra_Status : string;
  ra_Amount : float64;
  ra_Currency : string;
  ra_Timestamp : Time
}.

(** The anonymous response struct of ProviderB. *)
Record ResponseB : Type := mkResponseB {
  rb_PaymentID : string;
  rb_State : string;
  rb_Value_Amount : string;
  rb_Value_CurrencyCode : string;
  rb_ProcessedAt : Z
}.

(** Library functions the adapters call. [json_Unmarshal_A] and
    [json_Unmarshal_B] decode into the two response structs (an absent
    JSON member leaves the zero value of its field). *)
Record Runtime : Type := mkRuntime {
  json_Marshal : float64 -> string -> Result string;
  http_NewRequestWithContext : string -> string -> string -> Result HttpRequest;
  json_Unmarshal_A : string -> Result ResponseA;
  json_Unmarshal_B : string -> Result ResponseB;
  strconv_ParseFloat : string -> Result float64;
  fmt_float : float64 -> string;
  fmt_int : Z -> string
}.

(** The calls an adapter makes to the outside, in the order made. *)
Inductive Event : Type :=
| EvHttpDo (req : HttpRequest)
| EvReadAll
| EvUnmarshal (body : string).

Definition is_http_call (e : Event) : bool :=
  match e with EvHttpDo _ => true | _ => false end.

Definition parses_body (e : Event) : bool :=
  match e with EvUnmarshal _ => true | EvReadAll => true | _ => false end.

Definition ret_err (e : PaymentError) : GoResult := (None, Some e).
Definition ret_ok (p : Payment) : GoResult := (Some p, None).

(** The [*http.Client] the factory hands to every adapter. Its transport
    is the environment: each [ProcessPayment] receives, as [net], what the
    transport answers during that call. *)
Record http_Client : Type := mkClient { ClientTimeout : Z }.

(** ** ProviderB *)

Record ProviderB : Type := mkProviderB {
  pb_config : PaymentProviderConfig;
  pb_httpClient : http_Client
}.

Definition NewProviderB (cfg : PaymentProviderConfig) (client : http_Client) : ProviderB :=
  mkProviderB cfg client.

Definition ProviderB_Name (p : ProviderB) : string := Name (pb_config p).

Section AdapterB.

Context (rt : Runtime).

(** ProviderB.ProcessPayment from the status check on, [resp] being the
    response [httpClient.Do] returned and [tr] the calls made so far. *)
Definition ProviderB_handleResponse (p : ProviderB) (resp : HttpResponse)
    (tr : list Event) : GoResult * list Event :=
  if 500 <=? StatusCode resp then
    (ret_err (mkPaymentError ErrProviderUnavailable
                ("Provider error: " +:+ fmt_int rt (StatusCode resp))
                (ProviderB_Name p) None true 0), tr)
  else if StatusCode resp =? StatusTooManyRequests then
    (ret_err (mkPaymentError ErrRateLimitExceeded "Rate limit exceeded"
                (ProviderB_Name p) None true 0), tr)
  else if 400 <=? StatusCode resp then
    (ret_err (mkPaymentError ErrProviderInvalidResp
                ("Invalid request: " +:+ fmt_int rt (StatusCode resp))
                (ProviderB_Name p) None false 0), tr)
  else
    match Body resp with
    | Err e =>
        (ret_err (mkPaymentError ErrInternalError
                    ("Failed to read response body: " +:+ e)
                    (ProviderB_Name p) None true 0), (tr ++ [EvReadAll])%list)
    | Ok respBody =>
        let tr := (tr ++ [EvReadAll; EvUnmarshal respBody])%list in
        match json_Unmarshal_B rt respBody with
        | Err e =>
            (ret_err (mkPaymentError ErrProviderInvalidResp
                        ("Failed to parse provider response: " +:+ e)
                        (ProviderB_Name p) (Some respBody) false 0), tr)
        | Ok response =>
            if String.eqb (rb_State response) "SUCCESS" then
              let status := StatusApproved in
              match strconv_ParseFloat rt (rb_Value_Amount response) with
              | Err e =>
                  (ret_err (mkPaymentError ErrProviderInvalidResp
                              ("Invalid amount format in response: " +:+ e)
                              (ProviderB_Name p) None false 0), tr)
              | Ok amount =>
                  if String.eqb (rb_Value_CurrencyCode response) "" then
                    (ret_err (mkPaymentError ErrProviderInvalidResp
                                "Missing currency in provider response"
                                (ProviderB_Name p) None false 0), tr)
                  else
                    (ret_ok (mkPayment (rb_PaymentID response) amount
                               (rb_Value_CurrencyCode response) status
                               (ProviderB_Name p)
                               (time_Unix (Z.quot (rb_ProcessedAt response) 1000))), tr)
              end
            else if String.eqb (rb_State response) "FAILED" then
              (ret_err (mkPaymentError ErrCardDeclined
                          "Payment was declined by provider"
                          (ProviderB_Name p) None false 0), tr)
            else
              (ret_err (mkPaymentError ErrProviderInvalidResp
                          ("Invalid payment status from provider: " +:+ rb_State response)
                          (ProviderB_Name p) None false 0), tr)
        end
    end.

Definition ProviderB_ProcessPayment (p : ProviderB) (net : Network)
    (amount : float64) (currency : string) : GoResult * list Event :=
  if f64_le amount f64_zero then
    (ret_err (PaymentError_lit ErrInvalidAmount "Amount must be greater than 0"), [])
  else if f64_gt amount (MaxAmount (pb_config p)) then
    (ret_err (PaymentError_lit ErrInvalidAmount
                ("Amount exceeds maximum limit of " +:+ fmt_float rt (MaxAmount (pb_config p)))), [])
  else if String.eqb currency "" then
    (ret_err (PaymentError_lit ErrInvalidCurrency "Currency is required"), [])
  else
    match json_Marshal rt amount currency with
    | Err e =>
        (ret_err (mkPaymentError ErrInternalError "Failed to marshal request body"
                    (ProviderB_Name p) (Some e) false 0), [])
    | Ok body =>
        match http_NewRequestWithContext rt "POST" (Endpoint (pb_config p)) body with
        | Err e =>
            (ret_err (PaymentError_lit ErrInternalError "Failed to create request"), [])
        | Ok req0 =>
            let req := Header_Set req0 "Content-Type" "application/json" in
            match net req with
            | DoErr e =>
                let errCode :=
                  if String.eqb e "context deadline exceeded"
                  then ErrProviderTimeout else ErrNetworkError in
                (ret_err (mkPaymentError errCode ("Failed to send request: " +:+ e)
                            (ProviderB_Name p) None true 0), [EvHttpDo req])
            | DoResp resp => ProviderB_handleResponse p resp [EvHttpDo req]
            end
        end
    end.

End AdapterB.

(** ** ProviderA *)

Record ProviderA : Type := mkProviderA {
  pa_config : PaymentProviderConfig;
  pa_httpClient : http_Client
}.

Definition NewProviderA (cfg : PaymentProviderConfig) (client : http_Client) : ProviderA :=
  mkProviderA cfg client.

Definition ProviderA_Name (p : ProviderA) : string := Name (pa_config p).

Section AdapterA.

Context (rt : Runtime).

(** ProviderA.ProcessPayment from the [switch resp.StatusCode] on. The
    switch has three cases and no default: every other status code falls
    through to reading and decoding the body. *)
Definition ProviderA_handleResponse (p : ProviderA) (resp : HttpResponse)
    (tr : list Event) : GoResult * list Event :=
  if StatusCode resp =? StatusTooManyRequests then
    (ret_err (mkPaymentError ErrRateLimitExceeded "Rate limit exceeded"
                (ProviderA_Name p) None true (StatusCode resp)), tr)
  else if StatusCode resp =? StatusInternalServerError then
    (ret_err (mkPaymentError ErrInternalError "Provider internal error"
                (ProviderA_Name p) None true (StatusCode resp)), tr)
  else if StatusCode resp =? StatusBadRequest then
    (ret_err (mkPaymentError ErrInvalidAmount "Invalid request parameters"
                (ProviderA_Name p) None false (StatusCode resp)), tr)
  else
    match Body resp with
    | Err e =>
        (ret_err (mkPaymentError ErrInternalError
                    ("Failed to read response body: " +:+ e)
                    (ProviderA_Name p) (Some e) true 0), (tr ++ [EvReadAll])%list)
    | Ok respBody =>
        let tr := (tr ++ [EvReadAll; EvUnmarshal respBody])%list in
        match json_Unmarshal_A rt respBody with
        | Err e =>
            (ret_err (mkPaymentError ErrProviderInvalidResp
                        ("Failed to parse response: " +:+ e)
                        (ProviderA_Name p) (Some respBody) false 0), tr)
        | Ok response =>
            if String.eqb (ra_TransactionID response) ""
               || String.eqb (ra_Status response) ""
               || String.eqb (ra_Currency response) "" then
              (ret_err (mkPaymentError ErrProviderInvalidResp
                          "Missing required fields in response"
                          (ProviderA_Name p) (Some respBody) false 0), tr)
            else if Time_IsZero (ra_Timestamp response) then
              (ret_err (mkPaymentError ErrProviderInvalidResp
                          "Invalid timestamp in response"
                          (ProviderA_Name p) (Some respBody) false 0), tr)
            else if String.eqb (ra_Status response) "APPROVED" then
              (ret_ok (mkPayment (ra_TransactionID response) (ra_Amount response)
                         (ra_Currency response) (ra_Status response)
                         (ProviderA_Name p) (ra_Timestamp response)), tr)
            else if String.eqb (ra_Status response) "DECLINED" then
              (ret_err (mkPaymentError ErrCardDeclined "Payment was declined"
                          (ProviderA_Name p) None false 0), tr)
            else
              (ret_err (mkPaymentError ErrProviderInvalidResp
                          ("Invalid payment status: " +:+ ra_Status response)
                          (ProviderA_Name p) (Some respBody) false 0), tr)
        end
    end.

Definition ProviderA_ProcessPayment (p : ProviderA) (net : Network)
    (amount : float64) (currency : string) : GoResult * list Event :=
  if f64_le amount f64_zero then
    (ret_err (mkPaymentError ErrInvalidAmount "Amount must be greater than 0"
                (ProviderA_Name p) None false 0), [])
  else if f64_gt amount (MaxAmount (pa_config p)) then
    (ret_err (mkPaymentError ErrInvalidAmount
                ("Amount exceeds maximum limit of " +:+ fmt_float rt (MaxAmount (pa_config p)))
                (ProviderA_Name p) None false 0), [])
  else if String.eqb currency ""
          || (negb (String.eqb currency USD) && negb (String.eqb currency EUR)
              && negb (String.eqb currency GBP)) then
    (ret_err (mkPaymentError ErrInvalidCurrency "Invalid or unsupported currency"
                (ProviderA_Name p) None false 0), [])
  else
    match json_Marshal rt amount currency with
    | Err e =>
        (ret_err (mkPaymentError ErrInternalError
                    ("Failed to marshal request body: " +:+ e)
                    (ProviderA_Name p) (Some e) false 0), [])
    | Ok body =>
        match http_NewRequestWithContext rt "POST" (Endpoint (pa_config p)) body with
        | Err e =>
            (ret_err (mkPaymentError ErrInternalError
                        ("Failed to create request: " +:+ e)
                        (ProviderA_Name p) None false 0), [])
        | Ok req0 =>
            let req := Header_Set req0 "Content-Type" "application/json" in
            match net req with
            | DoErr e =>
                (ret_err (mkPaymentError ErrNetworkError
                            ("Failed to send request: " +:+ e)
                            (ProviderA_Name p) (Some e) true 0), [EvHttpDo req])
            | DoResp resp => ProviderA_handleResponse p resp [EvHttpDo req]
            end
        end
    end.

End AdapterA.

(** ** The PaymentProvider interface and its two implementations *)

Inductive PaymentProvider : Type :=
| IsProviderA (p : ProviderA)
| IsProviderB (p : ProviderB).

Definition PaymentProvider_Name (p : PaymentProvider) : string :=
  match p with
  | IsProviderA a => ProviderA_Name a
  | IsProviderB b => ProviderB_Name b
  end.

Definition PaymentProvider_ProcessPayment (rt : Runtime) (p : PaymentProvider)
    (net : Network) (amount : float64) (currency : string) : GoResult * list Event :=
  match p with
  | IsProviderA a => ProviderA_ProcessPayment rt a net amount currency
  | IsProviderB b => ProviderB_ProcessPayment rt b net amount currency
  end.

(** ** Factory: the provider registry *)

Record ProviderState : Type := mkProviderState {
  IsAvailable : bool;
  LastChecked : Time;
  ConsecutiveErrs : Z;
  ErrorCount : Z;
  SuccessCount : Z;
  LastError : option PaymentError
}.

(** [&ProviderState{}]. *)
Definition ProviderState_zero : ProviderState :=
  mkProviderState false Time_zero 0 0 0 None.

(** The two maps hold pointers in Go; they are only reached through the
    maps, so an in-place update of a [*ProviderState] is the replacement
    of the map entry. The mutexes make each method body below one atomic
    step. *)
Record Factory : Type := mkFactory {
  f_config : gmap string PaymentProviderConfig;
  f_httpClient : http_Client;
  providers : gmap string PaymentProvider;
  providerStates : gmap string ProviderState
}.

Definition NewFactory (cfg : gmap string PaymentProviderConfig) (client : http_Client) : Factory :=
  mkFactory cfg client ∅ ∅.

(** The tail shared by getOrCreateProvider and CreateProvider: initialise
    the provider state, cache the adapter, return it. *)
Definition Factory_install (now : Time) (f : Factory) (name : string)
    (provider : PaymentProvider) : (PaymentProvider + PaymentError) * Factory :=
  (inl provider,
   mkFactory (f_config f) (f_httpClient f)
     (<[name := provider]> (providers f))
     (<[name := mkProviderState true now 0 0 0 None]> (providerStates f))).

(** [now] is what [time.Now()] returns if the provider is created. *)
Definition Factory_getOrCreateProvider (now : Time) (f : Factory) (providerName : string)
    : (PaymentProvider + PaymentError) * Factory :=
  match providers f !! providerName with
  | Some provider => (inl provider, f)
  | None =>
      match f_config f !! providerName with
      | None =>
          (inr (PaymentError_lit ErrProviderNotFound
                  ("Provider " +:+ providerName +:+ " not found")), f)
      | Some providerConfig =>
          if String.eqb providerName "ProviderA" then
            Factory_install now f providerName
              (IsProviderA (NewProviderA providerConfig (f_httpClient f)))
          else if String.eqb providerName "ProviderB" then
            Factory_install now f providerName
              (IsProviderB (NewProviderB providerConfig (f_httpClient f)))
          else
            (inr (PaymentError_lit ErrProviderNotFound
                    ("Provider " +:+ providerName +:+ " not supported")), f)
      end
  end.

Definition Factory_updateProviderState (now : Time) (f : Factory) (providerName : string)
    (success : bool) (err : option PaymentError) : Factory :=
  let state :=
    match providerStates f !! providerName with
    | Some state => state
    | None => ProviderState_zero
    end in
  let state' :=
    if success then
      mkProviderState true now 0 (ErrorCount state)
        (int64_add (SuccessCount state) 1) (LastError state)
    else
      let errs := int64_add (ConsecutiveErrs state) 1 in
      mkProviderState (if 3 <=? errs then false else IsAvailable state) now errs
        (int64_add (ErrorCount state) 1) (SuccessCount state) err in
  mkFactory (f_config f) (f_httpClient f) (providers f)
    (<[providerName := state']> (providerStates f)).

(** What one [Factory.ProcessPayment] call meets outside the factory: the
    transport's answer and the two readings of the clock. *)
Record Env : Type := mkEnv {
  env_net : Network;
  env_now_create : Time;
  env_now_update : Time
}.

Definition Factory_ProcessPayment (rt : Runtime) (env : Env) (f : Factory)
    (providerName : string) (amount : float64) (currency : string)
    : GoResult * Factory :=
  match Factory_getOrCreateProvider (env_now_create env) f providerName with
  | (inr err, f1) => ((None, Some err), f1)
  | (inl provider, f1) =>
      let '(payment, paymentErr) :=
        fst (PaymentProvider_ProcessPayment rt provider (env_net env) amount currency) in
      match paymentErr with
      | Some e =>
          ((None, Some e),
           Factory_updateProviderState (env_now_update env) f1 providerName false (Some e))
      | None =>
          ((payment, None),
           Factory_updateProviderState (env_now_update env) f1 providerName true None)
      end
  end.

Definition Factory_validateProviderConfig (cfg : PaymentProviderConfig) : option PaymentError :=
  if String.eqb (Name cfg) "" then
    Some (PaymentError_lit ErrInvalidConfiguration "Provider name is required")
  else if String.eqb (Endpoint cfg) "" then
    Some (PaymentError_lit ErrInvalidConfiguration
            ("Endpoint is required for provider " +:+ Name cfg))
  else if f64_le (MaxAmount cfg) f64_zero then
    Some (PaymentError_lit ErrInvalidConfiguration
            ("Invalid max amount for provider " +:+ Name cfg))
  else None.

Definition Factory_CreateProvider (now : Time) (f : Factory) (name : string)
    : (PaymentProvider + PaymentError) * Factory :=
  match providers f !! name with
  | Some provider => (inl provider, f)
  | None =>
      match f_config f !! name with
      | None =>
          (inr (PaymentError_lit ErrProviderNotFound
                  ("No configuration found for provider: " +:+ name)), f)
      | Some cfg =>
          match Factory_validateProviderConfig cfg with
          | Some err => (inr err, f)
          | None =>
              if String.eqb name "ProviderA" then
                Factory_install now f name
                  (IsProviderA (NewProviderA cfg (f_httpClient f)))
              else if String.eqb name "ProviderB" then
                Factory_install now f name
                  (IsProviderB (NewProviderB cfg (f_httpClient f)))
              else
                (inr (PaymentError_lit ErrProviderNotFound
                        ("Unknown provider type: " +:+ name)), f)
          end
      end
  end.

(** The exported variant: a name without a state record is ignored. *)
Definition Factory_UpdateProviderState (now : Time) (f : Factory) (name : string)
    (err : option PaymentError) : Factory :=
  match providerStates f !! name with
  | None => f
  | Some state =>
      let state' :=
        match err with
        | Some _ =>
            let errs := int64_add (ConsecutiveErrs state) 1 in
            mkProviderState (if 3 <=? errs then false else IsAvailable state) now errs
              (int64_add (ErrorCount state) 1) (SuccessCount state) err
        | None =>
            mkProviderState true now 0 (ErrorCount state)
              (int64_add (SuccessCount state) 1) (LastError state)
        end in
      mkFactory (f_config f) (f_httpClient f) (providers f)
        (<[name := state']> (providerStates f))
  end.

Definition Factory_GetProviderState (f : Factory) (name : string) : option ProviderState :=
  providerStates f !! name.

(** GetProviderMetadata, reduced to its effect on the factory: it resolves
    the name through getOrCreateProvider and only reads from the adapter. *)
Definition Factory_GetProviderMetadata_effect (now : Time) (f : Factory)
    (providerName : string) : Factory :=
  snd (Factory_getOrCreateProvider now f providerName).

(** ** Batch dispatcher *)

Record PaymentRequest : Type := mkPaymentRequest {
  rq_Amount : float64;
  rq_Currency : string;
  rq_Provider : string
}.

Record PaymentResult : Type := mkPaymentResult {
  r_Request : PaymentRequest;
  r_Payment : option Payment;
  r_Error : option PaymentError
}.

(** The zero value a slot of [make([]PaymentResult, n)] starts with. *)
Definition PaymentResult_zero : PaymentResult :=
  mkPaymentResult (mkPaymentRequest f64_zero "" "") None None.

Definition workerCount : nat := 5.

(** Where the goroutine that called BatchProcessPayments stands. *)
Inductive MainPC : Type :=
| MSend (i : nat)   (* in [for i := range requests], about to send [i];
                       at [i = len(requests)], about to close the channel *)
| MWait             (* at [wg.Wait()] *)
| MReturned         (* [return results] has run *)
| MPanic.           (* an index was out of range: the process is dead *)

(** Where a worker goroutine stands. The body of [f.ProcessPayment] is cut
    at its two lock acquisitions and at the adapter call. *)
Inductive WorkerPC : Type :=
| WRecv                                            (* at [range requestCh] *)
| WGot (idx : nat)                                 (* before [requests[idx]] and getOrCreateProvider *)
| WCall (idx : nat) (req : PaymentRequest) (provider : PaymentProvider)
                                                   (* before [provider.ProcessPayment] *)
| WUpdate (idx : nat) (req : PaymentRequest)
          (payment : option Payment) (paymentErr : option PaymentError)
                                                   (* before updateProviderState *)
| WStore (idx : nat) (r : PaymentResult)           (* before [results[idx] = ...] *)
| WDone.                                           (* [wg.Done()] has run *)

Record Machine : Type := mkMachine {
  m_fac : Factory;
  m_chan : list nat;              (* buffered [requestCh], oldest first *)
  m_closed : bool;
  m_main : MainPC;
  m_workers : list WorkerPC;
  m_results : list PaymentResult
}.

Definition is_done (w : WorkerPC) : bool :=
  match w with WDone => true | _ => false end.

Definition set_worker (m : Machine) (w : nat) (pc : WorkerPC) : Machine :=
  mkMachine (m_fac m) (m_chan m) (m_closed m) (m_main m)
    (<[w := pc]> (m_workers m)) (m_results m).

Definition set_fac (m : Machine) (f : Factory) : Machine :=
  mkMachine f (m_chan m) (m_closed m) (m_main m) (m_workers m) (m_results m).

Definition set_main (m : Machine) (pc : MainPC) : Machine :=
  mkMachine (m_fac m) (m_chan m) (m_closed m) pc (m_workers m) (m_results m).

Definition set_chan (m : Machine) (ch : list nat) : Machine :=
  mkMachine (m_fac m) ch (m_closed m) (m_main m) (m_workers m) (m_results m).

(** The state right after the five [go func()] statements: the result slice
    and the channel are made, every worker is about to receive. *)
Definition Batch_init (f : Factory) (requests : list PaymentRequest) : Machine :=
  mkMachine f [] false (MSend 0)
    (replicate workerCount WRecv)
    (replicate (length requests) PaymentResult_zero).

Inductive Actor : Type :=
| Main
| Worker (w : nat).

Section Batch.

Context (rt : Runtime) (requests : list PaymentRequest).

(** One step of the calling goroutine. The channel's capacity is
    [len(requests)], so a send never blocks. *)
Definition main_step (m : Machine) : option Machine :=
  match m_main m with
  | MSend i =>
      if (i <? length requests)%nat then
        Some (set_main (set_chan m (m_chan m ++ [i])%list) (MSend (S i)))
      else
        Some (mkMachine (m_fac m) (m_chan m) true MWait (m_workers m) (m_results m))
  | MWait =>
      if forallb is_done (m_workers m) then Some (set_main m MReturned) else None
  | MReturned => None
  | MPanic => None
  end.

(** One step of worker [w]; [None] when it is blocked or has finished. *)
Definition worker_step (env : Env) (w : nat) (m : Machine) : option Machine :=
  match m_main m with
  | MPanic => None
  | _ =>
    match m_workers m !! w with
    | None => None
    | Some WRecv =>
        match m_chan m with
        | idx :: rest => Some (set_worker (set_chan m rest) w (WGot idx))
        | [] => if m_closed m then Some (set_worker m w WDone) else None
        end
    | Some (WGot idx) =>
        match requests !! idx with
        | None => Some (set_main m MPanic)
        | Some req =>
            match Factory_getOrCreateProvider (env_now_create env) (m_fac m) (rq_Provider req) with
            | (inr err, f1) =>
                Some (set_worker (set_fac m f1) w
                        (WStore idx (mkPaymentResult req None (Some err))))
            | (inl provider, f1) =>
                Some (set_worker (set_fac m f1) w (WCall idx req provider))
            end
        end
    | Some (WCall idx req provider) =>
        let '(payment, paymentErr) :=
          fst (PaymentProvider_ProcessPayment rt provider (env_net env)
                 (rq_Amount req) (rq_Currency req)) in
        Some (set_worker m w (WUpdate idx req payment paymentErr))
    | Some (WUpdate idx req payment paymentErr) =>
        match paymentErr with
        | Some e =>
            Some (set_worker
                    (set_fac m (Factory_updateProviderState (env_now_update env) (m_fac m)
                                  (rq_Provider req) false (Some e)))
                    w (WStore idx (mkPaymentResult req None (Some e))))
        | None =>
            Some (set_worker
                    (set_fac m (Factory_updateProviderState (env_now_update env) (m_fac m)
                                  (rq_Provider req) true None))
                    w (WStore idx (mkPaymentResult req payment None)))
        end
    | Some (WStore idx r) =>
        if (idx <? length (m_results m))%nat then
          Some (set_worker
                  (mkMachine (m_fac m) (m_chan m) (m_closed m) (m_main m) (m_workers m)
                     (<[idx := r]> (m_results m)))
                  w WRecv)
        else Some (set_main m MPanic)
    | Some WDone => None
    end
  end.

Definition exec (a : Actor) (env : Env) (m : Machine) : option Machine :=
  match a with
  | Main => main_step m
  | Worker w => worker_step env w m
  end.

(** Any goroutine that can move may move next, against any environment. *)
Definition step (m m' : Machine) : Prop :=
  ∃ a env, exec a env m = Some m'.

(** Run a schedule: the actors in the order they move, each with the
    environment it meets. A move that is not enabled is skipped. *)
Fixpoint run (sched : list (Actor * Env)) (m : Machine) : Machine :=
  match sched with
  | [] => m
  | (a, env) :: sched' =>
      match exec a env m with
      | Some m' => run sched' m'
      | None => run sched' m
      end
  end.

(** [BatchProcessPayments] started on factory [f] can return [results],
    leaving the factory as [f']. *)
Definition BatchProcessPayments_returns (f : Factory)
    (results : list PaymentResult) (f' : Factory) : Prop :=
  ∃ m, rtc step (Batch_init f requests) m ∧ m_main m = MReturned
       ∧ m_results m = results ∧ m_fac m = f'.

Definition main_weight (pc : MainPC) : nat :=
  match pc with
  | MSend i => 7 * (length requests - i) + 2
  | MWait => 1
  | MReturned => 0
  | MPanic => 0
  end.

End Batch.

Definition worker_weight (pc : WorkerPC) : nat :=
  match pc with
  | WRecv => 1
  | WGot _ => 5
  | WCall _ _ _ => 4
  | WUpdate _ _ _ _ => 3
  | WStore _ _ => 2
  | WDone => 0
  end.

(** An upper bound on the number of steps still possible. *)
Definition measure (requests : list PaymentRequest) (m : Machine) : nat :=
  match m_main m with
  | MPanic => 0
  | pc => S (main_weight requests pc + 6 * length (m_chan m)
             + sum_list (worker_weight <$> m_workers m))
  end.

(** ** Vocabulary for the statements about adapters *)

Definition PaymentProvider_config (p : PaymentProvider) : PaymentProviderConfig :=
  match p with
  | IsProviderA a => pa_config a
  | IsProviderB b => pb_config b
  end.

Definition PaymentProvider_handleResponse (rt : Runtime) (p : PaymentProvider)
    (resp : HttpResponse) (tr : list Event) : GoResult * list Event :=
  match p with
  | IsProviderA a => ProviderA_handleResponse rt a resp tr
  | IsProviderB b => ProviderB_handleResponse rt b resp tr
  end.

(** The HTTP response the adapter received during a [ProcessPayment] call,
    if it issued a request and the transport answered with a response. *)
Definition PaymentProvider_response (rt : Runtime) (p : PaymentProvider)
    (net : Network) (amount : float64) (currency : string) : option HttpResponse :=
  match snd (PaymentProvider_ProcessPayment rt p net amount currency) with
  | EvHttpDo req :: _ =>
      match net req with
      | DoResp resp => Some resp
      | DoErr _ => None
      end
  | _ => None
  end.

(** The success/failure discriminator of a decoded body: [status] for
    ProviderA, [state] for ProviderB. *)
Definition PaymentProvider_discriminator (rt : Runtime) (p : PaymentProvider)
    (body : string) : option string :=
  match p with
  | IsProviderA _ =>
      match json_Unmarshal_A rt body with
      | Ok r => Some (ra_Status r)
      | Err _ => None
      end
  | IsProviderB _ =>
      match json_Unmarshal_B rt body with
      | Ok r => Some (rb_State r)
      | Err _ => None
      end
  end.

Definition approved_value (p : PaymentProvider) : string :=
  match p with IsProviderA _ => "APPROVED" | IsProviderB _ => "SUCCESS" end.

Definition declined_value (p : PaymentProvider) : string :=
  match p with IsProviderA _ => "DECLINED" | IsProviderB _ => "FAILED" end.

(** The checks ProviderA runs on the decoded body before it looks at the
    discriminator; ProviderB looks at the discriminator first. *)
Definition checked_before_discriminator (rt : Runtime) (p : PaymentProvider)
    (body : string) : bool :=
  match p with
  | IsProviderA _ =>
      match json_Unmarshal_A rt body with
      | Ok r =>
          negb (String.eqb (ra_TransactionID r) "")
          && negb (String.eqb (ra_Currency r) "")
          && negb (Time_IsZero (ra_Timestamp r))
      | Err _ => false
      end
  | IsProviderB _ => true
  end.

Definition is_2xx (code : Z) : bool := (200 <=? code) && (code <? 300).

(** ** A runtime and transports for concrete runs *)

Definition lookup_fixture {A : Type} (tbl : list (string * A)) (key : string) : Result A :=
  match List.find (fun kv => String.eqb (fst kv) key) tbl with
  | Some kv => Ok (snd kv)
  | None => Err "invalid"
  end.

(** Bodies and decimal strings decode as the tables say; everything else
    fails to decode. Marshalling and request construction succeed. *)
Definition table_runtime (bodiesA : list (string * ResponseA))
    (bodiesB : list (string * ResponseB)) (floats : list (string * float64)) : Runtime :=
  mkRuntime
    (fun _ _ => Ok "{}")
    (fun method url body => Ok (mkHttpRequest method url [] body))
    (lookup_fixture bodiesA)
    (lookup_fixture bodiesB)
    (lookup_fixture floats)
    (fun _ => "")
    (fun _ => "").

(** 2024-01-15T10:30:00Z, in seconds since year 1. *)
Definition t_2024_01_15 : Time := time_Unix 1705314600.

(** The bodies of the adapter tests, named, with the struct Go's decoder
    fills from each:
    - a-approved: {transaction_id: TXN-TEST-100, status: APPROVED,
      amount: 100, currency: USD, timestamp: 2024-01-15T10:30:00Z};
    - a-declined: the same with id TXN-TEST-999, status DECLINED, amount 999;
    - a-declined-no-id: a-declined without the transaction_id member;
    - b-success: {paymentId: PAY-TEST-100, state: SUCCESS,
      value: {amount: 100.00, currencyCode: USD}, processedAt: 1705318200000};
    - b-failed: the same with id PAY-TEST-999, state FAILED, amount 999.00;
    - b-no-id: b-success without the paymentId member;
    - b-no-time: b-success without the processedAt member. *)
Definition sample_runtime : Runtime :=
  table_runtime
    [("a-approved", mkResponseA "TXN-TEST-100" "APPROVED" (f64_of_Z 100) "USD" t_2024_01_15);
     ("a-declined", mkResponseA "TXN-TEST-999" "DECLINED" (f64_of_Z 999) "USD" t_2024_01_15);
     ("a-declined-no-id", mkResponseA "" "DECLINED" (f64_of_Z 999) "USD" t_2024_01_15)]
    [("b-success", mkResponseB "PAY-TEST-100" "SUCCESS" "100.00" "USD" 1705318200000);
     ("b-failed", mkResponseB "PAY-TEST-999" "FAILED" "999.00" "USD" 1705318200000);
     ("b-no-id", mkResponseB "" "SUCCESS" "100.00" "USD" 1705318200000);
     ("b-no-time", mkResponseB "PAY-TEST-100" "SUCCESS" "100.00" "USD" 0)]
    [("100.00", f64_of_Z 100); ("999.00", f64_of_Z 999)].

(** A transport that answers every request with the same response. *)
Definition always (code : Z) (body : string) : Network :=
  fun _ => DoResp (mkHttpResponse code (Ok body)).

Definition sample_client : http_Client := mkClient 5.

Definition sample_config_A : PaymentProviderConfig :=
  mkPaymentProviderConfig "ProviderA" "http://test-provider-a.com" 5 3 (f64_of_Z 10000) "Test Provider A".

Definition sample_config_B : PaymentProviderConfig :=
  mkPaymentProviderConfig "ProviderB" "http://test-provider-b.com" 5 3 (f64_of_Z 10000) "Test Provider B".

Definition sample_A : PaymentProvider := IsProviderA (NewProviderA sample_config_A sample_client).
Definition sample_B : PaymentProvider := IsProviderB (NewProviderB sample_config_B sample_client).

Definition sample_configs : gmap string PaymentProviderConfig :=
  <["ProviderA" := sample_config_A]> (<["ProviderB" := sample_config_B]> ∅).

Definition sample_env (net : Network) : Env := mkEnv net t_2024_01_15 t_2024_01_15.

(** ** Vocabulary for the statements about the factory *)

(** The names the two [switch] statements of the factory know. *)
Definition supported (name : string) : bool :=
  String.eqb name "ProviderA" || String.eqb name "ProviderB".

(** The calls that hand a provider name to the factory. *)
Inductive Op : Type :=
| OpProcessPayment (env : Env) (providerName : string) (amount : float64) (currency : string)
| OpCreateProvider (now : Time) (name : string)
| OpGetProviderMetadata (now : Time) (providerName : string)
| OpUpdateProviderState (now : Time) (name : string) (err : option PaymentError).

Definition Op_name (op : Op) : string :=
  match op with
  | OpProcessPayment _ n _ _ => n
  | OpCreateProvider _ n => n
  | OpGetProviderMetadata _ n => n
  | OpUpdateProviderState _ n _ => n
  end.

Definition apply_op (rt : Runtime) (f : Factory) (op : Op) : Factory :=
  match op with
  | OpProcessPayment env n amount currency =>
      snd (Factory_ProcessPayment rt env f n amount currency)
  | OpCreateProvider now n => snd (Factory_CreateProvider now f n)
  | OpGetProviderMetadata now n => Factory_GetProviderMetadata_effect now f n
  | OpUpdateProviderState now n err => Factory_UpdateProviderState now f n err
  end.

Definition run_ops (rt : Runtime) (ops : list Op) (f : Factory) : Factory :=
  fold_left (apply_op rt) ops f.

(** Whether [op], issued against configuration [cfg] for a name that is not
    cached yet, resolves its name to an adapter. *)
Definition resolves (cfg : gmap string PaymentProviderConfig) (op : Op) : bool :=
  match op with
  | OpProcessPayment _ n _ _ | OpGetProviderMetadata _ n =>
      supported n && bool_decide (is_Some (cfg !! n))
  | OpCreateProvider _ n =>
      supported n
      && match cfg !! n with
         | Some c =>
             match Factory_validateProviderConfig c with
             | None => true
             | Some _ => false
             end
         | None => false
         end
  | OpUpdateProviderState _ _ _ => false
  end.

(** The adapter the factory builds for a supported name. *)
Definition new_adapter (name : string) (cfg : PaymentProviderConfig)
    (client : http_Client) : PaymentProvider :=
  if String.eqb name "ProviderA" then IsProviderA (NewProviderA cfg client)
  else IsProviderB (NewProviderB cfg client).

(** The consecutive-error counter recorded for a name, 0 when there is no
    record (as in [&ProviderState{}]). *)
Definition errs_of (f : Factory) (name : string) : Z :=
  default 0 (ConsecutiveErrs <$> providerStates f !! name).

(** The availability flag recorded for a name, false when there is no
    record (as in [&ProviderState{}]). *)
Definition avail_of (f : Factory) (name : string) : bool :=
  default false (IsAvailable <$> providerStates f !! name).

(** A configuration copied from ADD_NEW_PROVIDER.md step 2 under a name the
    factory has no case for, with an empty endpoint. *)
Definition sample_config_C : PaymentProviderConfig :=
  mkPaymentProviderConfig "ProviderC" "" 30 3 (f64_of_Z 10000) "Payment Provider C".

Definition sample_config_A_no_endpoint : PaymentProviderConfig :=
  mkPaymentProviderConfig "ProviderA" "" 5 3 (f64_of_Z 10000) "Test Provider A".

(** ** Invariants used in the proofs *)

(** The factory's configuration is [cfg], and the state map and the adapter
    cache have the same keys. *)
Definition registry_inv (cfg : gmap string PaymentProviderConfig) (f : Factory) : Prop :=
  f_config f = cfg
  ∧ ∀ n, is_Some (providerStates f !! n) ↔ is_Some (providers f !! n).

Section BatchInv.

Context (requests : list PaymentRequest).

(** A result that may stand in slot [i]: it carries request [i] and exactly
    one of Payment and Error. *)
Definition good_result (i : nat) (r : PaymentResult) : Prop :=
  requests !! i = Some (r_Request r)
  ∧ ((is_Some (r_Payment r) ∧ r_Error r = None)
     ∨ (r_Payment r = None ∧ is_Some (r_Error r))).

(** Worker at [pc] is working on index [i]. *)
Definition holds (pc : WorkerPC) (i : nat) : Prop :=
  match pc with
  | WGot idx | WCall idx _ _ | WUpdate idx _ _ _ | WStore idx _ => idx = i
  | WRecv | WDone => False
  end.

Definition worker_ok (pc : WorkerPC) : Prop :=
  match pc with
  | WGot idx => (idx < length requests)%nat
  | WCall idx req _ => requests !! idx = Some req
  | WUpdate idx req payment paymentErr =>
      requests !! idx = Some req ∧ (paymentErr = None → is_Some payment)
  | WStore idx r => good_result idx r
  | WRecv | WDone => True
  end.

(** Index [i] has been sent on the channel. *)
Definition sent (pc : MainPC) (i : nat) : Prop :=
  match pc with
  | MSend k => (i < k)%nat
  | MWait | MReturned => (i < length requests)%nat
  | MPanic => False
  end.

Definition main_ok (m : Machine) : Prop :=
  match m_main m with
  | MSend k => (k ≤ length requests)%nat ∧ m_closed m = false
  | MWait => m_closed m = true
  | MReturned => m_closed m = true ∧ Forall (λ pc, pc = WDone) (m_workers m)
  | MPanic => False
  end.

Record batch_inv (m : Machine) : Prop := mk_batch_inv {
  inv_results : length (m_results m) = length requests;
  inv_nworkers : length (m_workers m) = workerCount;
  inv_main : main_ok m;
  inv_chan : Forall (λ i, (i < length requests)%nat) (m_chan m);
  inv_workers : Forall worker_ok (m_workers m);
  inv_done : (∃ w, m_workers m !! w = Some WDone) → m_chan m = [] ∧ m_closed m = true;
  inv_cover : ∀ i, sent (m_main m) i →
    i ∈ m_chan m
    ∨ (∃ w pc, m_workers m !! w = Some pc ∧ holds pc i)
    ∨ (∃ r, m_results m !! i = Some r ∧ good_result i r)
}.

End BatchInv.

Definition idle_env : Env := mkEnv (fun _ => DoErr "no network") Time_zero Time_zero.

Definition sample_requests : list PaymentRequest :=
  [mkPaymentRequest (f64_of_Z 100) "USD" "ProviderA";
   mkPaymentRequest (f64_of_Z 999) "USD" "ProviderB"].

Definition env_A_approves : Env := sample_env (always 200 "a-approved").
Definition env_B_fails : Env := sample_env (always 200 "b-failed").

(** Worker 1 finishes request 1 before worker 0 finishes request 0. *)
Definition sample_schedule : list (Actor * Env) :=
  [(Main, idle_env); (Main, idle_env); (Main, idle_env);
   (Worker 0%nat, env_A_approves); (Worker 1%nat, env_B_fails);
   (Worker 1%nat, env_B_fails); (Worker 1%nat, env_B_fails);
   (Worker 1%nat, env_B_fails); (Worker 1%nat, env_B_fails);
   (Worker 0%nat, env_A_approves); (Worker 0%nat, env_A_approves);
   (Worker 0%nat, env_A_approves); (Worker 0%nat, env_A_approves);
   (Worker 0%nat, idle_env); (Worker 1%nat, idle_env); (Worker 2%nat, idle_env);
   (Worker 3%nat, idle_env); (Worker 4%nat, idle_env);
   (Main, idle_env)].

Definition sample_batch : Machine :=
  run sample_runtime sample_requests sample_schedule
    (Batch_init (NewFactory sample_configs sample_client) sample_requests).

(** Twelve requests, more than the pool is wide. *)
Definition twelve_requests : list PaymentRequest :=
  (fun k => mkPaymentRequest (f64_of_Z (Z.of_nat k + 1)) "USD" "ProviderA") <$> seq 0 12.

Definition round_robin (env : Env) (rounds : nat) : list (Actor * Env) :=
  concat (replicate rounds
            [(Main, env); (Worker 4%nat, env); (Worker 3%nat, env); (Worker 2%nat, env);
             (Worker 1%nat, env); (Worker 0%nat, env)]).

Definition twelve_batch : Machine :=
  run sample_runtime twelve_requests (round_robin env_A_approves 40)
    (Batch_init (NewFactory sample_configs sample_client) twelve_requests).

(** ** Concrete scenarios *)

Definition health_factory : Factory := NewFactory sample_configs sample_client.

Definition env_A_500 : Env := sample_env (always 500 "").

(** Three calls answered with status 500, then an approved one. *)
Definition health_r1 : GoResult * Factory :=
  Factory_ProcessPayment sample_runtime env_A_500 health_factory
    "ProviderA" (f64_of_Z 100) "USD".

Definition health_r2 : GoResult * Factory :=
  Factory_ProcessPayment sample_runtime env_A_500 (snd health_r1)
    "ProviderA" (f64_of_Z 100) "USD".

Definition health_r3 : GoResult * Factory :=
  Factory_ProcessPayment sample_runtime env_A_500 (snd health_r2)
    "ProviderA" (f64_of_Z 100) "USD".

Definition health_r4 : GoResult * Factory :=
  Factory_ProcessPayment sample_runtime env_A_approves (snd health_r3)
    "ProviderA" (f64_of_Z 100) "USD".

(** The factory of the test case [invalid provider config - missing
    endpoint]. *)
Definition no_endpoint_factory : Factory :=
  NewFactory (<["ProviderA" := sample_config_A_no_endpoint]> ∅) sample_client.

(** A factory whose configuration names a provider without implementation. *)
Definition config_C_factory : Factory :=
  NewFactory (<["ProviderC" := sample_config_C]> sample_configs) sample_client.

Definition sample_ops : list Op :=
  [OpProcessPayment env_A_approves "ProviderA" (f64_of_Z 100) "USD";
   OpProcessPayment env_A_approves "NonExistentProvider" (f64_of_Z 100) "USD";
   OpCreateProvider t_2024_01_15 "ProviderB"].

(** ** Further code of the repository *)

(** *** domain: Payment.Validate and PaymentError.Error *)

Definition Payment_Validate (p : Payment) : option PaymentError :=
  if f64_le (Amount p) f64_zero then
    Some (PaymentError_lit ErrInvalidAmount "Amount must be greater than 0")
  else if String.eqb (Currency_ p) "" then
    Some (PaymentError_lit ErrInvalidCurrency "Currency is required")
  else if String.eqb (Provider p) "" then
    Some (PaymentError_lit ErrProviderNotFound "Provider is required")
  else None.

Definition PaymentError_Error (e : PaymentError) : string :=
  if negb (String.eqb (EProvider e) "") then
    "[" +:+ EProvider e +:+ "] " +:+ Code e +:+ ": " +:+ Message e
  else
    Code e +:+ ": " +:+ Message e.

(** *** Adapters: GetMetadata *)

(** The values the metadata maps hold ([interface{}] in Go). *)
Inductive Any : Type :=
| AnyString (s : string)
| AnyInt (z : Z)
| AnyFloat (x : float64).

(** Both adapters build the same map from their configuration;
    [duration_String] is [time.Duration.String]. *)
Definition config_metadata (duration_String : Z -> string)
    (cfg : PaymentProviderConfig) : gmap string Any :=
  <["name" := AnyString (Name cfg)]>
    (<["endpoint" := AnyString (Endpoint cfg)]>
       (<["timeout" := AnyString (duration_String (Timeout cfg))]>
          (<["retryCount" := AnyInt (RetryCount cfg)]>
             (<["maxAmount" := AnyFloat (MaxAmount cfg)]>
                (<["description" := AnyString (Description cfg)]> ∅))))).

Definition ProviderA_GetMetadata (duration_String : Z -> string) (p : ProviderA)
    : gmap string Any :=
  config_metadata duration_String (pa_config p).

Definition ProviderB_GetMetadata (duration_String : Z -> string) (p : ProviderB)
    : gmap string Any :=
  config_metadata duration_String (pb_config p).

Definition PaymentProvider_GetMetadata (duration_String : Z -> string)
    (p : PaymentProvider) : gmap string Any :=
  match p with
  | IsProviderA a => ProviderA_GetMetadata duration_String a
  | IsProviderB b => ProviderB_GetMetadata duration_String b
  end.

(** Factory.GetProviderMetadata with the factory it leaves. *)
Definition Factory_GetProviderMetadata (duration_String : Z -> string) (now : Time)
    (f : Factory) (providerName : string) : gmap string Any * Factory :=
  match Factory_getOrCreateProvider now f providerName with
  | (inr err, f1) => (<["error" := AnyString (PaymentError_Error err)]> ∅, f1)
  | (inl provider, f1) => (PaymentProvider_GetMetadata duration_String provider, f1)
  end.

(** *** providers.Repository (repository.go) *)

Record Repository : Type := mkRepository {
  repo_providers : gmap string PaymentProvider
}.

(** The loop of NewRepository: a later provider replaces an earlier one of
    the same name. *)
Definition NewRepository (ps : list PaymentProvider) : Repository :=
  mkRepository
    (fold_left (fun m p => <[PaymentProvider_Name p := p]> m) ps ∅).

(** [None] is the nil-pointer panic of [payment.ID] in the final log
    statement, reached when the adapter returns neither a payment nor an
    error. *)
Definition Repository_ProcessPayment (rt : Runtime) (r : Repository) (net : Network)
    (providerName : string) (amount : float64) (currency : string)
    : option (GoResult * list Event) :=
  match repo_providers r !! providerName with
  | None =>
      Some (ret_err (PaymentError_lit ErrProviderNotFound
                       ("Provider " +:+ providerName +:+ " not found")), [])
  | Some provider =>
      match PaymentProvider_ProcessPayment rt provider net amount currency with
      | ((_, Some err), tr) => Some ((None, Some err), tr)
      | ((Some payment, None), tr) => Some ((Some payment, None), tr)
      | ((None, None), _) => None
      end
  end.

(** *** usecase.PaymentUseCase *)

(** The part of the PaymentRepository interface the use case calls for one
    payment, over a repository state [S]. *)
Record PaymentRepository (S : Type) : Type := mkPaymentRepository {
  repo_ProcessPayment : S -> string -> float64 -> string -> GoResult * S
}.
Arguments repo_ProcessPayment {S} _ _ _ _ _.
Arguments mkPaymentRepository {S} _.

(** The factory as the repository, as [main] wires it. *)
Definition Factory_repository (rt : Runtime) (env : Env) : PaymentRepository Factory :=
  mkPaymentRepository
    (fun f provider amount currency =>
       Factory_ProcessPayment rt env f provider amount currency).

(** PaymentUseCase.ProcessPayment. [None] is the nil-pointer panic of
    [payment.ID] in the final log statement, reached when the repository
    returns neither a payment nor an error. *)
Definition PaymentUseCase_ProcessPayment {S : Type} (repo : PaymentRepository S)
    (s : S) (provider : string) (amount : float64) (currency : string)
    : option (GoResult * S) :=
  if f64_le amount f64_zero then
    Some ((None, Some (PaymentError_lit ErrInvalidAmount
                         "Amount must be greater than zero")), s)
  else if String.eqb currency "" then
    Some ((None, Some (PaymentError_lit ErrInvalidCurrency "Currency is required")), s)
  else if String.eqb provider "" then
    Some ((None, Some (PaymentError_lit ErrProviderNotFound "Provider is required")), s)
  else
    match repo_ProcessPayment repo s provider amount currency with
    | ((_, Some err), s') => Some ((None, Some err), s')
    | ((Some payment, None), s') => Some ((Some payment, None), s')
    | ((None, None), _) => None
    end.

(** What ProcessPaymentRequestsFromCSV makes of the file before it calls
    BatchProcessPayments. *)
Inductive CsvOutcome : Type :=
| CsvError (msg : string)                    (* [return nil, err] *)
| CsvPanic                                   (* index out of range on a record *)
| CsvRequests (requests : list PaymentRequest).

(** The record loop; [rows] is what successive [reader.Read()] calls yield
    before [io.EOF]. *)
Fixpoint read_requests (rt : Runtime) (rows : list (Result (list string)))
    (requests : list PaymentRequest) : CsvOutcome :=
  match rows with
  | [] => CsvRequests requests
  | Err e :: _ => CsvError ("failed to read CSV record: " +:+ e)
  | Ok record :: rows' =>
      match record !! 0%nat with
      | None => CsvPanic
      | Some field0 =>
          match strconv_ParseFloat rt field0 with
          | Err _ => read_requests rt rows' requests
          | Ok amount =>
              match record !! 1%nat, record !! 2%nat with
              | Some field1, Some field2 =>
                  read_requests rt rows'
                    (requests ++ [mkPaymentRequest amount field1 field2])%list
              | _, _ => CsvPanic
              end
          end
      end
  end.

(** [file] is the outcome of [os.Open] and, when it opened, what the
    reader yields row by row; the first row is the header. *)
Definition csv_requests (rt : Runtime) (file : Result (list (Result (list string))))
    : CsvOutcome :=
  match file with
  | Err e => CsvError ("failed to open CSV file: " +:+ e)
  | Ok [] => CsvError "failed to read CSV header: EOF"
  | Ok (Err e :: _) => CsvError ("failed to read CSV header: " +:+ e)
  | Ok (Ok _ :: rows) => read_requests rt rows []
  end.

(** The request a well-formed row stands for, if its amount is numeric. *)
Definition row_request (rt : Runtime) (record : list string) : option PaymentRequest :=
  match record with
  | field0 :: field1 :: field2 :: _ =>
      match strconv_ParseFloat rt field0 with
      | Ok amount => Some (mkPaymentRequest amount field1 field2)
      | Err _ => None
      end
  | _ => None
  end.

(** *** main: the result report *)



(** *** config *)

Record ServiceEndpoints : Type := mkServiceEndpoints {
  se_ProviderA : string;
  se_ProviderB : string
}.

Definition DefaultServiceEndpoints : ServiceEndpoints :=
  mkServiceEndpoints "http://localhost:8081/process" "http://localhost:8082/payments".

(** The fields of GlobalConfig that code reads or writes. *)
Record GlobalConfig : Type := mkGlobalConfig {
  DefaultCurrency : string;
  SupportedCurrencies : list string;
  DefaultTimeout : Z;
  Logging_Level : string;
  Metrics_Enabled : bool
}.

(** Config without its Monitoring part, which no code reads. *)
Record Config : Type := mkConfig {
  cfg_Providers : gmap string PaymentProviderConfig;
  cfg_Endpoints : ServiceEndpoints;
  cfg_Global : GlobalConfig
}.

Definition time_Second : Z := 1000000000.

Definition DefaultConfig : Config :=
  let endpoints := DefaultServiceEndpoints in
  mkConfig
    (<["ProviderA" :=
         mkPaymentProviderConfig "ProviderA" (se_ProviderA endpoints)
           (30 * time_Second) 3 (f64_of_Z 10000) "Payment Provider A"]>
       (<["ProviderB" :=
            mkPaymentProviderConfig "ProviderB" (se_ProviderB endpoints)
              (30 * time_Second) 3 (f64_of_Z 10000) "Payment Provider B"]> ∅))
    endpoints
    (mkGlobalConfig "USD" ["USD"; "EUR"; "GBP"] (30 * time_Second) "info" true).

Definition with_Endpoint (p : PaymentProviderConfig) (endpoint : string)
    : PaymentProviderConfig :=
  mkPaymentProviderConfig (Name p) endpoint (Timeout p) (RetryCount p)
    (MaxAmount p) (Description p).

(** One of the two endpoint overrides of LoadEnvironment. *)
Definition override_endpoint (getenv : string -> string) (var name : string)
    (ps : gmap string PaymentProviderConfig) : gmap string PaymentProviderConfig :=
  if negb (String.eqb (getenv var) "") then
    match ps !! name with
    | Some provider => <[name := with_Endpoint provider (getenv var)]> ps
    | None => ps
    end
  else ps.

(** Config.LoadEnvironment; [getenv] is [os.Getenv] and [parseDuration] is
    [time.ParseDuration]. *)
Definition Config_LoadEnvironment (getenv : string -> string)
    (parseDuration : string -> Result Z) (c : Config) : Config :=
  let ps := override_endpoint getenv "PROVIDER_A_ENDPOINT" "ProviderA" (cfg_Providers c) in
  let ps := override_endpoint getenv "PROVIDER_B_ENDPOINT" "ProviderB" ps in
  let g := cfg_Global c in
  let timeout :=
    if negb (String.eqb (getenv "DEFAULT_TIMEOUT") "") then
      match parseDuration (getenv "DEFAULT_TIMEOUT") with
      | Ok duration => duration
      | Err _ => DefaultTimeout g
      end
    else DefaultTimeout g in
  let currency :=
    if negb (String.eqb (getenv "DEFAULT_CURRENCY") "")
    then getenv "DEFAULT_CURRENCY" else DefaultCurrency g in
  let level :=
    if negb (String.eqb (getenv "LOG_LEVEL") "")
    then getenv "LOG_LEVEL" else Logging_Level g in
  let metrics :=
    if negb (String.eqb (getenv "METRICS_ENABLED") "")
    then String.eqb (getenv "METRICS_ENABLED") "true" else Metrics_Enabled g in
  mkConfig ps (cfg_Endpoints c)
    (mkGlobalConfig currency (SupportedCurrencies g) timeout level metrics).

Fixpoint contains (slice : list string) (str : string) : bool :=
  match slice with
  | [] => false
  | s :: slice' => if String.eqb s str then true else contains slice' str
  end.

Definition Config_Validate (c : Config) : option string :=
  if negb (contains (SupportedCurrencies (cfg_Global c)) (DefaultCurrency (cfg_Global c))) then
    Some ("default currency " +:+ DefaultCurrency (cfg_Global c)
            +:+ " is not in supported currencies")
  else None.

(** *** Vocabulary for the further statements *)

(** The number of HTTP requests in a trace. *)
Definition http_requests (tr : list Event) : list HttpRequest :=
  omap (fun e => match e with EvHttpDo req => Some req | _ => None end) tr.

(** The value [req.Header.Get(k)] reads. *)
Definition Header_Get (req : HttpRequest) (k : string) : string :=
  match List.find (fun kv => String.eqb (fst kv) k) (Header req) with
  | Some kv => snd kv
  | None => ""
  end.

(** The outcome ProcessPayment hands to updateProviderState: the clock
    reading and the error, [None] for a success. *)
Definition record_outcome (name : string) (f : Factory)
    (o : Time * option PaymentError) : Factory :=
  match snd o with
  | Some e => Factory_updateProviderState (fst o) f name false (Some e)
  | None => Factory_updateProviderState (fst o) f name true None
  end.

Definition record_outcomes (name : string) (outcomes : list (Time * option PaymentError))
    (f : Factory) : Factory :=
  fold_left (record_outcome name) outcomes f.

Definition is_failure (o : Time * option PaymentError) : bool :=
  match snd o with Some _ => true | None => false end.

(** The number of failures at the head of a list of outcomes. *)
Fixpoint leading_failures (outcomes : list (Time * option PaymentError)) : nat :=
  match outcomes with
  | o :: outcomes' => if is_failure o then S (leading_failures outcomes') else 0
  | [] => 0
  end.

(** The number of failures since the last success. *)
Definition trailing_failures (outcomes : list (Time * option PaymentError)) : nat :=
  leading_failures (rev outcomes).

Definition count_failures (outcomes : list (Time * option PaymentError)) : nat :=
  length (List.filter is_failure outcomes).

Definition count_successes (outcomes : list (Time * option PaymentError)) : nat :=
  length (List.filter (fun o => negb (is_failure o)) outcomes).

(** The steps of the batch against a transport that answers as a function
    of the request alone. *)
Definition step_net (rt : Runtime) (requests : list PaymentRequest) (net : Network)
    (m m' : Machine) : Prop :=
  ∃ a env, env_net env = net ∧ exec rt requests a env m = Some m'.

(** What Factory.ProcessPayment on factory [f] returns for a request, as a
    batch result. *)
Definition result_on (rt : Runtime) (net : Network) (f : Factory)
    (req : PaymentRequest) : PaymentResult :=
  let r := fst (Factory_ProcessPayment rt (mkEnv net Time_zero Time_zero) f
                  (rq_Provider req) (rq_Amount req) (rq_Currency req)) in
  mkPaymentResult req (fst r) (snd r).

(** Whether an adapter goes on to read the body of a response with this
    status code. *)
Definition reads_body (p : PaymentProvider) (code : Z) : bool :=
  match p with
  | IsProviderA _ =>
      negb (code =? StatusTooManyRequests) && negb (code =? StatusInternalServerError)
      && negb (code =? StatusBadRequest)
  | IsProviderB _ => code <? 400
  end.

(** The currencies an adapter refuses before any network call. *)
Definition refuses_currency (p : PaymentProvider) (currency : string) : bool :=
  match p with
  | IsProviderA _ =>
      String.eqb currency ""
      || (negb (String.eqb currency USD) && negb (String.eqb currency EUR)
          && negb (String.eqb currency GBP))
  | IsProviderB _ => String.eqb currency ""
  end.

(** *** The batch against one transport *)

(** [BatchProcessPayments] started on factory [f] can return [results]
    when every call goes through transport [net]. *)
Definition BatchProcessPayments_returns_on (rt : Runtime) (requests : list PaymentRequest)
    (net : Network) (f : Factory) (results : list PaymentResult) (f' : Factory) : Prop :=
  ∃ m, rtc (step_net rt requests net) (Batch_init f requests) m ∧ m_main m = MReturned
       ∧ m_results m = results ∧ m_fac m = f'.

(** Factory [g] resolves every name as factory [f] does. *)
Definition resolves_as (f g : Factory) : Prop :=
  ∀ n now, fst (Factory_getOrCreateProvider now g n)
           = fst (Factory_getOrCreateProvider Time_zero f n).

(** What a worker holds is what a call on the initial factory gives. *)
Definition worker_det (rt : Runtime) (net : Network) (f : Factory) (pc : WorkerPC) : Prop :=
  match pc with
  | WCall _ req provider =>
      fst (Factory_getOrCreateProvider Time_zero f (rq_Provider req)) = inl provider
  | WUpdate _ req payment paymentErr =>
      ∃ provider,
        fst (Factory_getOrCreateProvider Time_zero f (rq_Provider req)) = inl provider
        ∧ fst (PaymentProvider_ProcessPayment rt provider net (rq_Amount req) (rq_Currency req))
          = (payment, paymentErr)
  | WStore _ r => r = result_on rt net f (r_Request r)
  | WRecv | WGot _ | WDone => True
  end.

Record det_inv (rt : Runtime) (net : Network) (f : Factory) (m : Machine) : Prop :=
  mk_det_inv {
  det_fac : resolves_as f (m_fac m);
  det_workers : Forall (worker_det rt net f) (m_workers m);
  det_results : Forall (fun r => r = PaymentResult_zero
                                 ∨ r = result_on rt net f (r_Request r)) (m_results m)
}.

(** *** Further fixtures *)

(** Whether a character occurs in a string. *)
Fixpoint contains_char (c : Ascii.ascii) (s : string) : bool :=
  match s with
  | EmptyString => false
  | String c' s' => Ascii.eqb c c' || contains_char c s'
  end.

(** The text of the error [http.Client.Do] returns when the round trip
    fails. Do wraps every such error in a [url.Error], whose [Error()] is
    [fmt.Sprintf] of [%s %q: %s] on Op, URL and Err; [quoted_URL] is the
    URL as [%q] prints it. *)
Definition url_Error_Error (Op quoted_URL Err : string) : string :=
  Op +:+ " " +:+ quoted_URL +:+ ": " +:+ Err.

(** [%q] on a string that needs no escape. *)
Definition quoted (s : string) : string :=
  String (Ascii.ascii_of_nat 34) (s +:+ String (Ascii.ascii_of_nat 34) EmptyString).

(** A client whose every round trip fails with the given cause; the Op of
    a POST request is [Post]. *)
Definition failing_client (cause : string) : Network :=
  fun req => DoErr (url_Error_Error "Post" (quoted (URL req)) cause).

(** The request ProviderB sends under [sample_runtime]. *)
Definition sample_request_B : HttpRequest :=
  mkHttpRequest "POST" "http://test-provider-b.com"
    [("Content-Type", "application/json")] "{}".

(** a-zero-amount: {transaction_id: TXN-TEST-0, status: APPROVED, amount: 0,
    currency: USD, timestamp: 2024-01-15T10:30:00Z}. *)
Definition echo_runtime : Runtime :=
  table_runtime
    [("a-zero-amount", mkResponseA "TXN-TEST-0" "APPROVED" f64_zero "USD" t_2024_01_15)]
    [] [].

Definition zero_amount_payment : Payment :=
  mkPayment "TXN-TEST-0" f64_zero "USD" "APPROVED" "ProviderA" t_2024_01_15.

(** A file of two rows after the header; the second has no numeric amount. *)
Definition sample_csv_header : list string := ["amount"; "currency"; "provider"].

Definition sample_csv_records : list (list string) :=
  [["100.00"; "USD"; "ProviderA"]; ["abc"; "USD"; "ProviderB"]].

(** A file whose header has two columns: the reader yields only records
    of two fields. *)
Definition short_csv_header : list string := ["amount"; "currency"].

Definition short_csv_records : list (list string) :=
  [["abc"; "USD"]; ["999.00"; "USD"]; ["100.00"; "USD"]].

(** No environment variable is set. *)
Definition no_environment : string -> string := fun _ => "".

Definition no_duration : string -> Result Z := fun _ => Err "time: invalid duration".

Definition sample_failure : PaymentError :=
  mkPaymentError ErrInternalError "Provider internal error" "ProviderA" None true 0.

(** Three failures, a success, two failures. *)
Definition sample_outcomes : list (Time * option PaymentError) :=
  [(t_2024_01_15, Some sample_failure); (t_2024_01_15, Some sample_failure);
   (t_2024_01_15, Some sample_failure); (t_2024_01_15, None);
   (t_2024_01_15, Some sample_failure); (t_2024_01_15, Some sample_failure)].

(** The factory right after ProviderA was created. *)
Definition fresh_factory : Factory :=
  snd (Factory_getOrCreateProvider t_2024_01_15 health_factory "ProviderA").

(** Both requests sent, the channel closed, worker 0 has received index 0. *)
Definition sample_got : Machine :=
  run sample_runtime sample_requests (firstn 4 sample_schedule)
    (Batch_init (NewFactory sample_configs sample_client) sample_requests).

(** * Part II: properties *)

(** ** Adapters *)

Section AdapterFacts.

Context (rt : Runtime).

Lemma handleResponse_trace (p : PaymentProvider) resp tr :
  ∃ tl, snd (PaymentProvider_handleResponse rt p resp tr) = (tr ++ tl)%list.
Proof.
  destruct p as [a|b]; simpl;
    [unfold ProviderA_handleResponse | unfold ProviderB_handleResponse];
    repeat case_match; simpl;
    first [ by exists []; rewrite app_nil_r | by eexists ].
Qed.

Lemma ProcessPayment_received (p : PaymentProvider) net amount currency resp :
  PaymentProvider_response rt p net amount currency = Some resp →
  ∃ req, net req = DoResp resp
       ∧ PaymentProvider_ProcessPayment rt p net amount currency
         = PaymentProvider_handleResponse rt p resp [EvHttpDo req].
Proof.
  unfold PaymentProvider_response.
  destruct p as [a|b]; simpl;
    [unfold ProviderA_ProcessPayment | unfold ProviderB_ProcessPayment];
    repeat (case_match; simpl in *; try done).
  all: intros; simplify_eq; try congruence.
  all: match goal with
       | H : snd (?h rt ?x ?r ?tr) = _ |- _ =>
           let tl := fresh "tl" in let Htl := fresh "Htl" in
           first [ destruct (handleResponse_trace (IsProviderA x) r tr) as [tl Htl]
                 | destruct (handleResponse_trace (IsProviderB x) r tr) as [tl Htl] ];
           simpl in Htl; rewrite Htl in H; simplify_eq
       end.
  all: eexists; split; [eassumption | congruence].
Qed.

Lemma adapter_exactly_one (p : PaymentProvider) net amount currency :
  (∃ pay, fst (PaymentProvider_ProcessPayment rt p net amount currency) = (Some pay, None))
  ∨ (∃ e, fst (PaymentProvider_ProcessPayment rt p net amount currency) = (None, Some e)).
Proof.
  destruct p as [a|b]; simpl;
    [unfold ProviderA_ProcessPayment, ProviderA_handleResponse
    | unfold ProviderB_ProcessPayment, ProviderB_handleResponse];
    repeat case_match; simpl; eauto.
Qed.


(** C6. For both adapters, an amount that is <= 0 or above the configured
    maximum is answered with INVALID_AMOUNT, not retryable, and the adapter
    makes no call to the outside: no HTTP request is issued. *)
Theorem C6_invalid_amount_without_http_call (p : PaymentProvider) (net : Network)
    (amount : float64) (currency : string) :
  f64_le amount f64_zero = true
  ∨ f64_gt amount (MaxAmount (PaymentProvider_config p)) = true →
  ∃ e, PaymentProvider_ProcessPayment rt p net amount currency = ((None, Some e), [])
       ∧ Code e = ErrInvalidAmount ∧ Retryable e = false.
Proof.
  intros H. destruct p as [a|b]; simpl in *;
    [unfold ProviderA_ProcessPayment | unfold ProviderB_ProcessPayment].
  - destruct (f64_le amount f64_zero) eqn:Hle; [by eexists|].
    destruct H as [H|H]; [done|]. rewrite H. by eexists.
  - destruct (f64_le amount f64_zero) eqn:Hle; [by eexists|].
    destruct H as [H|H]; [done|]. rewrite H. by eexists.
Qed.

(** C3, as the code has it. A response with status >= 500 makes ProviderB
    return PROVIDER_UNAVAILABLE, retryable; status 500 makes ProviderA
    return INTERNAL_ERROR, retryable. In both cases the only outside call
    is the HTTP request: the body is neither read nor decoded. *)
Theorem C3_server_error_triage (p : PaymentProvider) (net : Network)
    (amount : float64) (currency : string) (resp : HttpResponse) :
  PaymentProvider_response rt p net amount currency = Some resp →
  500 ≤ StatusCode resp →
  match p with
  | IsProviderB _ =>
      ∃ e req, PaymentProvider_ProcessPayment rt p net amount currency
               = ((None, Some e), [EvHttpDo req])
             ∧ Code e = ErrProviderUnavailable ∧ Retryable e = true
  | IsProviderA _ =>
      StatusCode resp = 500 →
      ∃ e req, PaymentProvider_ProcessPayment rt p net amount currency
               = ((None, Some e), [EvHttpDo req])
             ∧ Code e = ErrInternalError ∧ Retryable e = true
  end.
Proof.
  intros Hresp Hcode.
  destruct (ProcessPayment_received _ _ _ _ _ Hresp) as (req & _ & ->).
  destruct p as [a|b]; simpl.
  - intros H500. unfold ProviderA_handleResponse. rewrite H500. simpl.
    by eexists _, _.
  - unfold ProviderB_handleResponse.
    destruct (Z.leb_spec 500 (StatusCode resp)); [|lia].
    by eexists _, _.
Qed.

(** What holds of C7: every 4xx status other than 429 makes ProviderB
    return PROVIDER_INVALID_RESPONSE, and status 400 makes ProviderA return
    INVALID_AMOUNT; both are not retryable and returned before the body is
    read. *)
Lemma client_error_triage (p : PaymentProvider) (net : Network)
    (amount : float64) (currency : string) (resp : HttpResponse) :
  PaymentProvider_response rt p net amount currency = Some resp →
  400 ≤ StatusCode resp < 500 → StatusCode resp ≠ 429 →
  match p with
  | IsProviderB _ =>
      ∃ e req, PaymentProvider_ProcessPayment rt p net amount currency
               = ((None, Some e), [EvHttpDo req])
             ∧ Code e = ErrProviderInvalidResp ∧ Retryable e = false
  | IsProviderA _ =>
      StatusCode resp = 400 →
      ∃ e req, PaymentProvider_ProcessPayment rt p net amount currency
               = ((None, Some e), [EvHttpDo req])
             ∧ Code e = ErrInvalidAmount ∧ Retryable e = false
  end.
Proof.
  intros Hresp Hcode H429.
  destruct (ProcessPayment_received _ _ _ _ _ Hresp) as (req & _ & ->).
  destruct p as [a|b]; simpl.
  - intros H400. unfold ProviderA_handleResponse. rewrite H400. simpl.
    by eexists _, _.
  - unfold ProviderB_handleResponse, StatusTooManyRequests.
    destruct (Z.leb_spec 500 (StatusCode resp)); [lia|].
    destruct (Z.eqb_spec (StatusCode resp) 429); [done|].
    destruct (Z.leb_spec 400 (StatusCode resp)); [|lia].
    by eexists _, _.
Qed.

(** What holds of C2: a Payment returned by ProviderA has a non-empty
    identifier, status and currency and a non-zero timestamp; a Payment
    returned by ProviderB has a non-empty status and currency. *)
Lemma returned_payment_fields (p : PaymentProvider) (net : Network)
    (amount : float64) (currency : string) (pay : Payment) :
  fst (fst (PaymentProvider_ProcessPayment rt p net amount currency)) = Some pay →
  Status pay ≠ "" ∧ Currency_ pay ≠ ""
  ∧ match p with
    | IsProviderA _ => ID pay ≠ "" ∧ Time_IsZero (Timestamp pay) = false
    | IsProviderB _ => True
    end.
Proof.
  destruct p as [a|b]; simpl;
    [unfold ProviderA_ProcessPayment, ProviderA_handleResponse
    | unfold ProviderB_ProcessPayment, ProviderB_handleResponse];
    repeat (case_match; simpl; try done); intros [= <-]; simpl.
  - repeat match goal with
           | H : _ || _ = false |- _ => apply orb_false_elim in H as [? ?]
           | H : String.eqb _ _ = false |- _ => apply String.eqb_neq in H
           end. done.
  - repeat match goal with
           | H : String.eqb _ _ = false |- _ => apply String.eqb_neq in H
           end. done.
Qed.


(** C8, as the code has it. On a decodable body of a 2xx response: the
    declined value never yields a Payment, and yields CARD_DECLINED (not
    retryable) once the checks that precede the discriminator have passed
    (ProviderA checks identifier, currency and timestamp first and answers
    PROVIDER_INVALID_RESPONSE when they fail; ProviderB has no such
    checks). Any value other than the approved and the declined one yields
    PROVIDER_INVALID_RESPONSE, and a Payment is returned only for the
    approved value. *)
Theorem C8_discriminator_mapping (p : PaymentProvider) (net : Network)
    (amount : float64) (currency : string) (resp : HttpResponse)
    (body d : string) :
  PaymentProvider_response rt p net amount currency = Some resp →
  is_2xx (StatusCode resp) = true →
  Body resp = Ok body →
  PaymentProvider_discriminator rt p body = Some d →
  (d = declined_value p →
     ∃ e, fst (PaymentProvider_ProcessPayment rt p net amount currency) = (None, Some e)
          ∧ Retryable e = false
          ∧ Code e = (if checked_before_discriminator rt p body
                      then ErrCardDeclined else ErrProviderInvalidResp))
  ∧ (d ≠ approved_value p → d ≠ declined_value p →
     ∃ e, fst (PaymentProvider_ProcessPayment rt p net amount currency) = (None, Some e)
          ∧ Code e = ErrProviderInvalidResp)
  ∧ (is_Some (fst (fst (PaymentProvider_ProcessPayment rt p net amount currency))) →
     d = approved_value p).
Proof.
  intros Hresp H2xx Hbody Hd.
  destruct (ProcessPayment_received _ _ _ _ _ Hresp) as (req & _ & ->).
  unfold is_2xx in H2xx. apply andb_prop in H2xx as [Hlo Hhi].
  apply Z.leb_le in Hlo. apply Z.ltb_lt in Hhi.
  destruct p as [a|b]; simpl in *.
  - unfold ProviderA_handleResponse, StatusTooManyRequests,
      StatusInternalServerError, StatusBadRequest.
    destruct (Z.eqb_spec (StatusCode resp) 429); [lia|].
    destruct (Z.eqb_spec (StatusCode resp) 500); [lia|].
    destruct (Z.eqb_spec (StatusCode resp) 400); [lia|].
    rewrite Hbody. destruct (json_Unmarshal_A rt body) as [r|]; [|done].
    injection Hd as <-.
    destruct (String.eqb_spec (ra_TransactionID r) "");
      destruct (String.eqb_spec (ra_Status r) "");
      destruct (String.eqb_spec (ra_Currency r) "");
      destruct (Time_IsZero (ra_Timestamp r));
      destruct (String.eqb_spec (ra_Status r) "APPROVED");
      destruct (String.eqb_spec (ra_Status r) "DECLINED");
      simpl; repeat split; intros; try congruence; try (by eexists);
      try (by destruct H as [? ?]).
  - unfold ProviderB_handleResponse, StatusTooManyRequests.
    destruct (Z.leb_spec 500 (StatusCode resp)); [lia|].
    destruct (Z.eqb_spec (StatusCode resp) 429); [lia|].
    destruct (Z.leb_spec 400 (StatusCode resp)); [lia|].
    rewrite Hbody. destruct (json_Unmarshal_B rt body) as [r|]; [|done].
    injection Hd as <-.
    destruct (String.eqb_spec (rb_State r) "SUCCESS");
      destruct (String.eqb_spec (rb_State r) "FAILED");
      simpl; repeat split; intros; try congruence; try (by eexists);
      try (by destruct H as [? ?]).
Qed.

End AdapterFacts.

(** C6 at ProviderB's test configuration, amount -100. *)
Lemma C6_witness :
  (f64_le (f64_of_Z (-100)) f64_zero = true
   ∨ f64_gt (f64_of_Z (-100)) (MaxAmount (PaymentProvider_config sample_B)) = true)
  ∧ ∃ e, PaymentProvider_ProcessPayment sample_runtime sample_B (always 200 "b-success")
           (f64_of_Z (-100)) "USD" = ((None, Some e), [])
         ∧ Code e = ErrInvalidAmount ∧ Retryable e = false.
Proof.
  split; [left; reflexivity|].
  apply (C6_invalid_amount_without_http_call sample_runtime sample_B
           (always 200 "b-success") (f64_of_Z (-100)) "USD").
  left; reflexivity.
Defined.

(** C3 fails for ProviderA: on a response with status 500 it returns
    INTERNAL_ERROR, not PROVIDER_UNAVAILABLE. *)
Lemma C3_counterexample :
  PaymentProvider_response sample_runtime sample_A (always 500 "")
    (f64_of_Z 100) "USD" = Some (mkHttpResponse 500 (Ok ""))
  ∧ fst (PaymentProvider_ProcessPayment sample_runtime sample_A (always 500 "")
           (f64_of_Z 100) "USD")
    = (None, Some (mkPaymentError "INTERNAL_ERROR" "Provider internal error"
                     "ProviderA" None true 500))
  ∧ "INTERNAL_ERROR" ≠ ErrProviderUnavailable.
Proof. split; [reflexivity|]. split; [reflexivity|]. discriminate. Qed.

(** The other 5xx codes have no case in ProviderA's switch: a 503 response
    is decoded like a 200 one. *)
Example ProviderA_503_falls_through :
  fst (PaymentProvider_ProcessPayment sample_runtime sample_A (always 503 "a-approved")
         (f64_of_Z 100) "USD")
  = (Some (mkPayment "TXN-TEST-100" (f64_of_Z 100) "USD" "APPROVED" "ProviderA"
             t_2024_01_15), None).
Proof. reflexivity. Qed.

(** C3 as amended, at ProviderB with a 503 answer. *)
Lemma C3_witness :
  PaymentProvider_response sample_runtime sample_B (always 503 "")
    (f64_of_Z 100) "USD" = Some (mkHttpResponse 503 (Ok ""))
  ∧ 500 ≤ 503
  ∧ ∃ e req, PaymentProvider_ProcessPayment sample_runtime sample_B (always 503 "")
               (f64_of_Z 100) "USD" = ((None, Some e), [EvHttpDo req])
             ∧ Code e = ErrProviderUnavailable ∧ Retryable e = true.
Proof.
  split; [reflexivity|]. split; [lia|].
  apply (C3_server_error_triage sample_runtime sample_B (always 503 "")
           (f64_of_Z 100) "USD" (mkHttpResponse 503 (Ok ""))); [reflexivity|simpl; lia].
Defined.

(** C7 fails for ProviderA: a 404 response falls through the status switch,
    its body is decoded and, being an approved body, yields a Payment. *)
Theorem C7_ProviderA_404_yields_payment :
  PaymentProvider_response sample_runtime sample_A (always 404 "a-approved")
    (f64_of_Z 100) "USD" = Some (mkHttpResponse 404 (Ok "a-approved"))
  ∧ ∃ req,
      PaymentProvider_ProcessPayment sample_runtime sample_A (always 404 "a-approved")
        (f64_of_Z 100) "USD"
      = ((Some (mkPayment "TXN-TEST-100" (f64_of_Z 100) "USD" "APPROVED" "ProviderA"
                  t_2024_01_15), None),
         [EvHttpDo req; EvReadAll; EvUnmarshal "a-approved"]).
Proof. split; [reflexivity|]. eexists. reflexivity. Qed.

(** C2 fails for ProviderB: a 200 response whose decoded body has an empty
    paymentId yields a Payment with an empty identifier. *)
Theorem C2_ProviderB_empty_id_payment :
  PaymentProvider_response sample_runtime sample_B (always 200 "b-no-id")
    (f64_of_Z 100) "USD" = Some (mkHttpResponse 200 (Ok "b-no-id"))
  ∧ json_Unmarshal_B sample_runtime "b-no-id"
    = Ok (mkResponseB "" "SUCCESS" "100.00" "USD" 1705318200000)
  ∧ fst (PaymentProvider_ProcessPayment sample_runtime sample_B (always 200 "b-no-id")
           (f64_of_Z 100) "USD")
    = (Some (mkPayment "" (f64_of_Z 100) "USD" "APPROVED" "ProviderB"
               (time_Unix 1705318200)), None).
Proof. split; [reflexivity|]. split; reflexivity. Qed.

(** ProviderB does not look at [processedAt] either: a body without it
    (zero value 0) yields a Payment stamped with the Unix epoch. *)
Example ProviderB_absent_processedAt :
  fst (PaymentProvider_ProcessPayment sample_runtime sample_B (always 200 "b-no-time")
         (f64_of_Z 100) "USD")
  = (Some (mkPayment "PAY-TEST-100" (f64_of_Z 100) "USD" "APPROVED" "ProviderB"
             (time_Unix 0)), None).
Proof. reflexivity. Qed.

(** C8 fails for ProviderA: a decodable 200 body with status DECLINED and
    an empty transaction id yields PROVIDER_INVALID_RESPONSE, not
    CARD_DECLINED. *)
Lemma C8_counterexample :
  PaymentProvider_response sample_runtime sample_A (always 200 "a-declined-no-id")
    (f64_of_Z 100) "USD" = Some (mkHttpResponse 200 (Ok "a-declined-no-id"))
  ∧ PaymentProvider_discriminator sample_runtime sample_A "a-declined-no-id"
    = Some (declined_value sample_A)
  ∧ fst (PaymentProvider_ProcessPayment sample_runtime sample_A
           (always 200 "a-declined-no-id") (f64_of_Z 100) "USD")
    = (None, Some (mkPaymentError "PROVIDER_INVALID_RESPONSE"
                     "Missing required fields in response" "ProviderA"
                     (Some "a-declined-no-id") false 0))
  ∧ "PROVIDER_INVALID_RESPONSE" ≠ ErrCardDeclined.
Proof. split; [reflexivity|]. split; [reflexivity|]. split; [reflexivity|discriminate]. Qed.

(** C8 as amended, at ProviderA's declined test response. *)
Lemma C8_witness :
  PaymentProvider_response sample_runtime sample_A (always 200 "a-declined")
    (f64_of_Z 999) "USD" = Some (mkHttpResponse 200 (Ok "a-declined"))
  ∧ is_2xx 200 = true
  ∧ PaymentProvider_discriminator sample_runtime sample_A "a-declined" = Some "DECLINED"
  ∧ ∃ e, fst (PaymentProvider_ProcessPayment sample_runtime sample_A
                (always 200 "a-declined") (f64_of_Z 999) "USD") = (None, Some e)
         ∧ Retryable e = false ∧ Code e = ErrCardDeclined.
Proof.
  split; [reflexivity|]. split; [reflexivity|]. split; [reflexivity|].
  apply (C8_discriminator_mapping sample_runtime sample_A (always 200 "a-declined")
           (f64_of_Z 999) "USD" (mkHttpResponse 200 (Ok "a-declined"))
           "a-declined" "DECLINED"); reflexivity.
Defined.


(** ** Factory *)

Lemma supported_cases name :
  supported name = true ↔ name = "ProviderA" ∨ name = "ProviderB".
Proof.
  unfold supported. rewrite orb_true_iff, !String.eqb_eq. done.
Qed.

Lemma validateProviderConfig_code cfg e :
  Factory_validateProviderConfig cfg = Some e → Code e = ErrInvalidConfiguration.
Proof.
  unfold Factory_validateProviderConfig.
  repeat case_match; intros [= <-]; done.
Qed.

Lemma validateProviderConfig_invalid cfg :
  Name cfg = "" ∨ Endpoint cfg = "" ∨ f64_le (MaxAmount cfg) f64_zero = true →
  is_Some (Factory_validateProviderConfig cfg).
Proof.
  unfold Factory_validateProviderConfig.
  intros H. repeat case_match; try done.
  destruct H as [H|[H|H]].
  - apply String.eqb_eq in H. congruence.
  - apply String.eqb_eq in H. congruence.
  - congruence.
Qed.

Lemma validateProviderConfig_valid cfg :
  Factory_validateProviderConfig cfg = None ↔
  Name cfg ≠ "" ∧ Endpoint cfg ≠ "" ∧ f64_le (MaxAmount cfg) f64_zero = false.
Proof.
  unfold Factory_validateProviderConfig.
  destruct (String.eqb_spec (Name cfg) ""); [naive_solver|].
  destruct (String.eqb_spec (Endpoint cfg) ""); [naive_solver|].
  destruct (f64_le (MaxAmount cfg) f64_zero); naive_solver.
Qed.

(** C5. CreateProvider, check by check.
    - A cached name returns the cached adapter and leaves the factory as it
      is, whatever the configuration says by then; so a call that created
      an adapter is repeated with the same adapter.
    - An uncached name without configuration yields PROVIDER_NOT_FOUND.
    - An uncached name whose configuration has an empty name, an empty
      endpoint or a max-amount <= 0 yields INVALID_CONFIGURATION and leaves
      the factory as it is; once the configuration entry is replaced by a
      valid one, the call creates the adapter.
    - An uncached name with a valid configuration and no implementation
      yields PROVIDER_NOT_FOUND. *)
Theorem C5_CreateProvider (now : Time) (f : Factory) (name : string) :
  (∀ p, providers f !! name = Some p → Factory_CreateProvider now f name = (inl p, f))
  ∧ (∀ p f' now', Factory_CreateProvider now f name = (inl p, f') →
       Factory_CreateProvider now' f' name = (inl p, f'))
  ∧ (providers f !! name = None →
     (f_config f !! name = None →
        ∃ e, Factory_CreateProvider now f name = (inr e, f) ∧ Code e = ErrProviderNotFound)
     ∧ (∀ cfg, f_config f !! name = Some cfg →
          (Name cfg = "" ∨ Endpoint cfg = "" ∨ f64_le (MaxAmount cfg) f64_zero = true →
             (∃ e, Factory_CreateProvider now f name = (inr e, f)
                   ∧ Code e = ErrInvalidConfiguration)
             ∧ ∀ good, Factory_validateProviderConfig good = None →
                 supported name = true →
                 ∃ f',
                   Factory_CreateProvider now
                     (mkFactory (<[name := good]> (f_config f)) (f_httpClient f)
                        (providers f) (providerStates f)) name
                   = (inl (new_adapter name good (f_httpClient f)), f')
                   ∧ providers f' !! name = Some (new_adapter name good (f_httpClient f)))
          ∧ (Factory_validateProviderConfig cfg = None → supported name = false →
             ∃ e, Factory_CreateProvider now f name = (inr e, f)
                  ∧ Code e = ErrProviderNotFound))).
Proof.
  split; [|split].
  - intros p Hp. unfold Factory_CreateProvider. by rewrite Hp.
  - intros p f' now'. unfold Factory_CreateProvider, Factory_install.
    repeat case_match; intros [= <- <-]; simpl; try done.
    all: by rewrite ?lookup_insert_eq; simplify_map_eq.
  - intros Hnone. split.
    + intros Hcfg. unfold Factory_CreateProvider. rewrite Hnone, Hcfg. by eexists.
    + intros cfg Hcfg. split.
      * intros Hbad. split.
        -- destruct (validateProviderConfig_invalid cfg Hbad) as [e He].
           exists e. unfold Factory_CreateProvider. rewrite Hnone, Hcfg, He.
           split; [done|]. by eapply validateProviderConfig_code.
        -- intros good Hgood Hsup.
           unfold Factory_CreateProvider, Factory_install, new_adapter. simpl.
           rewrite Hnone, lookup_insert_eq, Hgood.
           apply supported_cases in Hsup as [-> | ->]; simpl;
             eexists; (split; [reflexivity|]); simpl; by rewrite lookup_insert_eq.
      * intros Hok Hsup. unfold Factory_CreateProvider. rewrite Hnone, Hcfg, Hok.
        unfold supported in Hsup. apply orb_false_elim in Hsup as [-> ->].
        by eexists.
Qed.

Lemma getOrCreateProvider_cached now f name p :
  providers f !! name = Some p →
  Factory_getOrCreateProvider now f name = (inl p, f).
Proof. intros H. unfold Factory_getOrCreateProvider. by rewrite H. Qed.

Lemma getOrCreateProvider_inl now f name p f1 :
  Factory_getOrCreateProvider now f name = (inl p, f1) →
  providers f1 !! name = Some p
  ∧ f_config f1 = f_config f ∧ f_httpClient f1 = f_httpClient f.
Proof.
  unfold Factory_getOrCreateProvider, Factory_install.
  repeat case_match; intros [= <- <-]; simpl; by rewrite ?lookup_insert_eq.
Qed.

Lemma updateProviderState_success now f name :
  ∃ st, providerStates (Factory_updateProviderState now f name true None) !! name = Some st
        ∧ ConsecutiveErrs st = 0 ∧ IsAvailable st = true.
Proof. unfold Factory_updateProviderState. simpl. rewrite lookup_insert_eq. by eexists. Qed.

Lemma updateProviderState_failure now f name err :
  ∃ st, providerStates (Factory_updateProviderState now f name false err) !! name = Some st
        ∧ ConsecutiveErrs st = int64_add (errs_of f name) 1
        ∧ (3 ≤ ConsecutiveErrs st → IsAvailable st = false).
Proof.
  unfold Factory_updateProviderState, errs_of.
  cbn [providerStates]. rewrite lookup_insert_eq.
  eexists. split; [done|]. cbn [ConsecutiveErrs IsAvailable].
  destruct (providerStates f !! name) as [st|]; cbn [fmap option_fmap option_map default];
    (split; [done|]); intros H; apply Z.leb_le in H; by rewrite H.
Qed.

Lemma updateProviderState_failure_below now f name err :
  ∃ st, providerStates (Factory_updateProviderState now f name false err) !! name = Some st
        ∧ (ConsecutiveErrs st < 3 → IsAvailable st = avail_of f name).
Proof.
  unfold Factory_updateProviderState, avail_of.
  cbn [providerStates]. rewrite lookup_insert_eq.
  eexists. split; [done|]. cbn [ConsecutiveErrs IsAvailable].
  destruct (providerStates f !! name) as [st|];
    cbn [fmap option_fmap option_map default ProviderState_zero ConsecutiveErrs IsAvailable];
    intros H; apply Z.leb_gt in H; by rewrite H.
Qed.

Lemma updateProviderState_providers now f name success err :
  providers (Factory_updateProviderState now f name success err) = providers f.
Proof. done. Qed.

(** Factory.ProcessPayment on a name that resolves: the adapter's verdict
    and the factory it leaves. *)
Lemma ProcessPayment_resolved rt env f name amount currency p f1 :
  Factory_getOrCreateProvider (env_now_create env) f name = (inl p, f1) →
  (∃ pay, Factory_ProcessPayment rt env f name amount currency
          = ((Some pay, None),
             Factory_updateProviderState (env_now_update env) f1 name true None))
  ∨ (∃ e, Factory_ProcessPayment rt env f name amount currency
          = ((None, Some e),
             Factory_updateProviderState (env_now_update env) f1 name false (Some e))).
Proof.
  intros H. unfold Factory_ProcessPayment. rewrite H.
  destruct (adapter_exactly_one rt p (env_net env) amount currency) as [[pay Hp]|[e He]].
  - left. exists pay. by rewrite Hp.
  - right. exists e. by rewrite He.
Qed.

Lemma ProcessPayment_keeps_cached rt env f name amount currency p f1 :
  Factory_getOrCreateProvider (env_now_create env) f name = (inl p, f1) →
  providers (snd (Factory_ProcessPayment rt env f name amount currency)) !! name = Some p.
Proof.
  intros H. destruct (getOrCreateProvider_inl _ _ _ _ _ H) as (Hp & _).
  destruct (ProcessPayment_resolved rt env f name amount currency p f1 H)
    as [[? ->]|[? ->]]; done.
Qed.

Lemma int64_add_small a b :
  - 2 ^ 63 ≤ a + b < 2 ^ 63 → int64_add a b = a + b.
Proof.
  intros H. unfold int64_add, int64_wrap.
  rewrite Z.mod_small; lia.
Qed.

Lemma ProcessPayment_failed rt env f name amount currency p f1 :
  Factory_getOrCreateProvider (env_now_create env) f name = (inl p, f1) →
  is_Some (snd (fst (Factory_ProcessPayment rt env f name amount currency))) →
  ∃ e, Factory_ProcessPayment rt env f name amount currency
       = ((None, Some e),
          Factory_updateProviderState (env_now_update env) f1 name false (Some e)).
Proof.
  intros H Herr.
  destruct (ProcessPayment_resolved rt env f name amount currency p f1 H)
    as [[pay Hp]|[e He]].
  - rewrite Hp in Herr. by destruct Herr.
  - by exists e.
Qed.

Lemma ProcessPayment_succeeded rt env f name amount currency p f1 :
  Factory_getOrCreateProvider (env_now_create env) f name = (inl p, f1) →
  is_Some (fst (fst (Factory_ProcessPayment rt env f name amount currency))) →
  ∃ pay, Factory_ProcessPayment rt env f name amount currency
         = ((Some pay, None),
            Factory_updateProviderState (env_now_update env) f1 name true None).
Proof.
  intros H Hok.
  destruct (ProcessPayment_resolved rt env f name amount currency p f1 H)
    as [[pay Hp]|[e He]].
  - by exists pay.
  - rewrite He in Hok. by destruct Hok.
Qed.

(** One failed call on a cached provider moves the counter from [n] to
    [n + 1] and keeps the provider cached. *)
Lemma failed_call_counts rt env f name amount currency p f1 n :
  Factory_getOrCreateProvider (env_now_create env) f name = (inl p, f1) →
  errs_of f1 name = n → 0 ≤ n < 10 →
  is_Some (snd (fst (Factory_ProcessPayment rt env f name amount currency))) →
  let f' := snd (Factory_ProcessPayment rt env f name amount currency) in
  (∀ now, Factory_getOrCreateProvider now f' name = (inl p, f'))
  ∧ errs_of f' name = n + 1
  ∧ ∃ st, providerStates f' !! name = Some st ∧ ConsecutiveErrs st = n + 1
          ∧ (3 ≤ n + 1 → IsAvailable st = false)
          ∧ (n + 1 < 3 → IsAvailable st = avail_of f1 name).
Proof.
  intros H Hn Hrange Herr.
  destruct (ProcessPayment_failed rt env f name amount currency p f1 H Herr) as [e ->].
  cbn [snd].
  destruct (getOrCreateProvider_inl _ _ _ _ _ H) as (Hp & _).
  destruct (updateProviderState_failure (env_now_update env) f1 name (Some e))
    as (st & Hst & Hc & Ha).
  destruct (updateProviderState_failure_below (env_now_update env) f1 name (Some e))
    as (st' & Hst' & Hb).
  rewrite Hst in Hst'. injection Hst' as <-.
  rewrite Hn, int64_add_small in Hc by lia.
  split; [|split].
  - intros now. by apply getOrCreateProvider_cached.
  - unfold errs_of. rewrite Hst. done.
  - exists st. rewrite Hc in Ha, Hb. done.
Qed.

Section Health.

Context (rt : Runtime).

(** C4. The health record of a provider.
    - updateProviderState with success leaves the counter at 0 and the
      provider available; with failure it adds one to the counter (Go's
      [int] addition), marks the provider unavailable once the counter is
      at 3 or more, and below 3 leaves the availability flag as it was.
    - Factory.ProcessPayment on a name that resolves to an adapter applies
      exactly that to the record the resolution found or created: a
      returned Payment resets, a returned error increments.
    - Hence of three failed calls in a row on a provider whose counter is
      0 the first two leave the counter at 1 and at 2 with the provider as
      available as it was, the third leaves it unavailable with counter 3,
      and a following successful call leaves it available with counter
      0. *)
Theorem C4_health_state :
  (∀ now f name,
     ∃ st, providerStates (Factory_updateProviderState now f name true None) !! name = Some st
           ∧ ConsecutiveErrs st = 0 ∧ IsAvailable st = true)
  ∧ (∀ now f name err,
     ∃ st, providerStates (Factory_updateProviderState now f name false err) !! name = Some st
           ∧ ConsecutiveErrs st = int64_add (errs_of f name) 1
           ∧ (- 2 ^ 63 ≤ errs_of f name < int64_max →
              ConsecutiveErrs st = errs_of f name + 1)
           ∧ (3 ≤ ConsecutiveErrs st → IsAvailable st = false)
           ∧ (ConsecutiveErrs st < 3 → IsAvailable st = avail_of f name))
  ∧ (∀ env f name amount currency p f1,
     Factory_getOrCreateProvider (env_now_create env) f name = (inl p, f1) →
     ∃ st, providerStates (snd (Factory_ProcessPayment rt env f name amount currency)) !! name
           = Some st
           ∧ (is_Some (fst (fst (Factory_ProcessPayment rt env f name amount currency))) →
              ConsecutiveErrs st = 0 ∧ IsAvailable st = true)
           ∧ (is_Some (snd (fst (Factory_ProcessPayment rt env f name amount currency))) →
              ConsecutiveErrs st = int64_add (errs_of f1 name) 1
              ∧ (3 ≤ ConsecutiveErrs st → IsAvailable st = false)
              ∧ (ConsecutiveErrs st < 3 → IsAvailable st = avail_of f1 name)))
  ∧ (∀ e1 e2 e3 e4 f name a1 c1 a2 c2 a3 c3 a4 c4 p f0,
     Factory_getOrCreateProvider (env_now_create e1) f name = (inl p, f0) →
     errs_of f0 name = 0 →
     let r1 := Factory_ProcessPayment rt e1 f name a1 c1 in
     let r2 := Factory_ProcessPayment rt e2 (snd r1) name a2 c2 in
     let r3 := Factory_ProcessPayment rt e3 (snd r2) name a3 c3 in
     let r4 := Factory_ProcessPayment rt e4 (snd r3) name a4 c4 in
     is_Some (snd (fst r1)) → is_Some (snd (fst r2)) → is_Some (snd (fst r3)) →
     (∃ st, providerStates (snd r1) !! name = Some st
            ∧ IsAvailable st = avail_of f0 name ∧ ConsecutiveErrs st = 1)
     ∧ (∃ st, providerStates (snd r2) !! name = Some st
              ∧ IsAvailable st = avail_of f0 name ∧ ConsecutiveErrs st = 2)
     ∧ (∃ st, providerStates (snd r3) !! name = Some st
              ∧ IsAvailable st = false ∧ ConsecutiveErrs st = 3)
     ∧ (is_Some (fst (fst r4)) →
        ∃ st, providerStates (snd r4) !! name = Some st
              ∧ IsAvailable st = true ∧ ConsecutiveErrs st = 0)).
Proof.
  split; [|split; [|split]].
  - apply updateProviderState_success.
  - intros now f name err.
    destruct (updateProviderState_failure now f name err) as (st & Hst & Hc & Ha).
    destruct (updateProviderState_failure_below now f name err) as (st' & Hst' & Hb).
    rewrite Hst in Hst'. injection Hst' as <-.
    exists st. repeat split; try done.
    intros Hr. rewrite Hc. apply int64_add_small. unfold int64_max in Hr. lia.
  - intros env f name amount currency p f1 H.
    destruct (ProcessPayment_resolved rt env f name amount currency p f1 H)
      as [[pay ->]|[e ->]]; cbn [fst snd].
    + destruct (updateProviderState_success (env_now_update env) f1 name)
        as (st & Hst & Hc & Ha).
      exists st. split; [done|]. split; [done|]. by intros [? ?].
    + destruct (updateProviderState_failure (env_now_update env) f1 name (Some e))
        as (st & Hst & Hc & Ha).
      destruct (updateProviderState_failure_below (env_now_update env) f1 name (Some e))
        as (st' & Hst' & Hb).
      rewrite Hst in Hst'. injection Hst' as <-.
      exists st. split; [done|]. split; [by intros [? ?]|done].
  - intros e1 e2 e3 e4 f name a1 c1 a2 c2 a3 c3 a4 c4 p f0 H H0 r1 r2 r3 r4 F1 F2 F3.
    destruct (failed_call_counts rt e1 f name a1 c1 p f0 0 H H0 ltac:(lia) F1)
      as (G1 & N1 & st1 & Hst1 & Hc1 & _ & Hb1).
    destruct (failed_call_counts rt e2 (snd r1) name a2 c2 p (snd r1) 1
                (G1 _) N1 ltac:(lia) F2) as (G2 & N2 & st2 & Hst2 & Hc2 & _ & Hb2).
    destruct (failed_call_counts rt e3 (snd r2) name a3 c3 p (snd r2) 2
                (G2 _) N2 ltac:(lia) F3) as (G3 & N3 & st & Hst & Hc & Ha & _).
    assert (avail_of (snd r1) name = IsAvailable st1) as Hav1.
    { unfold avail_of. fold r1 in Hst1. by rewrite Hst1. }
    split; [|split; [|split]].
    + exists st1. split; [done|]. split; [apply Hb1; lia | done].
    + exists st2. split; [done|]. split; [|done].
      rewrite Hb2 by lia. rewrite Hav1. apply Hb1. lia.
    + exists st. split; [done|]. split; [apply Ha; lia | done].
    + intros S4.
      destruct (ProcessPayment_succeeded rt e4 (snd r3) name a4 c4 p (snd r3) (G3 _) S4)
        as [pay Hpay].
      subst r4. rewrite Hpay. cbn [snd].
      destruct (updateProviderState_success (env_now_update e4) (snd r3) name)
        as (st' & Hst' & Hc' & Ha').
      by exists st'.
Qed.

End Health.

(** ** Which names have a state record *)

Section Registry.

Context (rt : Runtime) (cfg : gmap string PaymentProviderConfig).

Lemma is_Some_insert {V} (m : gmap string V) (i j : string) (x : V) :
  is_Some (<[i := x]> m !! j) ↔ i = j ∨ is_Some (m !! j).
Proof.
  rewrite lookup_insert_is_Some. destruct (decide (i = j)); naive_solver.
Qed.

Lemma getOrCreateProvider_registry now f name :
  registry_inv cfg f →
  let r := Factory_getOrCreateProvider now f name in
  registry_inv cfg (snd r)
  ∧ (∀ n, is_Some (providerStates (snd r) !! n) ↔
          is_Some (providerStates f !! n)
          ∨ (name = n ∧ supported name && bool_decide (is_Some (cfg !! name)) = true))
  ∧ (∀ p, fst r = inl p → is_Some (providerStates (snd r) !! name)).
Proof.
  intros [Hcfg Hdom]. unfold Factory_getOrCreateProvider, Factory_install.
  destruct (providers f !! name) as [p|] eqn:Hp; cbn [fst snd].
  { split; [done|]. split.
    - intros n. split; [by left|]. intros [?|[<- _]]; [done|].
      apply Hdom. by rewrite Hp.
    - intros ? _. apply Hdom. by rewrite Hp. }
  rewrite Hcfg. unfold supported.
  destruct (cfg !! name) as [c|] eqn:Hc; cbn [fst snd].
  2:{ split; [done|]. split; [|done].
      intros n. rewrite andb_false_r. naive_solver. }
  destruct (String.eqb name "ProviderA") eqn:HA; cbn [fst snd orb andb].
  { split; [|split].
    - split; [done|]. intros n. cbn. rewrite !is_Some_insert, Hdom. done.
    - intros n. cbn. rewrite is_Some_insert.
      rewrite ?bool_decide_eq_true_2 by done. naive_solver.
    - intros ? _. cbn. rewrite lookup_insert_eq. done. }
  destruct (String.eqb name "ProviderB") eqn:HB; cbn [fst snd orb andb].
  { split; [|split].
    - split; [done|]. intros n. cbn. rewrite !is_Some_insert, Hdom. done.
    - intros n. cbn. rewrite is_Some_insert.
      rewrite ?bool_decide_eq_true_2 by done. naive_solver.
    - intros ? _. cbn. rewrite lookup_insert_eq. done. }
  split; [done|]. split; [|done]. intros n. naive_solver.
Qed.

Lemma updateProviderState_registry now f name success err :
  registry_inv cfg f → is_Some (providerStates f !! name) →
  registry_inv cfg (Factory_updateProviderState now f name success err)
  ∧ ∀ n, is_Some (providerStates (Factory_updateProviderState now f name success err) !! n)
         ↔ is_Some (providerStates f !! n).
Proof.
  intros [Hcfg Hdom] Hname. unfold Factory_updateProviderState.
  assert (∀ st n, is_Some (<[name := st]> (providerStates f) !! n)
                  ↔ is_Some (providerStates f !! n)) as Hins.
  { intros st n. rewrite is_Some_insert. naive_solver. }
  split; [split|]; cbn; [done| |]; intros n; rewrite Hins; [apply Hdom|done].
Qed.

Lemma apply_op_registry f op :
  registry_inv cfg f →
  registry_inv cfg (apply_op rt f op)
  ∧ ∀ n, is_Some (providerStates (apply_op rt f op) !! n) ↔
         is_Some (providerStates f !! n) ∨ (Op_name op = n ∧ resolves cfg op = true).
Proof.
  intros Hinv. destruct op as [env name amount currency|now name|now name|now name err];
    cbn [apply_op Op_name resolves].
  - destruct (getOrCreateProvider_registry (env_now_create env) f name Hinv)
      as (Hinv1 & Hdom1 & Hres).
    unfold Factory_ProcessPayment.
    destruct (Factory_getOrCreateProvider (env_now_create env) f name) as [[p|e] f1];
      cbn [fst snd] in *; [|done].
    destruct (fst (PaymentProvider_ProcessPayment rt p (env_net env) amount currency))
      as [payment [e|]]; cbn [snd];
      match goal with
      | |- context [Factory_updateProviderState ?now f1 name ?s ?e] =>
          destruct (updateProviderState_registry now f1 name s e Hinv1 (Hres _ eq_refl))
            as [Hinv2 Hdom2]
      end; (split; [done|]); intros n; by rewrite Hdom2, Hdom1.
  - destruct Hinv as [Hcfg Hdom].
    unfold Factory_CreateProvider, Factory_install.
    destruct (providers f !! name) as [p|] eqn:Hp; cbn [fst snd].
    { split; [done|]. intros n. split; [by left|]. intros [?|[<- _]]; [done|].
      apply Hdom. by rewrite Hp. }
    rewrite Hcfg. unfold supported.
    destruct (cfg !! name) as [c|] eqn:Hc; cbn [fst snd].
    2:{ split; [done|]. intros n. rewrite andb_false_r. naive_solver. }
    destruct (Factory_validateProviderConfig c) eqn:Hv; cbn [fst snd].
    { split; [done|]. intros n. rewrite andb_false_r. naive_solver. }
    destruct (String.eqb name "ProviderA") eqn:HA; cbn [fst snd orb andb].
    { split.
      - split; [done|]. intros n. cbn. rewrite !is_Some_insert, Hdom. done.
      - intros n. cbn. rewrite is_Some_insert. naive_solver. }
    destruct (String.eqb name "ProviderB") eqn:HB; cbn [fst snd orb andb].
    { split.
      - split; [done|]. intros n. cbn. rewrite !is_Some_insert, Hdom. done.
      - intros n. cbn. rewrite is_Some_insert. naive_solver. }
    split; [done|]. intros n. naive_solver.
  - destruct (getOrCreateProvider_registry now f name Hinv) as (Hinv1 & Hdom1 & _).
    done.
  - unfold Factory_UpdateProviderState.
    destruct (providerStates f !! name) as [st|] eqn:Hst.
    2:{ split; [done|]. naive_solver. }
    destruct Hinv as [Hcfg Hdom].
    assert (∀ st' n, is_Some (<[name := st']> (providerStates f) !! n)
                     ↔ is_Some (providerStates f !! n)) as Hins.
    { intros st' n. rewrite is_Some_insert. split; [|naive_solver].
      intros [<-|?]; [by rewrite Hst|done]. }
    split; [split|]; cbn; [done| |]; intros n; rewrite Hins; [apply Hdom|naive_solver].
Qed.

Lemma run_ops_registry ops f :
  registry_inv cfg f →
  registry_inv cfg (run_ops rt ops f)
  ∧ ∀ n, is_Some (providerStates (run_ops rt ops f) !! n) ↔
         is_Some (providerStates f !! n)
         ∨ ∃ op, op ∈ ops ∧ Op_name op = n ∧ resolves cfg op = true.
Proof.
  revert f. induction ops as [|op ops IH]; intros f Hinv; cbn.
  - split; [done|]. intros n. split; [by left|].
    intros [?|(op & Hin & _)]; [done|]. by apply elem_of_nil in Hin.
  - destruct (apply_op_registry f op Hinv) as [Hinv1 Hdom1].
    destruct (IH _ Hinv1) as [Hinv2 Hdom2].
    split; [done|]. intros n. rewrite Hdom2, Hdom1. split.
    + intros [[?|[? ?]]|(op' & Hin & ? & ?)]; [by left| |].
      * right. exists op. split; [apply elem_of_cons; by left|done].
      * right. exists op'. split; [apply elem_of_cons; by right|done].
    + intros [?|(op' & Hin & ? & ?)]; [by left; left|].
      apply elem_of_cons in Hin as [->|Hin]; [left; by right|].
      right. by exists op'.
Qed.

End Registry.

(** C9, as the code has it. After any sequence of calls on a new factory,
    the state map has an entry for a name exactly when some call resolved
    that name to an adapter: a ProcessPayment or GetProviderMetadata call
    for a configured name with an implementation, or a CreateProvider call
    for such a name whose configuration is valid. The entry is keyed by the
    name, entries are never removed, and the state map and the adapter
    cache have the same keys; a name whose resolution failed in every call
    has no entry. *)
Theorem C9_state_entries (rt : Runtime) (cfg : gmap string PaymentProviderConfig)
    (client : http_Client) (ops : list Op) (name : string) :
  (is_Some (providerStates (run_ops rt ops (NewFactory cfg client)) !! name) ↔
   ∃ op, op ∈ ops ∧ Op_name op = name ∧ resolves cfg op = true)
  ∧ (is_Some (providerStates (run_ops rt ops (NewFactory cfg client)) !! name) ↔
     is_Some (providers (run_ops rt ops (NewFactory cfg client)) !! name)).
Proof.
  assert (registry_inv cfg (NewFactory cfg client)) as Hinit.
  { split; [done|]. intros n. cbn. by rewrite !lookup_empty. }
  destruct (run_ops_registry rt cfg ops _ Hinit) as [[_ Hdom] Hiff].
  split; [|apply Hdom].
  rewrite Hiff. cbn. rewrite lookup_empty. split; [|by right].
  intros [[? [=]]|?]; done.
Qed.

(** C9 fails: a ProcessPayment call for a name without configuration
    returns PROVIDER_NOT_FOUND and leaves no state entry for the name. *)
Lemma C9_counterexample :
  fst (Factory_ProcessPayment sample_runtime (sample_env (always 200 "a-approved"))
         (NewFactory sample_configs sample_client) "NonExistentProvider"
         (f64_of_Z 100) "USD")
  = (None, Some (PaymentError_lit "PROVIDER_NOT_FOUND"
                   "Provider NonExistentProvider not found"))
  ∧ providerStates
      (snd (Factory_ProcessPayment sample_runtime (sample_env (always 200 "a-approved"))
              (NewFactory sample_configs sample_client) "NonExistentProvider"
              (f64_of_Z 100) "USD")) !! "NonExistentProvider" = None.
Proof. split; reflexivity. Qed.

(** ** ProcessPayment and configuration validation *)

Lemma adapter_error_code rt (p : PaymentProvider) net amount currency e :
  snd (fst (PaymentProvider_ProcessPayment rt p net amount currency)) = Some e →
  Code e ≠ ErrInvalidConfiguration.
Proof.
  destruct p as [a|b]; simpl;
    [unfold ProviderA_ProcessPayment, ProviderA_handleResponse
    | unfold ProviderB_ProcessPayment, ProviderB_handleResponse];
    repeat case_match; simpl; intros [= <-]; done.
Qed.

Lemma ProcessPayment_error_code rt env f name amount currency e :
  snd (fst (Factory_ProcessPayment rt env f name amount currency)) = Some e →
  Code e ≠ ErrInvalidConfiguration.
Proof.
  unfold Factory_ProcessPayment.
  destruct (Factory_getOrCreateProvider (env_now_create env) f name) as [[p|e0] f1] eqn:Hg.
  - pose proof (adapter_error_code rt p (env_net env) amount currency) as Hcode.
    destruct (fst (PaymentProvider_ProcessPayment rt p (env_net env) amount currency))
      as [payment [e1|]]; cbn; [|done].
    intros [= <-]. by apply Hcode.
  - cbn. intros [= <-]. revert Hg.
    unfold Factory_getOrCreateProvider, Factory_install.
    repeat case_match; intros [= <- <-]; done.
Qed.

(** C10, as the code has it. Factory.ProcessPayment never returns
    INVALID_CONFIGURATION. For a configured name that has an implementation
    (ProviderA or ProviderB), whatever its configuration says, the adapter
    is cached after the call; if it was not cached before, it is the
    adapter built from that configuration, also where CreateProvider on the
    same factory rejects the configuration with INVALID_CONFIGURATION and
    caches nothing. *)
Theorem C10_ProcessPayment_does_not_validate (rt : Runtime) (env : Env) (f : Factory)
    (name : string) (amount : float64) (currency : string)
    (cfg : PaymentProviderConfig) :
  f_config f !! name = Some cfg →
  supported name = true →
  (∀ e, snd (fst (Factory_ProcessPayment rt env f name amount currency)) = Some e →
        Code e ≠ ErrInvalidConfiguration)
  ∧ is_Some (providers (snd (Factory_ProcessPayment rt env f name amount currency)) !! name)
  ∧ (providers f !! name = None →
     providers (snd (Factory_ProcessPayment rt env f name amount currency)) !! name
     = Some (new_adapter name cfg (f_httpClient f))
     ∧ (is_Some (Factory_validateProviderConfig cfg) →
        ∀ now, ∃ e, Factory_CreateProvider now f name = (inr e, f)
                    ∧ Code e = ErrInvalidConfiguration)).
Proof.
  intros Hcfg Hsup. split; [intros e; apply ProcessPayment_error_code|].
  assert (∃ p f1, Factory_getOrCreateProvider (env_now_create env) f name = (inl p, f1)
                  ∧ (providers f !! name = None →
                     p = new_adapter name cfg (f_httpClient f))) as (p & f1 & Hg & Hnew).
  { unfold Factory_getOrCreateProvider, Factory_install, new_adapter.
    destruct (providers f !! name) as [q|]; [by eexists _, _|].
    rewrite Hcfg. apply supported_cases in Hsup as [-> | ->]; cbn; by eexists _, _. }
  pose proof (ProcessPayment_keeps_cached rt env f name amount currency p f1 Hg) as Hkeep.
  split; [by rewrite Hkeep|].
  intros Hnone. split; [by rewrite Hkeep, Hnew|].
  intros [e He] now. exists e. unfold Factory_CreateProvider.
  rewrite Hnone, Hcfg, He. split; [done|]. by eapply validateProviderConfig_code.
Qed.

(** The unconditional half of C10. *)
Lemma ProcessPayment_never_invalid_configuration rt env f name amount currency e :
  snd (fst (Factory_ProcessPayment rt env f name amount currency)) = Some e →
  Code e ≠ ErrInvalidConfiguration.
Proof. apply ProcessPayment_error_code. Qed.

(** C10 fails for a configured name without implementation: ProcessPayment
    returns PROVIDER_NOT_FOUND and caches no adapter. *)
Lemma C10_counterexample :
  f_config config_C_factory
    !! "ProviderC" = Some sample_config_C
  ∧ fst (Factory_ProcessPayment sample_runtime (sample_env (always 200 "a-approved"))
           config_C_factory
           "ProviderC" (f64_of_Z 100) "USD")
    = (None, Some (PaymentError_lit "PROVIDER_NOT_FOUND"
                     "Provider ProviderC not supported"))
  ∧ providers
      (snd (Factory_ProcessPayment sample_runtime (sample_env (always 200 "a-approved"))
              config_C_factory
              "ProviderC" (f64_of_Z 100) "USD")) !! "ProviderC" = None.
Proof. split; [reflexivity|]. split; reflexivity. Qed.

(** C10 at ProviderA configured with an empty endpoint. *)
Lemma C10_witness :
  f_config no_endpoint_factory !! "ProviderA" = Some sample_config_A_no_endpoint
  ∧ supported "ProviderA" = true
  ∧ is_Some (Factory_validateProviderConfig sample_config_A_no_endpoint)
  ∧ providers
      (snd (Factory_ProcessPayment sample_runtime (sample_env (always 200 "a-approved"))
              no_endpoint_factory
              "ProviderA" (f64_of_Z 100) "USD")) !! "ProviderA"
    = Some (new_adapter "ProviderA" sample_config_A_no_endpoint sample_client).
Proof.
  split; [reflexivity|]. split; [reflexivity|]. split; [by eexists|].
  apply (C10_ProcessPayment_does_not_validate sample_runtime
           (sample_env (always 200 "a-approved"))
           no_endpoint_factory
           "ProviderA" (f64_of_Z 100) "USD" sample_config_A_no_endpoint);
    reflexivity.
Defined.

(** C4 on ProviderA of a new factory: three answers with status 500, then
    an approval. *)
Lemma C4_witness :
  (is_Some (snd (fst health_r1)) ∧ is_Some (snd (fst health_r2))
   ∧ is_Some (snd (fst health_r3)) ∧ is_Some (fst (fst health_r4)))
  ∧ avail_of (snd (Factory_getOrCreateProvider t_2024_01_15 health_factory "ProviderA"))
      "ProviderA" = true
  ∧ (∃ st, providerStates (snd health_r1) !! "ProviderA" = Some st
           ∧ IsAvailable st
             = avail_of (snd (Factory_getOrCreateProvider t_2024_01_15 health_factory
                                "ProviderA")) "ProviderA"
           ∧ ConsecutiveErrs st = 1)
  ∧ (∃ st, providerStates (snd health_r2) !! "ProviderA" = Some st
           ∧ IsAvailable st
             = avail_of (snd (Factory_getOrCreateProvider t_2024_01_15 health_factory
                                "ProviderA")) "ProviderA"
           ∧ ConsecutiveErrs st = 2)
  ∧ (∃ st, providerStates (snd health_r3) !! "ProviderA" = Some st
           ∧ IsAvailable st = false ∧ ConsecutiveErrs st = 3)
  ∧ (∃ st, providerStates (snd health_r4) !! "ProviderA" = Some st
           ∧ IsAvailable st = true ∧ ConsecutiveErrs st = 0).
Proof.
  assert (is_Some (snd (fst health_r1))) as F1 by (by eexists).
  assert (is_Some (snd (fst health_r2))) as F2 by (by eexists).
  assert (is_Some (snd (fst health_r3))) as F3 by (by eexists).
  assert (is_Some (fst (fst health_r4))) as S4 by (by eexists).
  split; [done|]. split; [reflexivity|].
  destruct (C4_health_state sample_runtime) as (_ & _ & _ & H).
  destruct (H env_A_500 env_A_500 env_A_500 env_A_approves health_factory "ProviderA"
              (f64_of_Z 100) "USD" (f64_of_Z 100) "USD"
              (f64_of_Z 100) "USD" (f64_of_Z 100) "USD"
              sample_A
              (snd (Factory_getOrCreateProvider t_2024_01_15 health_factory "ProviderA"))
              eq_refl eq_refl F1 F2 F3) as (H1 & H2 & H3 & H4).
  split; [exact H1|]. split; [exact H2|]. split; [exact H3 | exact (H4 S4)].
Defined.

(** C5 on ProviderA configured with an empty endpoint: the call is
    rejected and nothing is cached. *)
Lemma C5_witness :
  providers no_endpoint_factory !! "ProviderA" = None
  ∧ f_config no_endpoint_factory !! "ProviderA" = Some sample_config_A_no_endpoint
  ∧ Endpoint sample_config_A_no_endpoint = ""
  ∧ ∃ e, Factory_CreateProvider t_2024_01_15 no_endpoint_factory "ProviderA"
         = (inr e, no_endpoint_factory)
         ∧ Code e = ErrInvalidConfiguration.
Proof.
  split; [reflexivity|]. split; [reflexivity|]. split; [reflexivity|].
  destruct (C5_CreateProvider t_2024_01_15 no_endpoint_factory "ProviderA") as (_ & _ & H).
  destruct (H eq_refl) as [_ H'].
  destruct (H' sample_config_A_no_endpoint eq_refl) as [Hbad _].
  destruct (Hbad (or_intror (or_introl eq_refl))) as [Hres _].
  exact Hres.
Defined.

(** C9 on a new factory after a payment through ProviderA, a payment
    through an unknown name and a creation of ProviderB: ProviderA has a
    state entry. *)
Lemma C9_witness :
  OpProcessPayment env_A_approves "ProviderA" (f64_of_Z 100) "USD" ∈ sample_ops
  ∧ resolves sample_configs
      (OpProcessPayment env_A_approves "ProviderA" (f64_of_Z 100) "USD") = true
  ∧ is_Some (providerStates
               (run_ops sample_runtime sample_ops (NewFactory sample_configs sample_client))
             !! "ProviderA").
Proof.
  assert (OpProcessPayment env_A_approves "ProviderA" (f64_of_Z 100) "USD" ∈ sample_ops)
    as Hin by (apply elem_of_cons; by left).
  split; [exact Hin|]. split; [reflexivity|].
  destruct (C9_state_entries sample_runtime sample_configs sample_client sample_ops
              "ProviderA") as [[_ H] _].
  apply H. eexists. split; [exact Hin|]. split; reflexivity.
Defined.

(** ** Batch dispatcher *)




Lemma worker_weight_insert (ws : list WorkerPC) (w : nat) (pc pc' : WorkerPC) :
  ws !! w = Some pc →
  (sum_list (worker_weight <$> <[w := pc']> ws) + worker_weight pc
   = sum_list (worker_weight <$> ws) + worker_weight pc')%nat.
Proof.
  revert w. induction ws as [|x ws IH]; intros [|w] H; simplify_eq/=; [lia|].
  specialize (IH _ H). lia.
Qed.

Section BatchFacts.

Context (rt : Runtime) (requests : list PaymentRequest).




Lemma main_step_measure m m' :
  main_step requests m = Some m' → (measure requests m' < measure requests m)%nat.
Proof.
  unfold main_step, measure.
  destruct (m_main m) eqn:Hm; try done.
  - destruct (Nat.ltb_spec i (length requests)); intros [= <-]; cbn.
    + rewrite length_app. cbn. lia.
    + lia.
  - case_match; [|done]. intros [= <-]. cbn. lia.
Qed.

Lemma worker_step_measure env w m m' :
  worker_step rt requests env w m = Some m' →
  (measure requests m' < measure requests m)%nat.
Proof.
  unfold worker_step. intros H.
  destruct (m_main m) eqn:Hm; try done.
  all: destruct (m_workers m !! w) as [pc|] eqn:Hw; [|done].
  all: destruct pc; repeat case_match; simplify_eq.
  all: unfold measure; cbn [m_main m_chan m_workers set_worker set_fac set_chan set_main];
       rewrite Hm; cbn [main_weight length].
  all: try lia.
  all: match goal with
       | |- context [<[_ := ?pc']> (m_workers _)] =>
           pose proof (worker_weight_insert (m_workers m) w _ pc' Hw) as Hsum
       end; cbn [worker_weight] in Hsum;
       try match goal with Hc : m_chan _ = _ |- _ => rewrite Hc; cbn [length] end;
       lia.
Qed.

Lemma step_measure m m' : step rt requests m m' → (measure requests m' < measure requests m)%nat.
Proof.
  intros ([|w] & env & H); cbn in H;
    [by eapply main_step_measure | by eapply worker_step_measure].
Qed.

Lemma nsteps_measure n m m' :
  nsteps (step rt requests) n m m' → (n + measure requests m' ≤ measure requests m)%nat.
Proof.
  induction 1 as [|n x y z Hxy _ IH]; [lia|].
  apply step_measure in Hxy. lia.
Qed.


Lemma batch_inv_init f : batch_inv requests (Batch_init f requests).
Proof.
  constructor; cbn [Batch_init m_results m_workers m_chan m_closed m_main].
  - apply length_replicate.
  - apply length_replicate.
  - unfold main_ok; cbn. split; [lia|done].
  - constructor.
  - apply Forall_replicate. done.
  - intros [w Hw]. apply lookup_replicate in Hw as [[=] _].
  - intros i Hi. cbn in Hi. lia.
Qed.

(** A worker moves from [pc] to [pc'], still working on the same index;
    channel, main goroutine and results stay as they are. *)
Lemma batch_inv_worker_move m m' w pc pc' :
  batch_inv requests m → m_workers m !! w = Some pc →
  m_workers m' = <[w := pc']> (m_workers m) →
  m_chan m' = m_chan m → m_closed m' = m_closed m →
  m_main m' = m_main m → m_results m' = m_results m →
  pc ≠ WDone → pc' ≠ WDone → worker_ok requests pc' →
  (∀ i, holds pc i → holds pc' i) →
  batch_inv requests m'.
Proof.
  intros [Hres Hn Hmain Hchan Hws Hdone Hcover] Hw E1 E2 E3 E4 E5 Hpc Hpc' Hok Hholds.
  constructor; unfold main_ok in *; rewrite ?E1, ?E2, ?E3, ?E4, ?E5.
  - done.
  - by rewrite length_insert.
  - destruct (m_main m); try done. destruct Hmain as [_ Hall].
    rewrite Forall_lookup in Hall. by specialize (Hall _ _ Hw).
  - done.
  - by apply Forall_insert.
  - intros [w' Hw']. apply Hdone. exists w'.
    apply list_lookup_insert_Some in Hw' as [(_ & ? & _)|[_ ?]]; [congruence|done].
  - intros i Hi. destruct (Hcover i Hi) as [?|[(w0 & pc0 & Hw0 & Hh)|?]];
      [by left| |by right; right].
    right; left. destruct (decide (w0 = w)) as [->|Hne].
    + exists w, pc'. split.
      * apply list_lookup_insert_eq. by eapply lookup_lt_Some.
      * apply Hholds. congruence.
    + exists w0, pc0. split; [|done]. by rewrite list_lookup_insert_ne.
Qed.

(** A worker takes the oldest index from the channel. *)
Lemma batch_inv_recv m m' w idx rest :
  batch_inv requests m → m_workers m !! w = Some WRecv →
  m_chan m = idx :: rest →
  m_workers m' = <[w := WGot idx]> (m_workers m) →
  m_chan m' = rest → m_closed m' = m_closed m →
  m_main m' = m_main m → m_results m' = m_results m →
  batch_inv requests m'.
Proof.
  intros [Hres Hn Hmain Hchan Hws Hdone Hcover] Hw Hch E1 E2 E3 E4 E5.
  rewrite Hch in Hchan. apply Forall_cons in Hchan as [Hidx Hrest].
  constructor; unfold main_ok in *; rewrite ?E1, ?E2, ?E3, ?E4, ?E5.
  - done.
  - by rewrite length_insert.
  - destruct (m_main m); try done. destruct Hmain as [_ Hall].
    rewrite Forall_lookup in Hall. by specialize (Hall _ _ Hw).
  - done.
  - by apply Forall_insert.
  - intros [w' Hw'].
    apply list_lookup_insert_Some in Hw' as [(_ & ? & _)|[_ ?]]; [congruence|].
    destruct Hdone as [Hd _]; [by exists w'|]. congruence.
  - intros i Hi. destruct (Hcover i Hi) as [Hin|[(w0 & pc0 & Hw0 & Hh)|?]];
      [| |by right; right].
    + rewrite Hch in Hin. apply elem_of_cons in Hin as [->|Hin]; [|by left].
      right; left. exists w, (WGot idx). split; [|done].
      apply list_lookup_insert_eq. by eapply lookup_lt_Some.
    + right; left. destruct (decide (w0 = w)) as [->|Hne].
      * rewrite Hw in Hw0. by simplify_eq.
      * exists w0, pc0. split; [|done]. by rewrite list_lookup_insert_ne.
Qed.

(** A worker finds the channel closed and empty and leaves its loop. *)
Lemma batch_inv_done m m' w :
  batch_inv requests m → m_workers m !! w = Some WRecv →
  m_chan m = [] → m_closed m = true →
  m_workers m' = <[w := WDone]> (m_workers m) →
  m_chan m' = m_chan m → m_closed m' = m_closed m →
  m_main m' = m_main m → m_results m' = m_results m →
  batch_inv requests m'.
Proof.
  intros [Hres Hn Hmain Hchan Hws Hdone Hcover] Hw Hch Hcl E1 E2 E3 E4 E5.
  constructor; unfold main_ok in *; rewrite ?E1, ?E2, ?E3, ?E4, ?E5.
  - done.
  - by rewrite length_insert.
  - destruct (m_main m); try done. destruct Hmain as [? Hall].
    split; [done|]. by apply Forall_insert.
  - done.
  - by apply Forall_insert.
  - done.
  - intros i Hi. destruct (Hcover i Hi) as [Hin|[(w0 & pc0 & Hw0 & Hh)|?]];
      [by left| |by right; right].
    right; left. destruct (decide (w0 = w)) as [->|Hne].
    + rewrite Hw in Hw0. by simplify_eq.
    + exists w0, pc0. split; [|done]. by rewrite list_lookup_insert_ne.
Qed.

Lemma good_result_lt i r : good_result requests i r → (i < length requests)%nat.
Proof. intros [H _]. by eapply lookup_lt_Some. Qed.

(** A worker writes its result into its slot. *)
Lemma batch_inv_store m m' w idx r :
  batch_inv requests m → m_workers m !! w = Some (WStore idx r) →
  m_workers m' = <[w := WRecv]> (m_workers m) →
  m_chan m' = m_chan m → m_closed m' = m_closed m →
  m_main m' = m_main m → m_results m' = <[idx := r]> (m_results m) →
  batch_inv requests m'.
Proof.
  intros [Hres Hn Hmain Hchan Hws Hdone Hcover] Hw E1 E2 E3 E4 E5.
  assert (good_result requests idx r) as Hgood.
  { rewrite Forall_lookup in Hws. by specialize (Hws _ _ Hw). }
  pose proof (good_result_lt _ _ Hgood) as Hlt.
  constructor; unfold main_ok in *; rewrite ?E1, ?E2, ?E3, ?E4, ?E5.
  - by rewrite length_insert.
  - by rewrite length_insert.
  - destruct (m_main m); try done. destruct Hmain as [_ Hall].
    rewrite Forall_lookup in Hall. by specialize (Hall _ _ Hw).
  - done.
  - by apply Forall_insert.
  - intros [w' Hw']. apply Hdone. exists w'.
    apply list_lookup_insert_Some in Hw' as [(_ & ? & _)|[_ ?]]; [congruence|done].
  - intros i Hi.
    destruct (decide (idx = i)) as [<-|Hne].
    { right; right. exists r. split; [|done].
      apply list_lookup_insert_eq. by rewrite Hres. }
    destruct (Hcover i Hi) as [Hin|[(w0 & pc0 & Hw0 & Hh)|(r0 & Hr0 & Hg0)]];
      [by left| |].
    + right; left. destruct (decide (w0 = w)) as [->|Hnw].
      * rewrite Hw in Hw0. by simplify_eq.
      * exists w0, pc0. split; [|done]. by rewrite list_lookup_insert_ne.
    + right; right. exists r0. split; [|done]. by rewrite list_lookup_insert_ne.
Qed.

Lemma main_step_inv m m' :
  batch_inv requests m → main_step requests m = Some m' → batch_inv requests m'.
Proof.
  intros [Hres Hn Hmain Hchan Hws Hdone Hcover]. unfold main_step, main_ok in *.
  destruct (m_main m) as [k| | |] eqn:Hm; try done.
  - destruct Hmain as [Hk Hcl].
    destruct (Nat.ltb_spec k (length requests)); intros [= <-].
    + constructor; unfold main_ok;
        cbn [set_main set_chan m_results m_workers m_chan m_closed m_main].
      * done.
      * done.
      * split; [lia|done].
      * apply Forall_app. split; [done|]. by apply Forall_singleton.
      * done.
      * intros Hex. destruct (Hdone Hex) as [_ ?]. congruence.
      * intros i Hi. cbn in Hi. destruct (decide (i = k)) as [->|Hne].
        -- left. apply elem_of_app. right. by apply list_elem_of_singleton.
        -- destruct (Hcover i) as [Hin|[?|?]];
             [cbn; lia| |by right; left|by right; right].
           left. apply elem_of_app. by left.
    + constructor; unfold main_ok;
        cbn [set_main set_chan m_results m_workers m_chan m_closed m_main].
      * done.
      * done.
      * done.
      * done.
      * done.
      * intros Hex. by destruct (Hdone Hex) as [? _].
      * intros i Hi. cbn in Hi. apply Hcover. cbn. lia.
  - destruct (forallb is_done (m_workers m)) eqn:Hall; [|done]. intros [= <-].
    constructor; unfold main_ok;
      cbn [set_main set_chan m_results m_workers m_chan m_closed m_main]; try done.
    split; [done|]. apply Forall_forall. intros pc Hin.
    rewrite forallb_forall in Hall. apply list_elem_of_In in Hin.
    specialize (Hall _ Hin). by destruct pc.
Qed.

Lemma worker_step_inv env w m m' :
  batch_inv requests m → worker_step rt requests env w m = Some m' →
  batch_inv requests m'.
Proof.
  intros Hinv. pose proof Hinv as [Hres Hn Hmain Hchan Hws Hdone Hcover].
  unfold worker_step.
  assert (∀ X : option Machine,
            (m_main m ≠ MPanic → X = Some m' → batch_inv requests m') →
            match m_main m with MPanic => None | _ => X end = Some m' →
            batch_inv requests m') as Hskip.
  { intros X HX. destruct (m_main m); try done; by apply HX. }
  apply Hskip. clear Hskip. intros Hnp.
  destruct (m_workers m !! w) as [pc|] eqn:Hw; [|done].
  assert (worker_ok requests pc) as Hok.
  { rewrite Forall_lookup in Hws. by specialize (Hws _ _ Hw). }
  destruct pc as [|idx|idx req provider|idx req payment paymentErr|idx r|].
  - destruct (m_chan m) as [|idx rest] eqn:Hch.
    + destruct (m_closed m) eqn:Hcl; [|done]. intros [= <-].
      by eapply (batch_inv_done m _ w).
    + intros [= <-]. by eapply (batch_inv_recv m _ w idx rest).
  - cbn in Hok. destruct (requests !! idx) as [req|] eqn:Hreq.
    2:{ apply lookup_ge_None in Hreq. lia. }
    destruct (Factory_getOrCreateProvider _ _ _) as [[provider|err] f1];
      intros [= <-];
      (eapply (batch_inv_worker_move m _ w);
       [exact Hinv|exact Hw|done|done|done|done|done|done|done| |by intros ? <-]).
    + done.
    + split; [done|]. right. split; [done|by eexists].
  - cbn in Hok.
    destruct (adapter_exactly_one rt provider (env_net env) (rq_Amount req) (rq_Currency req))
      as [[pay Hp]|[e He]].
    + rewrite Hp. intros [= <-].
      eapply (batch_inv_worker_move m _ w);
        [exact Hinv|exact Hw|done|done|done|done|done|done|done| |by intros ? <-].
      split; [done|]. by eexists.
    + rewrite He. intros [= <-].
      eapply (batch_inv_worker_move m _ w);
        [exact Hinv|exact Hw|done|done|done|done|done|done|done| |by intros ? <-].
      split; [done|]. done.
  - cbn in Hok. destruct Hok as [Hreq Hpay].
    destruct paymentErr as [e|]; intros [= <-];
      (eapply (batch_inv_worker_move m _ w);
       [exact Hinv|exact Hw|done|done|done|done|done|done|done| |by intros ? <-]).
    + split; [done|]. right. split; [done|by eexists].
    + split; [done|]. left. split; [by apply Hpay|done].
  - cbn in Hok. pose proof (good_result_lt _ _ Hok) as Hlt.
    destruct (Nat.ltb_spec idx (length (m_results m))); [|lia].
    intros [= <-]. by eapply (batch_inv_store m _ w idx r).
  - done.
Qed.

Lemma step_inv m m' :
  batch_inv requests m → step rt requests m m' → batch_inv requests m'.
Proof.
  intros Hinv ([|w] & env & H); cbn in H;
    [by eapply main_step_inv | by eapply worker_step_inv].
Qed.

Lemma rtc_step_inv m m' :
  batch_inv requests m → rtc (step rt requests) m m' → batch_inv requests m'.
Proof. intros Hinv Hrtc. induction Hrtc; eauto using step_inv. Qed.


Lemma not_all_done (ws : list WorkerPC) :
  forallb is_done ws = false → ∃ w pc, ws !! w = Some pc ∧ pc ≠ WDone.
Proof.
  induction ws as [|pc ws IH]; [done|]. cbn.
  destruct pc; cbn; try (intros _; by eexists 0%nat, _).
  intros H. destruct (IH H) as (w & pc & Hw & Hpc). by exists (S w), pc.
Qed.

(** No deadlock and no panic: as long as the call has not returned, some
    goroutine can move. *)
Lemma batch_progress m :
  batch_inv requests m → m_main m ≠ MReturned → ∃ m', step rt requests m m'.
Proof.
  intros Hinv Hnret. pose proof Hinv as [Hres Hn Hmain Hchan Hws Hdone Hcover].
  unfold main_ok in Hmain.
  destruct (m_main m) as [k| | |] eqn:Hm; try done.
  - destruct (main_step requests m) as [m'|] eqn:Hs.
    + exists m', Main, idle_env. done.
    + unfold main_step in Hs. rewrite Hm in Hs. by case_match.
  - destruct (forallb is_done (m_workers m)) eqn:Hall.
    + eexists _, Main, idle_env. cbn. unfold main_step. by rewrite Hm, Hall.
    + destruct (not_all_done _ Hall) as (w & pc & Hw & Hpc).
      assert (is_Some (worker_step rt requests idle_env w m)) as [m' Hs].
      { unfold worker_step. rewrite Hm, Hw, Hmain.
        destruct pc; repeat case_match; done. }
      exists m', (Worker w), idle_env. done.
Qed.

(** Every reachable state can be run to the return of the call. *)
Lemma batch_completes m :
  batch_inv requests m →
  ∃ m', rtc (step rt requests) m m' ∧ m_main m' = MReturned.
Proof.
  remember (measure requests m) as k eqn:Hk. revert m Hk.
  induction (lt_wf k) as [k _ IH]. intros m -> Hinv.
  assert (m_main m = MReturned ∨ m_main m ≠ MReturned) as [Hret|Hnret]
    by (destruct (m_main m); auto).
  { exists m. done. }
  destruct (batch_progress m Hinv Hnret) as [m1 Hstep].
  destruct (IH (measure requests m1) (step_measure _ _ Hstep) m1 eq_refl
              (step_inv _ _ Hinv Hstep)) as (m' & Hrtc & Hret).
  exists m'. split; [by eapply rtc_l|done].
Qed.

Lemma returned_results m :
  batch_inv requests m → m_main m = MReturned →
  length (m_results m) = length requests
  ∧ ∀ i req, requests !! i = Some req →
      ∃ r, m_results m !! i = Some r ∧ good_result requests i r.
Proof.
  intros [Hres Hn Hmain Hchan Hws Hdone Hcover] Hret.
  split; [done|]. intros i req Hreq.
  unfold main_ok in Hmain. rewrite Hret in Hmain. destruct Hmain as [_ Hall].
  rewrite Forall_lookup in Hall.
  assert (m_chan m = []) as Hch.
  { destruct (lookup_lt_is_Some_2 (m_workers m) 0%nat) as [pc Hpc].
    { rewrite Hn. unfold workerCount. lia. }
    apply Hdone. exists 0%nat. by rewrite Hpc, (Hall _ _ Hpc). }
  destruct (Hcover i) as [Hin|[(w & pc & Hw & Hh)|Hr]].
  - rewrite Hret. cbn. by eapply lookup_lt_Some.
  - rewrite Hch in Hin. by apply elem_of_nil in Hin.
  - rewrite (Hall _ _ Hw) in Hh. done.
  - done.
Qed.

End BatchFacts.

(** C1. BatchProcessPayments on any list of requests, from any factory,
    under any interleaving of its six goroutines and any behaviour of the
    network and the clock:
    - can always run on to its return (no deadlock, no out-of-range index),
      and no run takes more steps than [measure] of the initial state, so
      it returns;
    - whenever it returns, the result slice is as long as the request list
      and slot [i] carries request [i] together with exactly one of a
      Payment and a PaymentError. Every slot is filled whatever happened to
      the other requests. *)
Theorem C1_batch_results_in_request_order (rt : Runtime)
    (requests : list PaymentRequest) (f : Factory) :
  (∀ m, rtc (step rt requests) (Batch_init f requests) m →
        ∃ m', rtc (step rt requests) m m' ∧ m_main m' = MReturned)
  ∧ (∀ n m, nsteps (step rt requests) n (Batch_init f requests) m →
            (n ≤ measure requests (Batch_init f requests))%nat)
  ∧ (∃ results f', BatchProcessPayments_returns rt requests f results f')
  ∧ ∀ results f', BatchProcessPayments_returns rt requests f results f' →
      length results = length requests
      ∧ ∀ i req, requests !! i = Some req →
          ∃ r, results !! i = Some r
               ∧ r_Request r = req
               ∧ ((is_Some (r_Payment r) ∧ r_Error r = None)
                  ∨ (r_Payment r = None ∧ is_Some (r_Error r))).
Proof.
  pose proof (batch_inv_init requests f) as Hinit.
  split; [|split; [|split]].
  - intros m Hrtc. apply batch_completes. by eapply rtc_step_inv.
  - intros n m Hn. apply nsteps_measure in Hn. lia.
  - destruct (batch_completes rt requests _ Hinit) as (m & Hrtc & Hret).
    exists (m_results m), (m_fac m), m. done.
  - intros results f' (m & Hrtc & Hret & <- & _).
    destruct (returned_results requests m (rtc_step_inv _ _ _ _ Hinit Hrtc) Hret)
      as [Hlen Hslots].
    split; [done|]. intros i req Hreq.
    destruct (Hslots i req Hreq) as (r & Hr & Hreq' & Hone).
    exists r. split; [done|]. split; [congruence|done].
Qed.



Lemma run_rtc rt requests sched m :
  rtc (step rt requests) m (run rt requests sched m).
Proof.
  revert m. induction sched as [|[a env] sched IH]; intros m; cbn; [done|].
  destruct (exec rt requests a env m) as [m'|] eqn:Hs; [|done].
  eapply rtc_l; [|apply IH]. by exists a, env.
Qed.

(** The three cuts of [f.ProcessPayment] in a worker, run without
    interruption, are Factory.ProcessPayment. *)
Lemma worker_runs_ProcessPayment rt requests env w m idx req :
  m_main m ≠ MPanic → m_workers m !! w = Some (WGot idx) →
  requests !! idx = Some req →
  let r := Factory_ProcessPayment rt env (m_fac m)
             (rq_Provider req) (rq_Amount req) (rq_Currency req) in
  ∃ m', rtc (step rt requests) m m'
        ∧ m_fac m' = snd r
        ∧ m_workers m'
          = <[w := WStore idx (mkPaymentResult req (fst (fst r)) (snd (fst r)))]> (m_workers m)
        ∧ m_chan m' = m_chan m ∧ m_results m' = m_results m ∧ m_main m' = m_main m.
Proof.
  intros Hnp Hw Hreq r. subst r. unfold Factory_ProcessPayment.
  assert (w < length (m_workers m))%nat as Hlt by (by eapply lookup_lt_Some).
  destruct (Factory_getOrCreateProvider (env_now_create env) (m_fac m) (rq_Provider req))
    as [[p|e] f1] eqn:Hg.
  - destruct (fst (PaymentProvider_ProcessPayment rt p (env_net env)
                     (rq_Amount req) (rq_Currency req))) as [payment paymentErr] eqn:Hp.
    set (m1 := set_worker (set_fac m f1) w (WCall idx req p)).
    set (m2 := set_worker m1 w (WUpdate idx req payment paymentErr)).
    assert (step rt requests m m1) as S1.
    { exists (Worker w), env. cbn. unfold worker_step. rewrite Hw, Hreq, Hg.
      by destruct (m_main m). }
    assert (step rt requests m1 m2) as S2.
    { exists (Worker w), env. cbn. unfold worker_step. subst m1. cbn.
      rewrite list_lookup_insert_eq by done. rewrite Hp. by destruct (m_main m). }
    destruct paymentErr as [e|]; cbn [fst snd].
    + eexists. split.
      { eapply rtc_l; [exact S1|]. eapply rtc_l; [exact S2|]. apply rtc_once.
        exists (Worker w), env. cbn. unfold worker_step. subst m2 m1. cbn.
        rewrite list_lookup_insert_eq by (by rewrite length_insert).
        destruct (m_main m); try done. }
      cbn. by rewrite !list_insert_insert_eq.
    + eexists. split.
      { eapply rtc_l; [exact S1|]. eapply rtc_l; [exact S2|]. apply rtc_once.
        exists (Worker w), env. cbn. unfold worker_step. subst m2 m1. cbn.
        rewrite list_lookup_insert_eq by (by rewrite length_insert).
        destruct (m_main m); try done. }
      cbn. by rewrite !list_insert_insert_eq.
  - eexists. split.
    { apply rtc_once. exists (Worker w), env. cbn. unfold worker_step.
      rewrite Hw, Hreq, Hg. by destruct (m_main m). }
    done.
Qed.

(** The end-to-end scenario: an approved ProviderA payment and a failed
    ProviderB payment, completed out of order, land in request order. *)
Example sample_batch_results :
  m_main sample_batch = MReturned
  ∧ m_results sample_batch
    = [mkPaymentResult (mkPaymentRequest (f64_of_Z 100) "USD" "ProviderA")
         (Some (mkPayment "TXN-TEST-100" (f64_of_Z 100) "USD" "APPROVED" "ProviderA"
                  t_2024_01_15)) None;
       mkPaymentResult (mkPaymentRequest (f64_of_Z 999) "USD" "ProviderB")
         None
         (Some (mkPaymentError "CARD_DECLINED" "Payment was declined by provider"
                  "ProviderB" None false 0))].
Proof. split; vm_compute; reflexivity. Qed.

Example twelve_batch_results :
  m_main twelve_batch = MReturned
  ∧ r_Request <$> m_results twelve_batch = twelve_requests
  ∧ forallb (fun r => match r_Payment r, r_Error r with
                      | Some _, None => true
                      | _, _ => false
                      end) (m_results twelve_batch) = true.
Proof. repeat split; vm_compute; reflexivity. Qed.

(** C1 at the end-to-end scenario: slot 1 holds request 1. *)
Lemma C1_witness :
  BatchProcessPayments_returns sample_runtime sample_requests
    (NewFactory sample_configs sample_client)
    (m_results sample_batch) (m_fac sample_batch)
  ∧ sample_requests !! 1%nat = Some (mkPaymentRequest (f64_of_Z 999) "USD" "ProviderB")
  ∧ ∃ r, m_results sample_batch !! 1%nat = Some r
         ∧ r_Request r = mkPaymentRequest (f64_of_Z 999) "USD" "ProviderB"
         ∧ ((is_Some (r_Payment r) ∧ r_Error r = None)
            ∨ (r_Payment r = None ∧ is_Some (r_Error r))).
Proof.
  assert (BatchProcessPayments_returns sample_runtime sample_requests
            (NewFactory sample_configs sample_client)
            (m_results sample_batch) (m_fac sample_batch)) as Hret.
  { exists sample_batch. split; [apply run_rtc|]. split; [|done]. vm_compute. reflexivity. }
  split; [exact Hret|]. split; [reflexivity|].
  destruct (C1_batch_results_in_request_order sample_runtime sample_requests
              (NewFactory sample_configs sample_client)) as (_ & _ & _ & H).
  destruct (H _ _ Hret) as [_ Hslots].
  exact (Hslots 1%nat _ eq_refl).
Defined.

(** * Part III: further properties of the code *)

(** ** Adapters *)

Section AdapterMore.

Context (rt : Runtime).

(** X1. A response with status 429 makes both adapters return
    RATE_LIMIT_EXCEEDED, retryable, with the HTTP request as the only
    outside call. *)
Theorem X1_rate_limit_triage (p : PaymentProvider) (net : Network)
    (amount : float64) (currency : string) (resp : HttpResponse) :
  PaymentProvider_response rt p net amount currency = Some resp →
  StatusCode resp = 429 →
  ∃ e req, PaymentProvider_ProcessPayment rt p net amount currency
           = ((None, Some e), [EvHttpDo req])
         ∧ Code e = ErrRateLimitExceeded ∧ Retryable e = true.
Proof.
  intros Hresp Hcode.
  destruct (ProcessPayment_received _ _ _ _ _ _ Hresp) as (req & _ & ->).
  destruct p as [a|b]; simpl;
    [unfold ProviderA_handleResponse | unfold ProviderB_handleResponse];
    rewrite Hcode; simpl; by eexists _, _.
Qed.

Lemma transport_failure_code (p : PaymentProvider) (net : Network)
    (amount : float64) (currency : string) (req : HttpRequest)
    (tl : list Event) (msg : string) :
  snd (PaymentProvider_ProcessPayment rt p net amount currency) = EvHttpDo req :: tl →
  net req = DoErr msg →
  tl = []
  ∧ ∃ e, fst (PaymentProvider_ProcessPayment rt p net amount currency) = (None, Some e)
         ∧ Retryable e = true
         ∧ Code e = match p with
                    | IsProviderA _ => ErrNetworkError
                    | IsProviderB _ =>
                        if String.eqb msg "context deadline exceeded"
                        then ErrProviderTimeout else ErrNetworkError
                    end.
Proof.
  destruct p as [a|b]; simpl;
    [unfold ProviderA_ProcessPayment | unfold ProviderB_ProcessPayment];
    repeat (case_match; simpl in *; try done); intros Htr Hnet; simplify_eq.
  all: try match goal with
           | H1 : ?n ?r = DoErr _, H2 : ?n ?r = _ |- _ => rewrite H1 in H2; simplify_eq
           end.
  all: try (exfalso; congruence).
  all: try (split; [done|]; eexists; split; [done|]; split; [done|]; simpl;
            by repeat match goal with H : String.eqb _ _ = _ |- _ => rewrite H end).
  all: match goal with
       | H : snd (?h rt ?x ?r ?tr) = _ |- _ =>
           first [ destruct (handleResponse_trace rt (IsProviderA x) r tr) as [tl' Htl]
                 | destruct (handleResponse_trace rt (IsProviderB x) r tr) as [tl' Htl] ];
           simpl in Htl; rewrite Htl in H; simplify_eq
       end.
  all: match goal with
       | H1 : ?n ?r = DoErr _, H2 : ?n ?r = _ |- _ => rewrite H1 in H2; simplify_eq
       end.
Qed.

Lemma contains_char_app c s1 s2 :
  contains_char c (s1 +:+ s2) = contains_char c s1 || contains_char c s2.
Proof.
  induction s1 as [|c1 s1 IH]; simpl; [done|]. rewrite IH. by rewrite orb_assoc.
Qed.

Lemma url_Error_is_not_deadline Op quoted_URL Err :
  String.eqb (url_Error_Error Op quoted_URL Err) "context deadline exceeded" = false.
Proof.
  apply String.eqb_neq. intros Heq.
  apply (f_equal (contains_char (Ascii.ascii_of_nat 58))) in Heq.
  unfold url_Error_Error in Heq. rewrite !contains_char_app in Heq.
  cbn in Heq. rewrite !orb_true_r in Heq. done.
Qed.

(** X2. When the round trip fails, [http.Client.Do] returns the failure
    wrapped in a [url.Error], and the adapter returns NETWORK_ERROR,
    retryable, after that single request. This holds for ProviderB too,
    whatever the cause: it compares the whole error text with [context
    deadline exceeded], which the wrapped text never equals, so an expired
    deadline is reported as NETWORK_ERROR and not as PROVIDER_TIMEOUT. *)
Theorem X2_transport_failure (p : PaymentProvider) (net : Network)
    (amount : float64) (currency : string) (req : HttpRequest)
    (tl : list Event) (Op quoted_URL cause : string) :
  snd (PaymentProvider_ProcessPayment rt p net amount currency) = EvHttpDo req :: tl →
  net req = DoErr (url_Error_Error Op quoted_URL cause) →
  tl = []
  ∧ ∃ e, fst (PaymentProvider_ProcessPayment rt p net amount currency) = (None, Some e)
         ∧ Retryable e = true
         ∧ Code e = ErrNetworkError.
Proof.
  intros Htr Hnet.
  destruct (transport_failure_code p net amount currency req tl _ Htr Hnet)
    as (-> & e & He & Hr & Hc).
  split; [done|]. exists e. split; [done|]. split; [done|].
  rewrite Hc. destruct p; [done|]. by rewrite url_Error_is_not_deadline.
Qed.

(** X3. With a valid amount, a currency the adapter refuses is answered
    with INVALID_CURRENCY, not retryable, and no outside call: ProviderA
    refuses everything but USD, EUR and GBP, ProviderB only the empty
    string. *)
Theorem X3_currency_refused_locally (p : PaymentProvider) (net : Network)
    (amount : float64) (currency : string) :
  f64_le amount f64_zero = false →
  f64_gt amount (MaxAmount (PaymentProvider_config p)) = false →
  refuses_currency p currency = true →
  ∃ e, PaymentProvider_ProcessPayment rt p net amount currency = ((None, Some e), [])
       ∧ Code e = ErrInvalidCurrency ∧ Retryable e = false.
Proof.
  intros H0 Hmax Hcur. destruct p as [a|b]; simpl in *;
    [unfold ProviderA_ProcessPayment | unfold ProviderB_ProcessPayment];
    rewrite H0, Hmax, Hcur; by eexists.
Qed.

Lemma handleResponse_trace_shape (p : PaymentProvider) resp tr :
  http_requests (snd (PaymentProvider_handleResponse rt p resp tr)) = http_requests tr.
Proof.
  destruct p as [a|b]; simpl;
    [unfold ProviderA_handleResponse | unfold ProviderB_handleResponse];
    repeat case_match; simpl; try done;
    unfold http_requests; rewrite omap_app; simpl; by rewrite app_nil_r.
Qed.

(** X4. One ProcessPayment call issues at most one HTTP request, whatever
    the outcome (a retryable failure is not retried), and a request it
    issues carries the JSON content type. *)
Theorem X4_at_most_one_request (p : PaymentProvider) (net : Network)
    (amount : float64) (currency : string) :
  (length (http_requests (snd (PaymentProvider_ProcessPayment rt p net amount currency)))
   ≤ 1)%nat
  ∧ ∀ req, req ∈ http_requests (snd (PaymentProvider_ProcessPayment rt p net amount currency)) →
           Header_Get req "Content-Type" = "application/json".
Proof.
  assert (∀ req0 : HttpRequest,
            Header_Get (Header_Set req0 "Content-Type" "application/json") "Content-Type"
            = "application/json") as Hget by done.
  destruct p as [a|b]; simpl;
    [unfold ProviderA_ProcessPayment | unfold ProviderB_ProcessPayment];
    repeat (case_match; simpl; try (split; [lia|by intros ? ?%elem_of_nil])).
  all: try (split; [lia|]; intros ? ->%list_elem_of_singleton; apply Hget).
  all: match goal with
       | |- context [?h rt ?x ?r ?tr] =>
           first [ pose proof (handleResponse_trace_shape (IsProviderA x) r tr) as Hs
                 | pose proof (handleResponse_trace_shape (IsProviderB x) r tr) as Hs ]
       end; simpl in Hs; rewrite Hs; simpl;
       (split; [lia|]; intros ? ->%list_elem_of_singleton; apply Hget).
Qed.

Lemma payment_from_response (p : PaymentProvider) (net : Network)
    (amount : float64) (currency : string) (pay : Payment) :
  fst (fst (PaymentProvider_ProcessPayment rt p net amount currency)) = Some pay →
  ∃ resp body,
    PaymentProvider_response rt p net amount currency = Some resp
    ∧ reads_body p (StatusCode resp) = true
    ∧ Body resp = Ok body
    ∧ match p with
      | IsProviderA a =>
          ∃ r, json_Unmarshal_A rt body = Ok r
               ∧ ra_Status r = "APPROVED"
               ∧ pay = mkPayment (ra_TransactionID r) (ra_Amount r) (ra_Currency r)
                         StatusApproved (Name (pa_config a)) (ra_Timestamp r)
      | IsProviderB b =>
          ∃ r x, json_Unmarshal_B rt body = Ok r
                 ∧ rb_State r = "SUCCESS"
                 ∧ strconv_ParseFloat rt (rb_Value_Amount r) = Ok x
                 ∧ pay = mkPayment (rb_PaymentID r) x (rb_Value_CurrencyCode r)
                           StatusApproved (Name (pb_config b))
                           (time_Unix (Z.quot (rb_ProcessedAt r) 1000))
      end.
Proof.
  intros Hpay.
  assert (∃ resp, PaymentProvider_response rt p net amount currency = Some resp)
    as [resp Hresp].
  { revert Hpay. unfold PaymentProvider_response.
    destruct p as [a|b]; simpl;
      [unfold ProviderA_ProcessPayment | unfold ProviderB_ProcessPayment];
      repeat (case_match; simpl in *; try done); intros; simplify_eq; eauto.
    all: match goal with
         | H : snd (?h rt ?x ?r ?tr) = _ |- _ =>
             first [ destruct (handleResponse_trace rt (IsProviderA x) r tr) as [tl' Htl]
                   | destruct (handleResponse_trace rt (IsProviderB x) r tr) as [tl' Htl] ];
             simpl in Htl; rewrite Htl in H; simplify_eq
         end.
    all: congruence. }
  exists resp.
  destruct (ProcessPayment_received _ _ _ _ _ _ Hresp) as (req & _ & Heq).
  rewrite Heq in Hpay. clear Heq. revert Hpay.
  destruct p as [a|b]; simpl;
    [unfold ProviderA_handleResponse | unfold ProviderB_handleResponse].
  - destruct (StatusCode resp =? StatusTooManyRequests) eqn:E1; [done|].
    destruct (StatusCode resp =? StatusInternalServerError) eqn:E2; [done|].
    destruct (StatusCode resp =? StatusBadRequest) eqn:E3; [done|].
    destruct (Body resp) as [body|]; [|done].
    destruct (json_Unmarshal_A rt body) as [r|] eqn:Hr; [|done].
    repeat (case_match; simpl; try done). intros [= <-].
    exists body. repeat split; try done. exists r.
    match goal with H : String.eqb (ra_Status r) "APPROVED" = true |- _ =>
      apply String.eqb_eq in H end.
    split; [done|]. split; [done|]. unfold ProviderA_Name, StatusApproved. congruence.
  - destruct (500 <=? StatusCode resp) eqn:E1; [done|].
    destruct (StatusCode resp =? StatusTooManyRequests) eqn:E2; [done|].
    destruct (400 <=? StatusCode resp) eqn:E3; [done|].
    destruct (Body resp) as [body|]; [|done].
    destruct (json_Unmarshal_B rt body) as [r|] eqn:Hr; [|done].
    destruct (String.eqb (rb_State r) "SUCCESS") eqn:Hs; [|by repeat case_match].
    destruct (strconv_ParseFloat rt (rb_Value_Amount r)) as [x|] eqn:Hx; [|done].
    destruct (String.eqb (rb_Value_CurrencyCode r) ""); [done|]. intros [= <-].
    exists body. split; [done|]. split; [apply Z.ltb_lt; apply Z.leb_gt in E3; lia|].
    split; [done|]. exists r, x. apply String.eqb_eq in Hs. done.
Qed.

(** X5. A returned Payment carries what the provider echoed, not what the
    caller asked for: identifier, amount, currency and timestamp are those
    of the decoded body of the response received, the provider is the
    configured name and the status is APPROVED. ProviderB's amount is its
    decimal string parsed, its timestamp the epoch milliseconds cut to
    seconds. *)
Theorem X5_payment_echoes_response (p : PaymentProvider) (net : Network)
    (amount : float64) (currency : string) (pay : Payment) :
  fst (fst (PaymentProvider_ProcessPayment rt p net amount currency)) = Some pay →
  ∃ resp body,
    PaymentProvider_response rt p net amount currency = Some resp
    ∧ reads_body p (StatusCode resp) = true
    ∧ Body resp = Ok body
    ∧ match p with
      | IsProviderA a =>
          ∃ r, json_Unmarshal_A rt body = Ok r
               ∧ ra_Status r = "APPROVED"
               ∧ pay = mkPayment (ra_TransactionID r) (ra_Amount r) (ra_Currency r)
                         StatusApproved (Name (pa_config a)) (ra_Timestamp r)
      | IsProviderB b =>
          ∃ r x, json_Unmarshal_B rt body = Ok r
                 ∧ rb_State r = "SUCCESS"
                 ∧ strconv_ParseFloat rt (rb_Value_Amount r) = Ok x
                 ∧ pay = mkPayment (rb_PaymentID r) x (rb_Value_CurrencyCode r)
                           StatusApproved (Name (pb_config b))
                           (time_Unix (Z.quot (rb_ProcessedAt r) 1000))
      end.
Proof. apply payment_from_response. Qed.

(** X6. A response whose body is read but cannot be used: if reading it
    fails the adapter returns INTERNAL_ERROR, retryable; if decoding it
    fails, PROVIDER_INVALID_RESPONSE, not retryable, with the raw body
    attached as details. *)
Theorem X6_unusable_body (p : PaymentProvider) (net : Network)
    (amount : float64) (currency : string) (resp : HttpResponse) :
  PaymentProvider_response rt p net amount currency = Some resp →
  reads_body p (StatusCode resp) = true →
  match Body resp with
  | Err _ =>
      ∃ e, fst (PaymentProvider_ProcessPayment rt p net amount currency) = (None, Some e)
           ∧ Code e = ErrInternalError ∧ Retryable e = true
  | Ok body =>
      PaymentProvider_discriminator rt p body = None →
      ∃ e, fst (PaymentProvider_ProcessPayment rt p net amount currency) = (None, Some e)
           ∧ Code e = ErrProviderInvalidResp ∧ Retryable e = false
           ∧ Details e = Some body
  end.
Proof.
  intros Hresp Hreads.
  destruct (ProcessPayment_received _ _ _ _ _ _ Hresp) as (req & _ & ->).
  destruct p as [a|b]; simpl in *;
    [unfold ProviderA_handleResponse | unfold ProviderB_handleResponse].
  - apply andb_prop in Hreads as [[E1%negb_true_iff E2%negb_true_iff]%andb_prop
                                   E3%negb_true_iff].
    rewrite E1, E2, E3. destruct (Body resp) as [body|]; [|by eexists].
    destruct (json_Unmarshal_A rt body); [done|]. intros _. by eexists.
  - apply Z.ltb_lt in Hreads. unfold StatusTooManyRequests.
    destruct (Z.leb_spec 500 (StatusCode resp)); [lia|].
    destruct (Z.eqb_spec (StatusCode resp) 429); [lia|].
    destruct (Z.leb_spec 400 (StatusCode resp)); [lia|].
    destruct (Body resp) as [body|]; [|by eexists].
    destruct (json_Unmarshal_B rt body); [done|]. intros _. by eexists.
Qed.

(** X7. Payment.Validate on what an adapter returns: with a non-empty
    configured name, the currency and provider checks always pass, so the
    only error Validate can give for a returned Payment is INVALID_AMOUNT
    (the adapters do not check the echoed amount). *)
Theorem X7_returned_payment_validates (p : PaymentProvider) (net : Network)
    (amount : float64) (currency : string) (pay : Payment) (e : PaymentError) :
  fst (fst (PaymentProvider_ProcessPayment rt p net amount currency)) = Some pay →
  Name (PaymentProvider_config p) ≠ "" →
  Payment_Validate pay = Some e →
  Code e = ErrInvalidAmount ∧ f64_le (Amount pay) f64_zero = true.
Proof.
  intros Hpay Hname.
  destruct (returned_payment_fields rt p net amount currency pay Hpay) as (_ & Hcur & _).
  assert (Provider pay = Name (PaymentProvider_config p)) as Hprov.
  { destruct (payment_from_response p net amount currency pay Hpay)
      as (resp & body & _ & _ & _ & H).
    destruct p as [a|b]; [destruct H as (r & _ & _ & ->)|destruct H as (r & x & _ & _ & _ & ->)];
      done. }
  unfold Payment_Validate.
  destruct (f64_le (Amount pay) f64_zero); [by intros [= <-]|].
  destruct (String.eqb_spec (Currency_ pay) ""); [done|].
  destruct (String.eqb_spec (Provider pay) ""); [congruence|done].
Qed.

End AdapterMore.

(** X1 at ProviderA's test configuration. *)
Lemma X1_witness :
  PaymentProvider_response sample_runtime sample_A (always 429 "") (f64_of_Z 100) "USD"
  = Some (mkHttpResponse 429 (Ok ""))
  ∧ ∃ e req, PaymentProvider_ProcessPayment sample_runtime sample_A (always 429 "")
               (f64_of_Z 100) "USD" = ((None, Some e), [EvHttpDo req])
             ∧ Code e = ErrRateLimitExceeded ∧ Retryable e = true.
Proof.
  split; [reflexivity|].
  apply (X1_rate_limit_triage sample_runtime sample_A (always 429 "") (f64_of_Z 100)
           "USD" (mkHttpResponse 429 (Ok ""))); reflexivity.
Defined.

(** X2 at ProviderB with an expired deadline, as in its test [provider
    timeout]: the error is NETWORK_ERROR. *)
Lemma X2_witness :
  failing_client "context deadline exceeded" sample_request_B
  = DoErr (url_Error_Error "Post" (quoted "http://test-provider-b.com")
             "context deadline exceeded")
  ∧ ∃ e, fst (PaymentProvider_ProcessPayment sample_runtime sample_B
                (failing_client "context deadline exceeded") (f64_of_Z 100) "USD")
         = (None, Some e)
         ∧ Retryable e = true ∧ Code e = ErrNetworkError.
Proof.
  split; [reflexivity|].
  apply (X2_transport_failure sample_runtime sample_B
           (failing_client "context deadline exceeded") (f64_of_Z 100) "USD"
           sample_request_B [] "Post" (quoted "http://test-provider-b.com")
           "context deadline exceeded"); reflexivity.
Defined.

(** X3 at ProviderA with a currency outside its list. *)
Lemma X3_witness :
  refuses_currency sample_A "XXX" = true
  ∧ ∃ e, PaymentProvider_ProcessPayment sample_runtime sample_A (always 200 "a-approved")
           (f64_of_Z 100) "XXX" = ((None, Some e), [])
         ∧ Code e = ErrInvalidCurrency ∧ Retryable e = false.
Proof.
  split; [reflexivity|].
  apply (X3_currency_refused_locally sample_runtime sample_A (always 200 "a-approved")
           (f64_of_Z 100) "XXX"); reflexivity.
Defined.

(** X5 at ProviderB: the caller asks for 50 EUR, the provider echoes 100.00
    USD, and the Payment says 100 USD. *)
Lemma X5_witness :
  fst (fst (PaymentProvider_ProcessPayment sample_runtime sample_B
              (always 200 "b-success") (f64_of_Z 50) "EUR"))
  = Some (mkPayment "PAY-TEST-100" (f64_of_Z 100) "USD" "APPROVED" "ProviderB"
            (time_Unix 1705318200))
  ∧ ∃ resp body,
      PaymentProvider_response sample_runtime sample_B (always 200 "b-success")
        (f64_of_Z 50) "EUR" = Some resp
      ∧ reads_body sample_B (StatusCode resp) = true
      ∧ Body resp = Ok body
      ∧ ∃ r x, json_Unmarshal_B sample_runtime body = Ok r
               ∧ rb_State r = "SUCCESS"
               ∧ strconv_ParseFloat sample_runtime (rb_Value_Amount r) = Ok x
               ∧ mkPayment "PAY-TEST-100" (f64_of_Z 100) "USD" "APPROVED" "ProviderB"
                   (time_Unix 1705318200)
                 = mkPayment (rb_PaymentID r) x (rb_Value_CurrencyCode r) StatusApproved
                     (Name sample_config_B) (time_Unix (Z.quot (rb_ProcessedAt r) 1000)).
Proof.
  split; [reflexivity|].
  apply (X5_payment_echoes_response sample_runtime sample_B (always 200 "b-success")
           (f64_of_Z 50) "EUR"
           (mkPayment "PAY-TEST-100" (f64_of_Z 100) "USD" "APPROVED" "ProviderB"
              (time_Unix 1705318200))). reflexivity.
Defined.

(** X6 at ProviderB with a body that is not JSON. *)
Lemma X6_witness :
  PaymentProvider_response sample_runtime sample_B (always 200 "invalid json")
    (f64_of_Z 100) "USD" = Some (mkHttpResponse 200 (Ok "invalid json"))
  ∧ PaymentProvider_discriminator sample_runtime sample_B "invalid json" = None
  ∧ ∃ e, fst (PaymentProvider_ProcessPayment sample_runtime sample_B
                (always 200 "invalid json") (f64_of_Z 100) "USD") = (None, Some e)
         ∧ Code e = ErrProviderInvalidResp ∧ Retryable e = false
         ∧ Details e = Some "invalid json".
Proof.
  split; [reflexivity|]. split; [reflexivity|].
  apply (X6_unusable_body sample_runtime sample_B (always 200 "invalid json")
           (f64_of_Z 100) "USD" (mkHttpResponse 200 (Ok "invalid json")));
    reflexivity.
Defined.

(** X7 at ProviderA with an approved body that echoes amount 0. *)
Lemma X7_witness :
  fst (fst (PaymentProvider_ProcessPayment echo_runtime sample_A
              (always 200 "a-zero-amount") (f64_of_Z 100) "USD"))
  = Some zero_amount_payment
  ∧ Payment_Validate zero_amount_payment
    = Some (PaymentError_lit ErrInvalidAmount "Amount must be greater than 0")
  ∧ Code (PaymentError_lit ErrInvalidAmount "Amount must be greater than 0")
    = ErrInvalidAmount
  ∧ f64_le (Amount zero_amount_payment) f64_zero = true.
Proof.
  split; [reflexivity|]. split; [reflexivity|].
  apply (X7_returned_payment_validates echo_runtime sample_A (always 200 "a-zero-amount")
           (f64_of_Z 100) "USD" zero_amount_payment); [reflexivity|discriminate|reflexivity].
Defined.

(** ** Factory *)

Lemma Factory_ProcessPayment_one (rt : Runtime) (env : Env) (f : Factory)
    (name : string) (amount : float64) (currency : string) :
  (∃ pay, fst (Factory_ProcessPayment rt env f name amount currency) = (Some pay, None))
  ∨ (∃ e, fst (Factory_ProcessPayment rt env f name amount currency) = (None, Some e)).
Proof.
  destruct (Factory_getOrCreateProvider (env_now_create env) f name) as [[p|e] f1] eqn:Hg.
  - destruct (ProcessPayment_resolved rt env f name amount currency p f1 Hg)
      as [[pay ->]|[e ->]]; eauto.
  - right. exists e. unfold Factory_ProcessPayment. by rewrite Hg.
Qed.

(** X8. Factory.ProcessPayment returns exactly one of a Payment and a
    PaymentError, for every factory, name, amount, currency and behaviour
    of the network. *)
Theorem X8_ProcessPayment_exactly_one (rt : Runtime) (env : Env) (f : Factory)
    (name : string) (amount : float64) (currency : string) :
  (∃ pay, fst (Factory_ProcessPayment rt env f name amount currency) = (Some pay, None))
  ∨ (∃ e, fst (Factory_ProcessPayment rt env f name amount currency) = (None, Some e)).
Proof. apply Factory_ProcessPayment_one. Qed.

(** X9. Where the configuration of a name is valid (or the name is already
    cached), CreateProvider and the getOrCreateProvider of ProcessPayment
    do the same: they leave the same factory and return the same adapter,
    or both fail with PROVIDER_NOT_FOUND. *)
Theorem X9_CreateProvider_agrees_with_getOrCreateProvider (now : Time) (f : Factory)
    (name : string) :
  (providers f !! name = None →
   ∀ c, f_config f !! name = Some c → Factory_validateProviderConfig c = None) →
  snd (Factory_CreateProvider now f name) = snd (Factory_getOrCreateProvider now f name)
  ∧ match fst (Factory_CreateProvider now f name),
          fst (Factory_getOrCreateProvider now f name) with
    | inl p, inl q => p = q
    | inr e, inr e' => Code e = ErrProviderNotFound ∧ Code e' = ErrProviderNotFound
    | _, _ => False
    end.
Proof.
  intros Hvalid. unfold Factory_CreateProvider, Factory_getOrCreateProvider.
  destruct (providers f !! name) as [p|]; [done|].
  destruct (f_config f !! name) as [c|] eqn:Hc; [|done].
  rewrite (Hvalid eq_refl c eq_refl).
  destruct (String.eqb name "ProviderA"); [done|].
  destruct (String.eqb name "ProviderB"); done.
Qed.

(** What a call leaves alone: the configuration, the client, every
    adapter already cached, and the adapter and the state of every other
    name. *)
Lemma apply_op_frame rt f op :
  f_config (apply_op rt f op) = f_config f
  ∧ f_httpClient (apply_op rt f op) = f_httpClient f
  ∧ (∀ n p, providers f !! n = Some p → providers (apply_op rt f op) !! n = Some p)
  ∧ (∀ n, n ≠ Op_name op →
          providers (apply_op rt f op) !! n = providers f !! n
          ∧ providerStates (apply_op rt f op) !! n = providerStates f !! n).
Proof.
  assert (∀ now name,
            let f1 := snd (Factory_getOrCreateProvider now f name) in
            f_config f1 = f_config f ∧ f_httpClient f1 = f_httpClient f
            ∧ (∀ n p, providers f !! n = Some p → providers f1 !! n = Some p)
            ∧ (∀ n, n ≠ name → providers f1 !! n = providers f !! n
                               ∧ providerStates f1 !! n = providerStates f !! n)) as Hget.
  { intros now name. unfold Factory_getOrCreateProvider, Factory_install.
    destruct (providers f !! name) as [q|] eqn:Hq; [done|].
    repeat case_match; cbn; repeat split; try done.
    all: try (intros n0 p0 Hn; rewrite lookup_insert_ne; [done|congruence]).
    all: by intros; rewrite lookup_insert_ne. }
  destruct op as [env name amount currency|now name|now name|now name err];
    cbn [apply_op Op_name].
  - specialize (Hget (env_now_create env) name). unfold Factory_ProcessPayment.
    destruct (Factory_getOrCreateProvider (env_now_create env) f name) as [[p|e] f1];
      cbn [fst snd] in *; [|done].
    destruct Hget as (H1 & H2 & H3 & H4).
    destruct (fst (PaymentProvider_ProcessPayment rt p (env_net env) amount currency))
      as [payment [e|]]; cbn; repeat split; try done.
    all: try (by apply H4).
    all: rewrite lookup_insert_ne by done; by apply H4.
  - unfold Factory_CreateProvider, Factory_install.
    destruct (providers f !! name) as [q|] eqn:Hq; [done|].
    repeat case_match; cbn; repeat split; try done.
    all: try (intros n0 p0 Hn; rewrite lookup_insert_ne; [done|congruence]).
    all: by intros; rewrite lookup_insert_ne.
  - apply Hget.
  - unfold Factory_UpdateProviderState.
    destruct (providerStates f !! name); cbn; repeat split; try done.
    by intros; rewrite lookup_insert_ne.
Qed.

(** X10. A call made for one provider name leaves every other name's
    adapter and health record as they were, and no call changes the
    configuration, the HTTP client, or an adapter that is already cached. *)
Theorem X10_calls_are_isolated (rt : Runtime) (f : Factory) (op : Op) :
  f_config (apply_op rt f op) = f_config f
  ∧ f_httpClient (apply_op rt f op) = f_httpClient f
  ∧ (∀ n p, providers f !! n = Some p → providers (apply_op rt f op) !! n = Some p)
  ∧ (∀ n, n ≠ Op_name op →
          providers (apply_op rt f op) !! n = providers f !! n
          ∧ providerStates (apply_op rt f op) !! n = providerStates f !! n).
Proof. apply apply_op_frame. Qed.

Lemma run_ops_cached rt cfg client ops f :
  f_config f = cfg → f_httpClient f = client →
  (∀ n p, providers f !! n = Some p →
          supported n = true ∧ ∃ c, cfg !! n = Some c ∧ p = new_adapter n c client) →
  ∀ n p, providers (run_ops rt ops f) !! n = Some p →
         supported n = true ∧ ∃ c, cfg !! n = Some c ∧ p = new_adapter n c client.
Proof.
  revert f. induction ops as [|op ops IH]; intros f Hcfg Hcl Hinv; cbn; [done|].
  destruct (apply_op_frame rt f op) as (H1 & H2 & H3 & H4).
  apply IH; [congruence|congruence|].
  intros n p Hn. destruct (decide (n = Op_name op)) as [->|Hne].
  2:{ apply Hinv. by rewrite <- (proj1 (H4 n Hne)). }
  destruct (providers f !! Op_name op) as [q|] eqn:Hq.
  { rewrite (H3 _ _ Hq) in Hn. simplify_eq. by apply Hinv. }
  revert Hn. clear IH H1 H2 H3 H4.
  assert (∀ now p',
            providers (snd (Factory_getOrCreateProvider now f (Op_name op))) !! Op_name op
            = Some p' →
            supported (Op_name op) = true
            ∧ ∃ c, cfg !! Op_name op = Some c ∧ p' = new_adapter (Op_name op) c client)
    as Hget.
  { intros now p'. unfold Factory_getOrCreateProvider, Factory_install, supported, new_adapter.
    rewrite Hq, Hcfg, Hcl.
    destruct (cfg !! Op_name op) as [c|]; cbn; [|by rewrite Hq].
    destruct (String.eqb (Op_name op) "ProviderA") eqn:EA; cbn.
    { rewrite lookup_insert_eq. intros [= <-]. eauto. }
    destruct (String.eqb (Op_name op) "ProviderB") eqn:EB; cbn; [|by rewrite Hq].
    rewrite lookup_insert_eq. intros [= <-]. eauto. }
  destruct op as [env name amount currency|now name|now name|now name err];
    cbn [apply_op Op_name] in *.
  - specialize (Hget (env_now_create env)). unfold Factory_ProcessPayment.
    destruct (Factory_getOrCreateProvider (env_now_create env) f name) as [[q|e] f1];
      cbn [fst snd] in *; [|apply Hget].
    destruct (fst (PaymentProvider_ProcessPayment rt q (env_net env) amount currency))
      as [payment [e|]]; cbn; apply Hget.
  - unfold Factory_CreateProvider, Factory_install, supported, new_adapter.
    rewrite Hq, Hcfg, Hcl.
    destruct (cfg !! name) as [c|]; cbn; [|by rewrite Hq].
    destruct (Factory_validateProviderConfig c); cbn; [by rewrite Hq|].
    destruct (String.eqb name "ProviderA") eqn:EA; cbn.
    { rewrite lookup_insert_eq. intros [= <-]. eauto. }
    destruct (String.eqb name "ProviderB") eqn:EB; cbn; [|by rewrite Hq].
    rewrite lookup_insert_eq. intros [= <-]. eauto.
  - apply Hget.
  - unfold Factory_UpdateProviderState.
    destruct (providerStates f !! name); cbn; by rewrite Hq.
Qed.

(** X11. After any sequence of calls on a new factory, every cached
    adapter belongs to a name with an implementation and was built from
    the configuration entry of that name and the factory's HTTP client. *)
Theorem X11_cached_adapters_come_from_configuration (rt : Runtime)
    (cfg : gmap string PaymentProviderConfig) (client : http_Client)
    (ops : list Op) (n : string) (p : PaymentProvider) :
  providers (run_ops rt ops (NewFactory cfg client)) !! n = Some p →
  supported n = true ∧ ∃ c, cfg !! n = Some c ∧ p = new_adapter n c client.
Proof.
  apply (run_ops_cached rt cfg client ops (NewFactory cfg client)); [done|done|].
  intros n' p'. cbn. by rewrite lookup_empty.
Qed.

(** X12. The health record never decides a payment: two factories that
    differ only in their state map return the same result, so a provider
    marked unavailable is called like any other. *)
Theorem X12_health_state_is_not_consulted (rt : Runtime) (env : Env) (f : Factory)
    (states : gmap string ProviderState) (name : string) (amount : float64)
    (currency : string) :
  fst (Factory_ProcessPayment rt env
         (mkFactory (f_config f) (f_httpClient f) (providers f) states)
         name amount currency)
  = fst (Factory_ProcessPayment rt env f name amount currency).
Proof.
  unfold Factory_ProcessPayment, Factory_getOrCreateProvider, Factory_install. cbn.
  destruct (providers f !! name) as [p|]; cbn.
  { by destruct (fst (PaymentProvider_ProcessPayment rt p (env_net env) amount currency))
      as [payment [e|]]. }
  repeat case_match; simplify_eq/=; congruence.
Qed.

(** ** Health records *)

Lemma leading_failures_le outs : (leading_failures outs ≤ length outs)%nat.
Proof. induction outs as [|o outs IH]; cbn; [lia|]. destruct (is_failure o); lia. Qed.

Lemma trailing_failures_snoc outs o :
  trailing_failures (outs ++ [o])
  = if is_failure o then S (trailing_failures outs) else 0%nat.
Proof. unfold trailing_failures. by rewrite rev_app_distr. Qed.

Lemma trailing_failures_le outs : (trailing_failures outs ≤ length outs)%nat.
Proof.
  unfold trailing_failures. rewrite <- (length_rev outs). apply leading_failures_le.
Qed.

Lemma count_failures_snoc outs o :
  count_failures (outs ++ [o])
  = (count_failures outs + if is_failure o then 1 else 0)%nat.
Proof.
  unfold count_failures. rewrite List.filter_app, length_app. cbn.
  by destruct (is_failure o).
Qed.

Lemma count_successes_snoc outs o :
  count_successes (outs ++ [o])
  = (count_successes outs + if is_failure o then 0 else 1)%nat.
Proof.
  unfold count_successes. rewrite List.filter_app, length_app. cbn.
  by destruct (is_failure o).
Qed.

Lemma count_failures_le outs : (count_failures outs ≤ length outs)%nat.
Proof. apply List.filter_length_le. Qed.

Lemma count_successes_le outs : (count_successes outs ≤ length outs)%nat.
Proof. apply List.filter_length_le. Qed.

(** X13. The health record after any run of outcomes (fewer than 2^63) on
    a freshly created provider: the consecutive-error counter is the
    number of failures since the last success, the provider is available
    exactly when that number is below 3, and the two totals count the
    failures and the successes. *)
Theorem X13_health_record_counts (name : string)
    (outcomes : list (Time * option PaymentError)) (f : Factory) (t0 : Time) :
  providerStates f !! name = Some (mkProviderState true t0 0 0 0 None) →
  Z.of_nat (length outcomes) < 2 ^ 63 →
  ∃ st, providerStates (record_outcomes name outcomes f) !! name = Some st
        ∧ ConsecutiveErrs st = Z.of_nat (trailing_failures outcomes)
        ∧ IsAvailable st = (trailing_failures outcomes <? 3)%nat
        ∧ ErrorCount st = Z.of_nat (count_failures outcomes)
        ∧ SuccessCount st = Z.of_nat (count_successes outcomes).
Proof.
  intros Hf. induction outcomes as [|o outcomes IH] using rev_ind; intros Hlen.
  { exists (mkProviderState true t0 0 0 0 None). done. }
  rewrite length_app in Hlen. cbn in Hlen.
  destruct IH as (st & Hst & Hc & Ha & He & Hs); [lia|].
  unfold record_outcomes in *. rewrite fold_left_app. cbn [fold_left].
  set (f' := fold_left (record_outcome name) outcomes f) in *.
  pose proof (trailing_failures_le outcomes). pose proof (count_failures_le outcomes).
  pose proof (count_successes_le outcomes).
  rewrite trailing_failures_snoc, count_failures_snoc, count_successes_snoc.
  unfold record_outcome, is_failure. destruct (snd o) as [e|];
    unfold Factory_updateProviderState; cbn [providerStates];
    rewrite lookup_insert_eq, Hst; eexists; (split; [reflexivity|]);
    cbn [ConsecutiveErrs IsAvailable ErrorCount SuccessCount].
  - rewrite Hc, He, !int64_add_small by lia. repeat split; try lia.
    rewrite Ha.
    destruct (Z.leb_spec 3 (Z.of_nat (trailing_failures outcomes) + 1));
      destruct (Nat.ltb_spec (trailing_failures outcomes) 3);
      destruct (Nat.ltb_spec (S (trailing_failures outcomes)) 3); try done; lia.
  - rewrite Hs, int64_add_small by lia. repeat split; try done; lia.
Qed.

(** X14. How a ProcessPayment call on a name that resolves feeds the
    health record: the factory it leaves is the one after resolution with
    the call's outcome recorded, at the clock reading of the update. *)
Theorem X14_ProcessPayment_records_its_outcome (rt : Runtime) (env : Env) (f : Factory)
    (name : string) (amount : float64) (currency : string)
    (p : PaymentProvider) (f1 : Factory) :
  Factory_getOrCreateProvider (env_now_create env) f name = (inl p, f1) →
  snd (Factory_ProcessPayment rt env f name amount currency)
  = record_outcome name f1
      (env_now_update env, snd (fst (Factory_ProcessPayment rt env f name amount currency))).
Proof.
  intros Hg.
  destruct (ProcessPayment_resolved rt env f name amount currency p f1 Hg)
    as [[pay ->]|[e ->]]; done.
Qed.


(** ** GetProviderMetadata *)

Lemma getOrCreateProvider_error now f name e f1 :
  Factory_getOrCreateProvider now f name = (inr e, f1) →
  f1 = f ∧ Code e = ErrProviderNotFound ∧ EProvider e = "".
Proof.
  unfold Factory_getOrCreateProvider, Factory_install.
  repeat case_match; intros [= <- <-]; done.
Qed.

(** X16. GetProviderMetadata answers with an [error] entry exactly when the
    name cannot be resolved; then the entry is the text of the
    PROVIDER_NOT_FOUND error, it is the only entry, and the factory is left
    as it was. Otherwise the map describes the cached adapter and has no
    [error] entry. *)
Theorem X16_GetProviderMetadata (duration_String : Z -> string) (now : Time)
    (f : Factory) (name : string) :
  match Factory_getOrCreateProvider now f name with
  | (inr e, _) =>
      Factory_GetProviderMetadata duration_String now f name
      = (<["error" := AnyString ("PROVIDER_NOT_FOUND: " +:+ Message e)]> ∅, f)
  | (inl p, f1) =>
      Factory_GetProviderMetadata duration_String now f name
      = (config_metadata duration_String (PaymentProvider_config p), f1)
      ∧ fst (Factory_GetProviderMetadata duration_String now f name) !! "error" = None
      ∧ fst (Factory_GetProviderMetadata duration_String now f name) !! "name"
        = Some (AnyString (PaymentProvider_Name p))
      ∧ providers f1 !! name = Some p
  end.
Proof.
  unfold Factory_GetProviderMetadata.
  destruct (Factory_getOrCreateProvider now f name) as [[p|e] f1] eqn:Hg.
  - destruct (getOrCreateProvider_inl _ _ _ _ _ Hg) as (Hp & _).
    destruct p as [a|b]; cbn; done.
  - destruct (getOrCreateProvider_error _ _ _ _ _ Hg) as (-> & Hc & Hp).
    unfold PaymentError_Error. rewrite Hp, Hc. done.
Qed.

(** ** providers.Repository *)

Lemma fold_register_lookup (ps : list PaymentProvider) (m : gmap string PaymentProvider)
    (n : string) :
  fold_left (fun m p => <[PaymentProvider_Name p := p]> m) ps m !! n
  = match last (List.filter (fun p => String.eqb (PaymentProvider_Name p) n) ps) with
    | Some p => Some p
    | None => m !! n
    end.
Proof.
  revert m. induction ps as [|p ps IH]; intros m; cbn; [done|].
  rewrite IH. destruct (String.eqb_spec (PaymentProvider_Name p) n) as [->|Hne].
  - cbn. destruct (List.filter _ ps) as [|q qs] eqn:Hq; cbn.
    + by rewrite lookup_insert_eq.
    + by destruct (last (q :: qs)) eqn:Hl; [|by apply last_None in Hl].
  - destruct (last _); [done|]. by rewrite lookup_insert_ne.
Qed.

(** X17. A Repository built from a list of adapters dispatches a payment to
    the last adapter registered under the name (a later registration
    replaces an earlier one) and returns what that adapter returns, and it
    answers PROVIDER_NOT_FOUND without any outside call when no adapter has
    that name. Its final log statement never meets a nil payment. *)
Theorem X17_Repository_dispatch (rt : Runtime) (ps : list PaymentProvider) (net : Network)
    (name : string) (amount : float64) (currency : string) :
  match last (List.filter (fun p => String.eqb (PaymentProvider_Name p) name) ps) with
  | Some p =>
      Repository_ProcessPayment rt (NewRepository ps) net name amount currency
      = Some (PaymentProvider_ProcessPayment rt p net amount currency)
  | None =>
      ∃ e, Repository_ProcessPayment rt (NewRepository ps) net name amount currency
           = Some ((None, Some e), [])
           ∧ Code e = ErrProviderNotFound
  end.
Proof.
  unfold Repository_ProcessPayment, NewRepository. cbn [repo_providers].
  rewrite fold_register_lookup.
  destruct (last _) as [p|].
  - destruct (adapter_exactly_one rt p net amount currency) as [[pay Hp]|[e He]];
      destruct (PaymentProvider_ProcessPayment rt p net amount currency) as [r tr];
      cbn in *; by subst r.
  - rewrite lookup_empty. by eexists.
Qed.

(** ** PaymentUseCase *)

(** X18. The use case rejects a request before the repository is
    consulted, whatever the repository is: amount <= 0 gives
    INVALID_AMOUNT, else an empty currency INVALID_CURRENCY, else an empty
    provider name PROVIDER_NOT_FOUND; the repository state is untouched. *)
Theorem X18_use_case_rejects_before_repository {S : Type} (repo : PaymentRepository S)
    (s : S) (provider : string) (amount : float64) (currency : string) :
  f64_le amount f64_zero = true ∨ currency = "" ∨ provider = "" →
  ∃ e, PaymentUseCase_ProcessPayment repo s provider amount currency
       = Some ((None, Some e), s)
       ∧ Code e = (if f64_le amount f64_zero then ErrInvalidAmount
                   else if String.eqb currency "" then ErrInvalidCurrency
                   else ErrProviderNotFound).
Proof.
  intros H. unfold PaymentUseCase_ProcessPayment.
  destruct (f64_le amount f64_zero); [by eexists|].
  destruct (String.eqb_spec currency ""); [by eexists|].
  destruct (String.eqb_spec provider ""); [by eexists|].
  naive_solver.
Qed.

(** X19. With the factory as its repository the use case never
    dereferences a nil payment, and on a request that passes its three
    checks it returns what Factory.ProcessPayment returns and leaves the
    factory that call leaves. *)
Theorem X19_use_case_over_factory (rt : Runtime) (env : Env) (f : Factory)
    (provider : string) (amount : float64) (currency : string) :
  is_Some (PaymentUseCase_ProcessPayment (Factory_repository rt env) f
             provider amount currency)
  ∧ (f64_le amount f64_zero = false → currency ≠ "" → provider ≠ "" →
     PaymentUseCase_ProcessPayment (Factory_repository rt env) f provider amount currency
     = Some (Factory_ProcessPayment rt env f provider amount currency)).
Proof.
  unfold PaymentUseCase_ProcessPayment. cbn [Factory_repository repo_ProcessPayment].
  destruct (Factory_ProcessPayment_one rt env f provider amount currency)
    as [[pay Hp]|[e He]];
    destruct (Factory_ProcessPayment rt env f provider amount currency) as [res f'];
    cbn in *; subst res.
  - split; [by repeat case_match|].
    intros -> Hc%String.eqb_neq Hp%String.eqb_neq. by rewrite Hc, Hp.
  - split; [by repeat case_match|].
    intros -> Hc%String.eqb_neq Hp%String.eqb_neq. by rewrite Hc, Hp.
Qed.

(** ** Reading the CSV file *)

Lemma read_requests_rows rt (records : list (list string)) (acc : list PaymentRequest) :
  Forall (fun record => (3 ≤ length record)%nat) records →
  (∀ rest, read_requests rt ((Ok <$> records) ++ rest) acc
           = read_requests rt rest (acc ++ omap (row_request rt) records)).
Proof.
  intros Hall. revert acc. induction Hall as [|record records Hlen _ IH]; intros acc rest.
  { cbn. by rewrite app_nil_r. }
  destruct record as [|f0 [|f1 [|f2 fs]]]; cbn in Hlen; try lia.
  cbn. destruct (strconv_ParseFloat rt f0) as [x|]; cbn.
  - rewrite IH. by rewrite <- app_assoc.
  - apply IH.
Qed.

(** X20. When every row after the header has at least three fields, the
    requests handed to the dispatcher are the rows whose first field is
    numeric, in file order, each with its second field as currency and its
    third as provider. Rows with a non-numeric amount are skipped, and the
    first row is dropped whatever it holds. *)
Theorem X20_csv_rows_become_requests (rt : Runtime) (header : list string)
    (records : list (list string)) :
  Forall (fun record => (3 ≤ length record)%nat) records →
  csv_requests rt (Ok (Ok header :: (Ok <$> records)))
  = CsvRequests (omap (row_request rt) records).
Proof.
  intros Hall. cbn.
  rewrite <- (app_nil_r (Ok <$> records)), (read_requests_rows rt records [] Hall).
  done.
Qed.


Lemma read_requests_short rt (records : list (list string))
    (rest : list (Result (list string))) (acc : list PaymentRequest) :
  Forall (fun record => (length record < 3)%nat) records →
  Exists (fun record => ∃ field0 x, record !! 0%nat = Some field0
                                    ∧ strconv_ParseFloat rt field0 = Ok x) records →
  read_requests rt ((Ok <$> records) ++ rest) acc = CsvPanic.
Proof.
  intros Hall Hex. revert acc.
  induction Hex as [record records (field0 & x & H0 & Hx)|record records _ IH];
    intros acc; apply Forall_cons in Hall as [Hlen Hall]; cbn.
  - rewrite H0, Hx.
    destruct record as [|f0 [|f1 [|f2 fs]]]; cbn in *; try done; lia.
  - destruct (record !! 0%nat) as [field0|] eqn:H0; [|done].
    destruct (strconv_ParseFloat rt field0) as [x|e]; [|by apply IH].
    destruct record as [|f0 [|f1 [|f2 fs]]]; cbn in *; try done; lia.
Qed.

(** X22. A file whose header has fewer than three fields: the reader then
    yields only records with as many fields as the header, and as soon as
    one of them has a numeric first field the record loop indexes past the
    end of the record (a panic). Rows before it with a non-numeric amount
    are skipped; no error is returned. *)
Theorem X22_csv_short_row_panics (rt : Runtime) (header : list string)
    (records : list (list string)) (rest : list (Result (list string))) :
  (length header < 3)%nat →
  Forall (fun record => length record = length header) records →
  Exists (fun record => ∃ field0 x, record !! 0%nat = Some field0
                                    ∧ strconv_ParseFloat rt field0 = Ok x) records →
  csv_requests rt (Ok (Ok header :: (Ok <$> records) ++ rest)) = CsvPanic.
Proof.
  intros Hlen Hall Hex. cbn. apply read_requests_short; [|done].
  eapply Forall_impl; [exact Hall|]. cbn. intros record ->. done.
Qed.

(** ** The result report *)




(** ** Configuration *)

Lemma contains_elem_of slice str : contains slice str = true ↔ str ∈ slice.
Proof.
  induction slice as [|s slice IH]; cbn.
  - split; [done|by intros ?%elem_of_nil].
  - rewrite elem_of_cons. destruct (String.eqb_spec s str) as [->|Hne]; [naive_solver|].
    rewrite IH. naive_solver.
Qed.

Lemma override_endpoint_same (ps : gmap string PaymentProviderConfig) n :
  (is_Some (ps !! n) ↔ is_Some (ps !! n))
  ∧ ∀ p', ps !! n = Some p' →
          ∃ p, ps !! n = Some p
               ∧ Name p' = Name p ∧ MaxAmount p' = MaxAmount p
               ∧ (Factory_validateProviderConfig p = None →
                  Factory_validateProviderConfig p' = None).
Proof. split; [done|]. intros p' Hp'. exists p'. auto. Qed.

Lemma override_endpoint_valid getenv var name ps n :
  (is_Some (override_endpoint getenv var name ps !! n) ↔ is_Some (ps !! n))
  ∧ ∀ p', override_endpoint getenv var name ps !! n = Some p' →
          ∃ p, ps !! n = Some p
               ∧ Name p' = Name p ∧ MaxAmount p' = MaxAmount p
               ∧ (Factory_validateProviderConfig p = None →
                  Factory_validateProviderConfig p' = None).
Proof.
  unfold override_endpoint.
  destruct (String.eqb_spec (getenv var) "") as [He|He]; cbn [negb];
    [apply override_endpoint_same|].
  destruct (ps !! name) as [provider|] eqn:Hp; [|apply override_endpoint_same].
  destruct (decide (name = n)) as [<-|Hne].
  - rewrite lookup_insert_eq, Hp. split; [split; eauto|].
    intros p' [= <-]. exists provider. repeat split; try done.
    rewrite !validateProviderConfig_valid. cbn. naive_solver.
  - rewrite lookup_insert_ne by done. apply override_endpoint_same.
Qed.

Lemma LoadEnvironment_providers getenv parseDuration c n :
  (is_Some (cfg_Providers (Config_LoadEnvironment getenv parseDuration c) !! n)
   ↔ is_Some (cfg_Providers c !! n))
  ∧ ∀ p', cfg_Providers (Config_LoadEnvironment getenv parseDuration c) !! n = Some p' →
          ∃ p, cfg_Providers c !! n = Some p
               ∧ Name p' = Name p ∧ MaxAmount p' = MaxAmount p
               ∧ (Factory_validateProviderConfig p = None →
                  Factory_validateProviderConfig p' = None).
Proof.
  unfold Config_LoadEnvironment. cbn [cfg_Providers].
  set (ps1 := override_endpoint getenv "PROVIDER_A_ENDPOINT" "ProviderA" (cfg_Providers c)).
  destruct (override_endpoint_valid getenv "PROVIDER_A_ENDPOINT" "ProviderA"
              (cfg_Providers c) n) as [Hd1 Hv1].
  destruct (override_endpoint_valid getenv "PROVIDER_B_ENDPOINT" "ProviderB" ps1 n)
    as [Hd2 Hv2].
  split; [by rewrite Hd2|].
  intros p' Hp'. destruct (Hv2 p' Hp') as (p1 & Hp1 & Hn1 & Hm1 & Hok1).
  destruct (Hv1 p1 Hp1) as (p & Hp & Hn & Hm & Hok).
  exists p. repeat split; [done|congruence|congruence|auto].
Qed.

(** X24. LoadEnvironment keeps the set of configured providers, their
    names and maximum amounts, and never turns a provider configuration
    that the factory accepts into one it rejects: an endpoint is only ever
    replaced by a non-empty one. *)
Theorem X24_LoadEnvironment_keeps_providers_valid (getenv : string -> string)
    (parseDuration : string -> Result Z) (c : Config) (n : string) :
  (is_Some (cfg_Providers (Config_LoadEnvironment getenv parseDuration c) !! n)
   ↔ is_Some (cfg_Providers c !! n))
  ∧ ∀ p', cfg_Providers (Config_LoadEnvironment getenv parseDuration c) !! n = Some p' →
          ∃ p, cfg_Providers c !! n = Some p
               ∧ Name p' = Name p ∧ MaxAmount p' = MaxAmount p
               ∧ (Factory_validateProviderConfig p = None →
                  Factory_validateProviderConfig p' = None).
Proof. apply LoadEnvironment_providers. Qed.

(** X25. With the default configuration, under any environment, a new
    factory creates ProviderA and ProviderB on request: CreateProvider
    succeeds for both names. *)
Theorem X25_default_providers_can_be_created (getenv : string -> string)
    (parseDuration : string -> Result Z) (client : http_Client) (now : Time)
    (name : string) :
  supported name = true →
  ∃ p f',
    Factory_CreateProvider now
      (NewFactory (cfg_Providers (Config_LoadEnvironment getenv parseDuration DefaultConfig))
         client) name
    = (inl p, f')
    ∧ providers f' !! name = Some p.
Proof.
  intros Hsup.
  destruct (LoadEnvironment_providers getenv parseDuration DefaultConfig name)
    as [Hdom Hval].
  assert (is_Some (cfg_Providers DefaultConfig !! name)) as Hdef.
  { apply supported_cases in Hsup as [-> | ->]; by eexists. }
  apply Hdom in Hdef as [p' Hp'].
  destruct (Hval p' Hp') as (p & Hp & _ & _ & Hok).
  assert (Factory_validateProviderConfig p' = None) as Hv.
  { apply Hok. apply supported_cases in Hsup as [-> | ->];
      cbn in Hp; injection Hp as <-; reflexivity. }
  unfold Factory_CreateProvider, Factory_install, NewFactory.
  cbn [providers f_config f_httpClient providerStates].
  rewrite lookup_empty, Hp', Hv.
  apply supported_cases in Hsup as [-> | ->]; cbn;
    eexists _, _; (split; [reflexivity|]); cbn; by rewrite lookup_insert_eq.
Qed.

(** X26. Config.Validate after LoadEnvironment accepts the configuration
    exactly when the effective default currency (DEFAULT_CURRENCY if set,
    else the configured one) is among the supported currencies; the list
    of supported currencies is never changed by the environment. *)
Theorem X26_Validate_after_LoadEnvironment (getenv : string -> string)
    (parseDuration : string -> Result Z) (c : Config) :
  Config_Validate (Config_LoadEnvironment getenv parseDuration c) = None
  ↔ (if String.eqb (getenv "DEFAULT_CURRENCY") ""
     then DefaultCurrency (cfg_Global c) else getenv "DEFAULT_CURRENCY")
    ∈ SupportedCurrencies (cfg_Global c).
Proof.
  unfold Config_Validate, Config_LoadEnvironment.
  cbn [cfg_Global DefaultCurrency SupportedCurrencies].
  rewrite <- contains_elem_of.
  destruct (String.eqb (getenv "DEFAULT_CURRENCY") ""); cbn [negb];
    destruct (contains _ _); cbn; naive_solver.
Qed.

(** ** The batch against one transport *)

Lemma getOrCreateProvider_fst_now now now' g n :
  fst (Factory_getOrCreateProvider now g n) = fst (Factory_getOrCreateProvider now' g n).
Proof.
  unfold Factory_getOrCreateProvider, Factory_install. repeat case_match; done.
Qed.

Lemma getOrCreateProvider_fst_after now now' g n n' :
  fst (Factory_getOrCreateProvider now' (snd (Factory_getOrCreateProvider now g n)) n')
  = fst (Factory_getOrCreateProvider now' g n').
Proof.
  unfold Factory_getOrCreateProvider at 2.
  destruct (providers g !! n) as [p|] eqn:Hp; [done|].
  destruct (f_config g !! n) as [c|] eqn:Hc; [|done].
  destruct (String.eqb n "ProviderA") eqn:HA;
    [|destruct (String.eqb n "ProviderB") eqn:HB; [|done]].
  all: unfold Factory_install; cbn [snd];
    unfold Factory_getOrCreateProvider; cbn [providers f_config f_httpClient];
    (destruct (decide (n = n')) as [<-|Hne];
     [ rewrite lookup_insert_eq, Hp, Hc, HA, ?HB; done
     | rewrite lookup_insert_ne by done; unfold Factory_install;
       repeat case_match; done ]).
Qed.

Lemma resolves_as_refl f : resolves_as f f.
Proof. intros n now. apply getOrCreateProvider_fst_now. Qed.

Lemma resolves_as_getOrCreateProvider f g now n :
  resolves_as f g → resolves_as f (snd (Factory_getOrCreateProvider now g n)).
Proof. intros H n' now'. rewrite getOrCreateProvider_fst_after. apply H. Qed.

Lemma resolves_as_updateProviderState f g now n success err :
  resolves_as f g → resolves_as f (Factory_updateProviderState now g n success err).
Proof.
  intros H n' now'. rewrite <- (H n' now').
  unfold Factory_getOrCreateProvider, Factory_updateProviderState, Factory_install.
  cbn [providers f_config f_httpClient]. repeat case_match; done.
Qed.

Lemma result_on_unresolved rt net f req err :
  fst (Factory_getOrCreateProvider Time_zero f (rq_Provider req)) = inr err →
  result_on rt net f req = mkPaymentResult req None (Some err).
Proof.
  intros H. unfold result_on, Factory_ProcessPayment. cbn [env_now_create].
  destruct (Factory_getOrCreateProvider Time_zero f (rq_Provider req)) as [[p|e] f1];
    cbn in H; by simplify_eq.
Qed.

Lemma result_on_resolved rt net f req provider payment paymentErr :
  fst (Factory_getOrCreateProvider Time_zero f (rq_Provider req)) = inl provider →
  fst (PaymentProvider_ProcessPayment rt provider net (rq_Amount req) (rq_Currency req))
  = (payment, paymentErr) →
  result_on rt net f req
  = match paymentErr with
    | Some e => mkPaymentResult req None (Some e)
    | None => mkPaymentResult req payment None
    end.
Proof.
  intros H Hp. unfold result_on, Factory_ProcessPayment. cbn [env_now_create env_net].
  destruct (Factory_getOrCreateProvider Time_zero f (rq_Provider req)) as [[p|e] f1];
    cbn in H; simplify_eq.
  rewrite Hp. by destruct paymentErr.
Qed.

Lemma step_net_step rt requests net m m' :
  step_net rt requests net m m' → step rt requests m m'.
Proof. intros (a & env & _ & H). by exists a, env. Qed.

Lemma rtc_step_net_step rt requests net m m' :
  rtc (step_net rt requests net) m m' → rtc (step rt requests) m m'.
Proof.
  induction 1 as [|x y z Hxy _ IH]; [done|].
  eapply rtc_l; [by eapply step_net_step|done].
Qed.

(** Whether a goroutine can move does not depend on the transport. *)
Lemma step_any_net rt requests net m m' :
  step rt requests m m' → ∃ m'', step_net rt requests net m m''.
Proof.
  intros ([|w] & env & H).
  { exists m', Main, (mkEnv net (env_now_create env) (env_now_update env)). done. }
  cbn in H.
  assert (is_Some (worker_step rt requests
                     (mkEnv net (env_now_create env) (env_now_update env)) w m))
    as [m'' Hm''].
  { unfold worker_step in *. cbn [env_net env_now_create env_now_update].
    repeat case_match; simplify_eq; eauto. }
  exists m'', (Worker w), (mkEnv net (env_now_create env) (env_now_update env)). done.
Qed.

Lemma batch_completes_on rt requests net m :
  batch_inv requests m →
  ∃ m', rtc (step_net rt requests net) m m' ∧ m_main m' = MReturned.
Proof.
  remember (measure requests m) as k eqn:Hk. revert m Hk.
  induction (lt_wf k) as [k _ IH]. intros m -> Hinv.
  assert (m_main m = MReturned ∨ m_main m ≠ MReturned) as [Hret|Hnret]
    by (destruct (m_main m); auto).
  { exists m. done. }
  destruct (batch_progress rt requests m Hinv Hnret) as [m0 Hstep0].
  destruct (step_any_net rt requests net m m0 Hstep0) as [m1 Hnet].
  pose proof (step_net_step _ _ _ _ _ Hnet) as Hstep.
  destruct (IH (measure requests m1) (step_measure _ _ _ _ Hstep) m1 eq_refl
              (step_inv _ _ _ _ Hinv Hstep)) as (m' & Hrtc & Hret).
  exists m'. split; [by eapply rtc_l|done].
Qed.

Lemma det_inv_init rt requests net f : det_inv rt net f (Batch_init f requests).
Proof.
  constructor; cbn [Batch_init m_fac m_workers m_results].
  - apply resolves_as_refl.
  - apply Forall_replicate. done.
  - apply Forall_replicate. by left.
Qed.

Lemma det_inv_main_step rt requests net f m m' :
  det_inv rt net f m → main_step requests m = Some m' → det_inv rt net f m'.
Proof.
  intros [Hf Hw Hr] H. unfold main_step in H.
  repeat case_match; simplify_eq; constructor; done.
Qed.

Lemma det_inv_worker_step rt requests f env w m m' :
  det_inv rt (env_net env) f m → worker_step rt requests env w m = Some m' →
  det_inv rt (env_net env) f m'.
Proof.
  intros [Hf Hw Hr] H. unfold worker_step in H.
  destruct (m_main m) eqn:Hmain; try done.
  all: destruct (m_workers m !! w) as [pc|] eqn:Hpc; [|done].
  all: pose proof (Forall_lookup_1 _ _ _ _ Hw Hpc) as Hdet.
  all: destruct pc as [|idx|idx req p|idx req payment paymentErr|idx r|]; cbn in Hdet.
  all: try done.
  all: try (destruct (m_chan m); [destruct (m_closed m)|]; simplify_eq;
            constructor; cbn; try done; by apply Forall_insert).
  all: try (destruct (requests !! idx) as [req|] eqn:Hreq;
    [|by simplify_eq; constructor];
    destruct (Factory_getOrCreateProvider (env_now_create env) (m_fac m) (rq_Provider req))
      as [[p|e] f1] eqn:Hg; simplify_eq;
    (constructor; cbn;
     [ replace f1 with (snd (Factory_getOrCreateProvider (env_now_create env) (m_fac m)
                               (rq_Provider req))) by (by rewrite Hg);
       by apply resolves_as_getOrCreateProvider
     | apply Forall_insert; [done|]; cbn;
       pose proof (Hf (rq_Provider req) (env_now_create env)) as Hres;
       rewrite Hg in Hres; cbn in Hres;
       first [ done | symmetry; by apply result_on_unresolved ]
     | done ])).
  all: try (destruct (fst (PaymentProvider_ProcessPayment rt p (env_net env)
                        (rq_Amount req) (rq_Currency req))) as [payment paymentErr] eqn:Hp;
    simplify_eq; constructor; cbn; try done;
    apply Forall_insert; [done|]; cbn; by exists p).
  all: try (destruct Hdet as (p & Hres & Hp);
    pose proof (result_on_resolved rt (env_net env) f req p payment paymentErr Hres Hp)
      as Hon;
    destruct paymentErr as [e|]; simplify_eq;
    (constructor; cbn;
     [ by apply resolves_as_updateProviderState
     | apply Forall_insert; [done|]; cbn; by rewrite Hon
     | done ])).
  all: try (destruct (idx <? length (m_results m))%nat; simplify_eq;
    constructor; cbn; try done;
    [ by apply Forall_insert | apply Forall_insert; [done|]; by right ]).
Qed.

Lemma det_inv_step rt requests net f m m' :
  det_inv rt net f m → step_net rt requests net m m' → det_inv rt net f m'.
Proof.
  intros Hinv ([|w] & env & <- & H); cbn in H;
    [by eapply det_inv_main_step | by eapply det_inv_worker_step].
Qed.

Lemma rtc_det_inv rt requests net f m m' :
  det_inv rt net f m → rtc (step_net rt requests net) m m' → det_inv rt net f m'.
Proof. intros Hinv Hrtc. induction Hrtc; eauto using det_inv_step. Qed.

Lemma returned_results_on rt requests net f m :
  rtc (step_net rt requests net) (Batch_init f requests) m → m_main m = MReturned →
  m_results m = result_on rt net f <$> requests.
Proof.
  intros Hrtc Hret.
  pose proof (rtc_step_inv rt requests _ _ (batch_inv_init requests f)
                (rtc_step_net_step _ _ _ _ _ Hrtc)) as Hinv.
  destruct (returned_results requests m Hinv Hret) as [Hlen Hslots].
  destruct (rtc_det_inv _ _ _ _ _ _ (det_inv_init rt requests net f) Hrtc)
    as [_ _ Hdet].
  apply list_eq. intros i. rewrite list_lookup_fmap.
  destruct (requests !! i) as [req|] eqn:Hreq; cbn.
  - destruct (Hslots i req Hreq) as (r & Hr & Hreq' & Hone).
    rewrite Hr. f_equal.
    rewrite Hreq in Hreq'. injection Hreq' as ->.
    destruct (Forall_lookup_1 _ _ _ _ Hdet Hr) as [-> | Hon]; [|done].
    destruct Hone as [[[? ?] _]|[_ [? ?]]]; done.
  - apply lookup_ge_None. rewrite Hlen. by apply lookup_ge_None.
Qed.

(** X27. Against a transport that answers each request the same way, the
    batch has one outcome whatever the interleaving of its goroutines and
    whatever the clock reads: it returns, and whenever it returns slot [i]
    holds exactly what a single Factory.ProcessPayment call on the initial
    factory returns for request [i]. Requests do not influence each
    other's results. *)
Theorem X27_batch_results_do_not_depend_on_schedule (rt : Runtime)
    (requests : list PaymentRequest) (net : Network) (f : Factory) :
  (∃ results f', BatchProcessPayments_returns_on rt requests net f results f')
  ∧ ∀ results f', BatchProcessPayments_returns_on rt requests net f results f' →
      results = result_on rt net f <$> requests.
Proof.
  split.
  - destruct (batch_completes_on rt requests net _ (batch_inv_init requests f))
      as (m & Hrtc & Hret).
    exists (m_results m), (m_fac m), m. done.
  - intros results f' (m & Hrtc & Hret & <- & _). by apply returned_results_on.
Qed.

(** ** The empty batch *)

Lemma empty_batch_inv rt f m :
  rtc (step rt []) (Batch_init f []) m →
  m_fac m = f ∧ m_chan m = []
  ∧ Forall (fun pc => pc = WRecv ∨ pc = WDone) (m_workers m).
Proof.
  revert m.
  apply (rtc_ind_r (fun m => m_fac m = f ∧ m_chan m = []
                             ∧ Forall (fun pc => pc = WRecv ∨ pc = WDone) (m_workers m))).
  { cbn [Batch_init m_fac m_chan m_workers]. repeat split.
    apply Forall_replicate. by left. }
  intros m m' _ ([|w] & env & H) (Hf & Hc & Hw); cbn in H.
  - unfold main_step in H. cbn [length] in H.
    repeat case_match; simplify_eq; cbn; try done; lia.
  - unfold worker_step in H.
    destruct (m_main m); try done.
    all: destruct (m_workers m !! w) as [pc|] eqn:Hpc; [|done].
    all: destruct (Forall_lookup_1 _ _ _ _ Hw Hpc) as [-> | ->]; [|done].
    all: rewrite Hc in H; destruct (m_closed m); simplify_eq; cbn.
    all: repeat split; try done; apply Forall_insert; auto.
Qed.

(** X28. BatchProcessPayments on an empty list of requests returns an
    empty result slice and leaves the factory as it was: no provider is
    created and no health record is touched. *)
Theorem X28_empty_batch (rt : Runtime) (f : Factory) :
  (∃ results f', BatchProcessPayments_returns rt [] f results f')
  ∧ ∀ results f', BatchProcessPayments_returns rt [] f results f' →
      results = [] ∧ f' = f.
Proof.
  split.
  - destruct (batch_completes rt [] _ (batch_inv_init [] f)) as (m & Hrtc & Hret).
    exists (m_results m), (m_fac m), m. done.
  - intros results f' (m & Hrtc & Hret & <- & <-).
    destruct (returned_results [] m
                (rtc_step_inv rt [] _ _ (batch_inv_init [] f) Hrtc) Hret) as [Hlen _].
    destruct (empty_batch_inv rt f m Hrtc) as (Hf & _).
    split; [by apply nil_length_inv|done].
Qed.

(** X29. What a worker does with a request it has received, when it runs
    undisturbed, is one Factory.ProcessPayment call: three steps take the
    factory to the factory that call leaves and put the call's result,
    with the request, in the worker's hands for the slot of that index;
    channel, result slice and the calling goroutine are untouched. *)
Theorem X29_worker_runs_ProcessPayment (rt : Runtime) (requests : list PaymentRequest)
    (env : Env) (w : nat) (m : Machine) (idx : nat) (req : PaymentRequest) :
  m_main m ≠ MPanic → m_workers m !! w = Some (WGot idx) →
  requests !! idx = Some req →
  ∃ m', rtc (step rt requests) m m'
        ∧ m_fac m' = snd (Factory_ProcessPayment rt env (m_fac m)
                            (rq_Provider req) (rq_Amount req) (rq_Currency req))
        ∧ m_workers m'
          = <[w := WStore idx
                     (mkPaymentResult req
                        (fst (fst (Factory_ProcessPayment rt env (m_fac m)
                                     (rq_Provider req) (rq_Amount req) (rq_Currency req))))
                        (snd (fst (Factory_ProcessPayment rt env (m_fac m)
                                     (rq_Provider req) (rq_Amount req) (rq_Currency req)))))]>
              (m_workers m)
        ∧ m_chan m' = m_chan m ∧ m_results m' = m_results m ∧ m_main m' = m_main m.
Proof. intros Hnp Hw Hreq. by apply worker_runs_ProcessPayment. Qed.

(** ** The further properties at concrete inputs *)

(** X9 at ProviderA's test configuration on a new factory. *)
Lemma X9_witness :
  Factory_validateProviderConfig sample_config_A = None
  ∧ snd (Factory_CreateProvider t_2024_01_15 health_factory "ProviderA")
    = snd (Factory_getOrCreateProvider t_2024_01_15 health_factory "ProviderA").
Proof.
  split; [reflexivity|].
  apply (X9_CreateProvider_agrees_with_getOrCreateProvider t_2024_01_15 health_factory
           "ProviderA").
  intros _ c Hc. vm_compute in Hc. injection Hc as <-. reflexivity.
Defined.

(** X11 after a payment, a failed resolution and a CreateProvider. *)
Lemma X11_witness :
  providers (run_ops sample_runtime sample_ops (NewFactory sample_configs sample_client))
    !! "ProviderB" = Some sample_B
  ∧ supported "ProviderB" = true
  ∧ ∃ c, sample_configs !! "ProviderB" = Some c
         ∧ sample_B = new_adapter "ProviderB" c sample_client.
Proof.
  split; [vm_compute; reflexivity|].
  apply (X11_cached_adapters_come_from_configuration sample_runtime sample_configs
           sample_client sample_ops "ProviderB" sample_B).
  vm_compute. reflexivity.
Defined.

(** X13 after three failures, a success and two failures: two consecutive
    errors, still available, five failures and one success in total. *)
Lemma X13_witness :
  trailing_failures sample_outcomes = 2%nat
  ∧ ∃ st, providerStates (record_outcomes "ProviderA" sample_outcomes fresh_factory)
            !! "ProviderA" = Some st
          ∧ ConsecutiveErrs st = Z.of_nat (trailing_failures sample_outcomes)
          ∧ IsAvailable st = (trailing_failures sample_outcomes <? 3)%nat
          ∧ ErrorCount st = Z.of_nat (count_failures sample_outcomes)
          ∧ SuccessCount st = Z.of_nat (count_successes sample_outcomes).
Proof.
  split; [reflexivity|].
  apply (X13_health_record_counts "ProviderA" sample_outcomes fresh_factory t_2024_01_15).
  - vm_compute. reflexivity.
  - vm_compute. reflexivity.
Defined.

(** X14 at an approved payment on a new factory. *)
Lemma X14_witness :
  snd (Factory_ProcessPayment sample_runtime env_A_approves health_factory
         "ProviderA" (f64_of_Z 100) "USD")
  = record_outcome "ProviderA" fresh_factory
      (env_now_update env_A_approves,
       snd (fst (Factory_ProcessPayment sample_runtime env_A_approves health_factory
                   "ProviderA" (f64_of_Z 100) "USD"))).
Proof.
  apply (X14_ProcessPayment_records_its_outcome sample_runtime env_A_approves
           health_factory "ProviderA" (f64_of_Z 100) "USD" sample_A fresh_factory).
  vm_compute. reflexivity.
Defined.

(** X18 at a request without provider name. *)
Lemma X18_witness :
  ∃ e, PaymentUseCase_ProcessPayment (Factory_repository sample_runtime idle_env)
         health_factory "" (f64_of_Z 100) "USD"
       = Some ((None, Some e), health_factory)
       ∧ Code e = (if f64_le (f64_of_Z 100) f64_zero then ErrInvalidAmount
                   else if String.eqb "USD" "" then ErrInvalidCurrency
                   else ErrProviderNotFound).
Proof.
  apply (X18_use_case_rejects_before_repository
           (Factory_repository sample_runtime idle_env) health_factory ""
           (f64_of_Z 100) "USD").
  right. right. reflexivity.
Defined.

(** X20 at a file whose second row has no numeric amount. *)
Lemma X20_witness :
  csv_requests sample_runtime (Ok (Ok sample_csv_header :: (Ok <$> sample_csv_records)))
  = CsvRequests [mkPaymentRequest (f64_of_Z 100) "USD" "ProviderA"].
Proof.
  apply (X20_csv_rows_become_requests sample_runtime sample_csv_header sample_csv_records).
  repeat constructor.
Defined.


(** X22 at a file of two columns whose second row has a numeric amount. *)
Lemma X22_witness :
  csv_requests sample_runtime (Ok (Ok short_csv_header :: (Ok <$> short_csv_records) ++ []))
  = CsvPanic.
Proof.
  apply (X22_csv_short_row_panics sample_runtime short_csv_header short_csv_records []).
  - repeat constructor.
  - repeat constructor.
  - apply Exists_cons_tl, Exists_cons_hd. exists "999.00", (f64_of_Z 999). split; reflexivity.
Defined.


(** X25 for ProviderB with no environment variable set. *)
Lemma X25_witness :
  ∃ p f',
    Factory_CreateProvider t_2024_01_15
      (NewFactory
         (cfg_Providers (Config_LoadEnvironment no_environment no_duration DefaultConfig))
         sample_client) "ProviderB"
    = (inl p, f')
    ∧ providers f' !! "ProviderB" = Some p.
Proof.
  apply (X25_default_providers_can_be_created no_environment no_duration sample_client
           t_2024_01_15 "ProviderB").
  reflexivity.
Defined.

(** X29 at worker 0 of the end-to-end scenario, holding request 0. *)
Lemma X29_witness :
  m_workers sample_got !! 0%nat = Some (WGot 0)
  ∧ ∃ m', rtc (step sample_runtime sample_requests) sample_got m'
        ∧ m_fac m' = snd (Factory_ProcessPayment sample_runtime env_A_approves
                            (m_fac sample_got) "ProviderA" (f64_of_Z 100) "USD")
        ∧ m_workers m'
          = <[0%nat := WStore 0
                (mkPaymentResult (mkPaymentRequest (f64_of_Z 100) "USD" "ProviderA")
                   (fst (fst (Factory_ProcessPayment sample_runtime env_A_approves
                                (m_fac sample_got) "ProviderA" (f64_of_Z 100) "USD")))
                   (snd (fst (Factory_ProcessPayment sample_runtime env_A_approves
                                (m_fac sample_got) "ProviderA" (f64_of_Z 100) "USD"))))]>
              (m_workers sample_got)
        ∧ m_chan m' = m_chan sample_got ∧ m_results m' = m_results sample_got
        ∧ m_main m' = m_main sample_got.
Proof.
  split; [vm_compute; reflexivity|].
  apply (X29_worker_runs_ProcessPayment sample_runtime sample_requests env_A_approves
           0%nat sample_got 0%nat (mkPaymentRequest (f64_of_Z 100) "USD" "ProviderA")).
  - vm_compute. discriminate.
  - vm_compute. reflexivity.
  - reflexivity.
Defined.
